(** * A contact book: validated fields, records, the address book and the
      upcoming-birthday query of [main.py], embedded in Rocq.

    Python values are modelled as the interpreter has them: a [str] is a
    sequence of Unicode code points, a [date] is a (year, month, day)
    triple checked by its constructor, an exception is a value that is
    returned instead of a result, and a method that mutates [self] takes
    the object and returns it next to its outcome. *)

From Stdlib Require Import ZArith List Bool String Ascii Lia.
Import ListNotations.
Local Open Scope Z_scope.

(* ================================================================== *)
(** * Strings *)
(* ================================================================== *)

(** A Python [str]: the list of its code points. *)
Definition str := list Z.

(** String literals of the source, which are all ASCII. *)
Definition py (s : string) : str :=
  map (fun a => Z.of_N (N_of_ascii a)) (list_ascii_of_string s).

Definition str_eqb (a b : str) : bool :=
  if list_eq_dec Z.eq_dec a b then true else false.

Definition len (s : str) : Z := Z.of_nat (List.length s).

(** ** The Unicode tables behind [str.isdigit], [str.strip], [\d] and [int]

    Decimal digits (category Nd) come in runs of ten consecutive code
    points, valued 0 to 9 in order; the table lists the first code point
    of every run (Unicode 14, ASCII first). *)
Definition decimal_blocks : list Z :=
  [48; 1632; 1776; 1984; 2406; 2534; 2662; 2790;
   2918; 3046; 3174; 3302; 3430; 3558; 3664; 3792;
   3872; 4160; 4240; 6112; 6160; 6470; 6608; 6784;
   6800; 6992; 7088; 7232; 7248; 42528; 43216; 43264;
   43472; 43504; 43600; 44016; 65296; 66720; 68912; 69734;
   69872; 69942; 70096; 70384; 70736; 70864; 71248; 71360;
   71472; 71904; 72016; 72784; 73040; 73120; 92768; 92864;
   93008; 120782; 120792; 120802; 120812; 120822; 123200; 123632;
   125264; 130032].

(** Characters that are digits without being decimal digits: superscripts
    and subscripts, circled and parenthesised digits and the like
    (inclusive ranges). *)
Definition other_digit_ranges : list (Z * Z) :=
  [(178, 179); (185, 185); (4969, 4977); (6618, 6618); (8304, 8304);
   (8308, 8313); (8320, 8329); (9312, 9320); (9332, 9340); (9352, 9360);
   (9450, 9450); (9461, 9469); (9471, 9471); (10102, 10110); (10112, 10120);
   (10122, 10130); (68160, 68163); (69216, 69224); (69714, 69722);
   (127232, 127242)].

(** White space, as [str.strip] and [str.isspace] see it. *)
Definition whitespace_ranges : list (Z * Z) :=
  [(9, 13); (28, 32); (133, 133); (160, 160); (5760, 5760);
   (8192, 8202); (8232, 8233); (8239, 8239); (8287, 8287); (12288, 12288)].

Definition in_range (c : Z) (r : Z * Z) : bool :=
  (fst r <=? c) && (c <=? snd r).

Definition in_block (c b : Z) : bool := (b <=? c) && (c <? b + 10).

(** The decimal value of a character, when it is a decimal digit. *)
Definition decimal_value (c : Z) : option Z :=
  match find (in_block c) decimal_blocks with
  | Some b => Some (c - b)
  | None => None
  end.

Definition char_isdecimal (c : Z) : bool :=
  match decimal_value c with Some _ => true | None => false end.

Definition char_isdigit (c : Z) : bool :=
  char_isdecimal c || existsb (in_range c) other_digit_ranges.

Definition char_isspace (c : Z) : bool :=
  existsb (in_range c) whitespace_ranges.

(** [str.isdigit]: every character is a digit and there is at least one. *)
Definition isdigit (s : str) : bool :=
  match s with
  | [] => false
  | _ => forallb char_isdigit s
  end.

Fixpoint lstrip (s : str) : str :=
  match s with
  | c :: rest => if char_isspace c then lstrip rest else s
  | [] => []
  end.

Definition rstrip (s : str) : str := rev (lstrip (rev s)).

(** [str.strip()] *)
Definition strip (s : str) : str := rstrip (lstrip s).

(** The characters '0' to '9'. *)
Definition ascii_digit (c : Z) : bool := (48 <=? c) && (c <=? 57).

(** Decimal numerals. [int_str] is [str(n)] for 0 <= n, most significant
    digit first; twenty digits are more than any number printed here has. *)
Fixpoint dec_digits (fuel : nat) (n : Z) : str :=
  match fuel with
  | O => []
  | S f => if n <? 10 then [48 + n]
           else dec_digits f (n / 10) ++ [48 + n mod 10]
  end.

Definition int_str (n : Z) : str := dec_digits 20 n.

(** A number printed in two columns with a leading zero, C's [%02d]. *)
Definition pad2 (n : Z) : str :=
  if n <? 10 then 48 :: int_str n else int_str n.

(** A number printed in four columns with leading zeros, C's [%04d]. *)
Definition pad4 (n : Z) : str :=
  if n <? 10 then 48 :: 48 :: 48 :: int_str n
  else if n <? 100 then 48 :: 48 :: int_str n
  else if n <? 1000 then 48 :: int_str n
  else int_str n.

(** [int(s)] on the texts the date pattern lets through: leading white
    space is skipped and the decimal digits of any script are read. *)
Fixpoint int_digits (acc : Z) (s : str) : option Z :=
  match s with
  | [] => Some acc
  | c :: rest =>
      match decimal_value c with
      | Some v => int_digits (10 * acc + v) rest
      | None => None
      end
  end.

Definition py_int (s : str) : option Z :=
  match strip s with
  | [] => None
  | t => int_digits 0 t
  end.

(* ================================================================== *)
(** * Exceptions and outcomes *)
(* ================================================================== *)

Inductive exn : Type :=
| ValueError (msg : str)
| KeyError (msg : str)
| TypeError (msg : str)
| OverflowError (msg : str).

(** What a call produces: a value, or a raised exception. *)
Inductive outcome (A : Type) : Type :=
| Ret (a : A)
| Raise (e : exn).
Arguments Ret {A} a.
Arguments Raise {A} e.

Definition bind {A B} (m : outcome A) (k : A -> outcome B) : outcome B :=
  match m with
  | Ret a => k a
  | Raise e => Raise e
  end.

Notation "x <- m ;; k" := (bind m (fun x => k))
  (at level 61, m at next level, right associativity).

(** [try: body except ValueError: handler] *)
Definition except_ValueError {A} (body : outcome A) (handler : outcome A)
  : outcome A :=
  match body with
  | Raise (ValueError _) => handler
  | other => other
  end.

Definition is_raise {A} (o : outcome A) : bool :=
  match o with Raise _ => true | Ret _ => false end.

(* ================================================================== *)
(** * Dates ([datetime.date]) *)
(* ================================================================== *)

Record date : Type := mkdate { year : Z; month : Z; day : Z }.

Definition date_eqb (a b : date) : bool :=
  (year a =? year b) && (month a =? month b) && (day a =? day b).

Definition MINYEAR : Z := 1.
Definition MAXYEAR : Z := 9999.
Definition MAXORDINAL : Z := 3652059.

Definition is_leap (y : Z) : bool :=
  (y mod 4 =? 0) && (negb (y mod 100 =? 0) || (y mod 400 =? 0)).

Definition DAYS_IN_MONTH (m : Z) : Z :=
  match m with
  | 1 => 31 | 2 => 28 | 3 => 31 | 4 => 30 | 5 => 31 | 6 => 30
  | 7 => 31 | 8 => 31 | 9 => 30 | 10 => 31 | 11 => 30 | 12 => 31
  | _ => 0
  end.

Definition DAYS_BEFORE_MONTH (m : Z) : Z :=
  match m with
  | 1 => 0 | 2 => 31 | 3 => 59 | 4 => 90 | 5 => 120 | 6 => 151
  | 7 => 181 | 8 => 212 | 9 => 243 | 10 => 273 | 11 => 304 | 12 => 334
  | _ => 0
  end.

Definition days_in_month (y m : Z) : Z :=
  if (m =? 2) && is_leap y then 29 else DAYS_IN_MONTH m.

Definition days_before_year (y : Z) : Z :=
  let y1 := y - 1 in
  y1 * 365 + y1 / 4 - y1 / 100 + y1 / 400.

Definition days_before_month (y m : Z) : Z :=
  DAYS_BEFORE_MONTH m + (if (2 <? m) && is_leap y then 1 else 0).

Definition ymd2ord (y m d : Z) : Z :=
  days_before_year y + days_before_month y m + d.

Definition valid_dateb (y m d : Z) : bool :=
  (MINYEAR <=? y) && (y <=? MAXYEAR) && (1 <=? m) && (m <=? 12)
  && (1 <=? d) && (d <=? days_in_month y m).

(** [date(year, month, day)]: the constructor checks its arguments, the
    year first, then the month, then the day. *)
Definition date_new (y m d : Z) : outcome date :=
  if negb ((MINYEAR <=? y) && (y <=? MAXYEAR)) then
    Raise (ValueError (py "year " ++ int_str y ++ py " is out of range"))
  else if negb ((1 <=? m) && (m <=? 12)) then
    Raise (ValueError (py "month must be in 1..12"))
  else if negb ((1 <=? d) && (d <=? days_in_month y m)) then
    Raise (ValueError (py "day is out of range for month"))
  else Ret (mkdate y m d).

(** [d.replace(year=y)] builds a new date, so it is checked again. *)
Definition replace_year (d : date) (y : Z) : outcome date :=
  date_new y (month d) (day d).

Definition toordinal (d : date) : Z := ymd2ord (year d) (month d) (day d).

(** Monday is 0, Sunday is 6. *)
Definition weekday (d : date) : Z := (toordinal d + 6) mod 7.

(** [a < b] *)
Definition date_ltb (a b : date) : bool :=
  (year a <? year b)
  || ((year a =? year b)
      && ((month a <? month b)
          || ((month a =? month b) && (day a <? day b)))).

(** [(a - b).days] *)
Definition days_between (a b : date) : Z := toordinal a - toordinal b.

Definition DI400Y : Z := 146097.
Definition DI100Y : Z := 36524.
Definition DI4Y : Z := 1461.

(** The month and day of the [n]-th day (from 0) of a year. *)
Definition month_day (leapyear : bool) (n : Z) : Z * Z :=
  let month := Z.shiftr (n + 50) 5 in
  let preceding :=
    DAYS_BEFORE_MONTH month + (if (2 <? month) && leapyear then 1 else 0) in
  if n <? preceding then
    let month' := month - 1 in
    let preceding' :=
      preceding
      - (DAYS_IN_MONTH month' + (if (month' =? 2) && leapyear then 1 else 0)) in
    (month', n - preceding' + 1)
  else (month, n - preceding + 1).

(** [date.fromordinal(n)], the inverse of [toordinal]. *)
Definition ord2ymd (n : Z) : date :=
  let n := n - 1 in
  let n400 := n / DI400Y in
  let n := n mod DI400Y in
  let n100 := n / DI100Y in
  let n := n mod DI100Y in
  let n4 := n / DI4Y in
  let n := n mod DI4Y in
  let n1 := n / 365 in
  let n := n mod 365 in
  let year := n400 * 400 + 1 + (n100 * 100 + n4 * 4 + n1) in
  if (n1 =? 4) || (n100 =? 4) then mkdate (year - 1) 12 31
  else
    let leapyear := (n1 =? 3) && (negb (n4 =? 24) || (n100 =? 3)) in
    let md := month_day leapyear n in
    mkdate year (fst md) (snd md).

(** [d + timedelta(days=n)] *)
Definition date_add_days (d : date) (n : Z) : outcome date :=
  let o := toordinal d + n in
  if (0 <? o) && (o <=? MAXORDINAL) then Ret (ord2ymd o)
  else Raise (OverflowError (py "date value out of range")).

(* ================================================================== *)
(** * [strptime] and [strftime] for the format [%d.%m.%Y] *)
(* ================================================================== *)

(** A regular expression as a backtracking matcher: the ways to match a
    prefix of the text, in the order the engine tries them, each with the
    matched text and what follows it. *)
Definition regex := str -> list (str * str).

Definition re_char (p : Z -> bool) : regex :=
  fun s =>
    match s with
    | c :: rest => if p c then [([c], rest)] else []
    | [] => []
    end.

Definition re_seq (a b : regex) : regex :=
  fun s =>
    flat_map (fun m1 => map (fun m2 => (fst m1 ++ fst m2, snd m2)) (b (snd m1)))
             (a s).

Definition re_alt (a b : regex) : regex := fun s => a s ++ b s.

Definition char_between (lo hi c : Z) : bool := (lo <=? c) && (c <=? hi).

(** [\d] matches the decimal digits of every script. *)
Definition re_d : regex := re_char char_isdecimal.

(** [%d] is [3[0-1]|[1-2]\d|0[1-9]|[1-9]| [1-9]]. *)
Definition re_day : regex :=
  re_alt (re_seq (re_char (Z.eqb 51)) (re_char (char_between 48 49)))
 (re_alt (re_seq (re_char (char_between 49 50)) re_d)
 (re_alt (re_seq (re_char (Z.eqb 48)) (re_char (char_between 49 57)))
 (re_alt (re_char (char_between 49 57))
         (re_seq (re_char (Z.eqb 32)) (re_char (char_between 49 57)))))).

(** [%m] is [1[0-2]|0[1-9]|[1-9]]. *)
Definition re_month : regex :=
  re_alt (re_seq (re_char (Z.eqb 49)) (re_char (char_between 48 50)))
 (re_alt (re_seq (re_char (Z.eqb 48)) (re_char (char_between 49 57)))
         (re_char (char_between 49 57))).

(** [%Y] is [\d\d\d\d]. *)
Definition re_year : regex := re_seq re_d (re_seq re_d (re_seq re_d re_d)).

Definition re_dot : regex := re_char (Z.eqb 46).

(** [re.match] of the compiled format
    [(?P<d>...)\.(?P<m>...)\.(?P<Y>...)]: the first way through, as the
    groups d, m and Y and the text left over. *)
Definition match_dmY (s : str) : option (str * str * str * str) :=
  hd_error
    (flat_map (fun d =>
     flat_map (fun dot1 =>
     flat_map (fun m =>
     flat_map (fun dot2 =>
          map (fun y => (fst d, fst m, fst y, snd y)) (re_year (snd dot2)))
       (re_dot (snd m)))
       (re_month (snd dot1)))
       (re_dot (snd d)))
       (re_day s)).

Definition int_group (s : str) : outcome Z :=
  match py_int s with
  | Some n => Ret n
  | None => Raise (ValueError (py "invalid literal for int() with base 10"))
  end.

(** [datetime.strptime(s, "%d.%m.%Y").date()]. The two messages that quote
    the text are given without the quotation. *)
Definition strptime_dmY (s : str) : outcome date :=
  match match_dmY s with
  | None => Raise (ValueError (py "time data does not match format"))
  | Some (d, m, y, rest) =>
      match rest with
      | _ :: _ => Raise (ValueError (py "unconverted data remains"))
      | [] =>
          year <- int_group y ;;
          month <- int_group m ;;
          day <- int_group d ;;
          date_new year month day
      end
  end.

(** How the C library prints [%Y], to which CPython leaves it: glibc prints
    the year as a plain number, so a year below 1000 has fewer than four
    digits; other C libraries fill four columns with zeros. *)
Inductive libc : Type := glibc | zero_padding_libc.

Definition year_str (c : libc) (y : Z) : str :=
  match c with
  | glibc => int_str y
  | zero_padding_libc => pad4 y
  end.

(** [d.strftime("%d.%m.%Y")] *)
Definition strftime_dmY (c : libc) (d : date) : str :=
  pad2 (day d) ++ py "." ++ pad2 (month d) ++ py "." ++ year_str c (year d).

(* ================================================================== *)
(** * Fields *)
(* ================================================================== *)

(** The values a field holds. *)
Inductive pyval : Type :=
| VStr (s : str)
| VDate (d : date).

(** [a == b] on these values; a string never equals a date. *)
Definition pyval_eqb (a b : pyval) : bool :=
  match a, b with
  | VStr s, VStr t => str_eqb s t
  | VDate d, VDate e => date_eqb d e
  | _, _ => false
  end.

(** An instance of a subclass of [Field], with what its [value] holds. *)
Inductive Field : Type :=
| Name (v : str)
| Phone (v : str)
| Birthday (v : date).

Definition value (f : Field) : pyval :=
  match f with
  | Name v => VStr v
  | Phone v => VStr v
  | Birthday v => VDate v
  end.

(** The objects a field can be compared with. *)
Inductive pyobj : Type :=
| OField (f : Field)
| OStr (s : str)
| ODate (d : date)
| ONone.

(** [Field.__eq__] *)
Definition Field_eq (self : Field) (other : pyobj) : bool :=
  match other with
  | OField o => pyval_eqb (value self) (value o)
  | _ => false
  end.

(** [Name(value)] *)
Definition Name_init (v : str) : outcome Field :=
  match strip v with
  | [] => Raise (ValueError (py "Name field cannot be empty."))
  | _ => Ret (Name v)
  end.

(** [Phone(value)] *)
Definition Phone_init (v : str) : outcome Field :=
  if negb (isdigit v) || negb (len v =? 10) then
    Raise (ValueError (py "Phone number must consist of 10 digits."))
  else Ret (Phone v).

(** [Birthday(value)] *)
Definition Birthday_init (v : str) : outcome Field :=
  except_ValueError
    (birthday <- strptime_dmY v ;; Ret (Birthday birthday))
    (Raise (ValueError (py "Invalid date format. Use DD.MM.YYYY"))).

(** [str(field)]: [Birthday.__str__] for a birthday, [Field.__str__] for
    the others. *)
Definition Field_str (c : libc) (f : Field) : str :=
  match f with
  | Name v => v
  | Phone v => v
  | Birthday v => strftime_dmY c v
  end.

(* ================================================================== *)
(** * Records (class [Record]) *)
(* ================================================================== *)

(** An instance of [Record]: its three attributes. *)
Record Contact : Type := mkContact {
  name : Field;
  phones : list Field;
  birthday : option Field
}.

Definition set_phones (self : Contact) (l : list Field) : Contact :=
  mkContact (name self) l (birthday self).

Definition set_birthday (self : Contact) (b : option Field) : Contact :=
  mkContact (name self) (phones self) b.

(** A method of a record: it is given [self] and returns its outcome
    together with [self] as the call leaves it. *)
Definition method (A : Type) : Type := Contact -> outcome A * Contact.

(** [Record(name)] *)
Definition Record_init (n : str) : outcome Contact :=
  nm <- Name_init n ;;
  Ret (mkContact nm [] None).

(** [Record.add_phone] *)
Definition add_phone (phone : str) : method unit :=
  fun self =>
    match Phone_init phone with
    | Ret p => (Ret tt, set_phones self (phones self ++ [p]))
    | Raise e => (Raise e, self)
    end.

(** [Record.remove_phone] *)
Definition remove_phone (phone : str) : method unit :=
  fun self =>
    (Ret tt,
     set_phones self
       (filter (fun p => negb (pyval_eqb (value p) (VStr phone)))
               (phones self))).

(** [list.index(x)]: the position of the first element equal to [x]. *)
Fixpoint list_index (l : list Field) (x : Field) : outcome nat :=
  match l with
  | [] => Raise (ValueError (py "x is not in list"))
  | e :: rest =>
      if Field_eq e (OField x) then Ret O
      else i <- list_index rest x ;; Ret (S i)
  end.

(** [l[i] = x] for a position inside the list. *)
Fixpoint list_set (l : list Field) (i : nat) (x : Field) : list Field :=
  match l, i with
  | [], _ => []
  | _ :: rest, O => x :: rest
  | e :: rest, S j => e :: list_set rest j x
  end.

(** [Record.edit_phone]: both statements of the [try] block run under the
    one handler. *)
Definition edit_phone (old_phone new_phone : str) : method unit :=
  fun self =>
    match
      except_ValueError
        (old <- Phone_init old_phone ;;
         index <- list_index (phones self) old ;;
         new <- Phone_init new_phone ;;
         Ret (index, new))
        (Raise (ValueError (py "Old phone number not found.")))
    with
    | Ret (index, new) =>
        (Ret tt, set_phones self (list_set (phones self) index new))
    | Raise e => (Raise e, self)
    end.

(** [Record.find_phone]; [None] is Python's [None]. *)
Definition find_phone (phone : str) (self : Contact) : option Field :=
  find (fun p => pyval_eqb (value p) (VStr phone)) (phones self).

(** [Record.add_birthday] *)
Definition add_birthday (b : str) : method unit :=
  fun self =>
    match Birthday_init b with
    | Ret f => (Ret tt, set_birthday self (Some f))
    | Raise e => (Raise e, self)
    end.

(* ================================================================== *)
(** * The address book (class [AddressBook]) *)
(* ================================================================== *)

(** [self.data]: a dictionary keeps its keys in insertion order. *)
Definition AddressBook : Type := list (pyval * Contact).

(** [key in d] *)
Definition dict_contains (k : pyval) (d : AddressBook) : bool :=
  existsb (fun kv => pyval_eqb (fst kv) k) d.

(** [d.get(key)] *)
Definition dict_get (k : pyval) (d : AddressBook) : option Contact :=
  match find (fun kv => pyval_eqb (fst kv) k) d with
  | Some kv => Some (snd kv)
  | None => None
  end.

(** [d[key] = v]: a key that is present keeps its place. *)
Fixpoint dict_set (k : pyval) (v : Contact) (d : AddressBook) : AddressBook :=
  match d with
  | [] => [(k, v)]
  | kv :: rest =>
      if pyval_eqb (fst kv) k then (fst kv, v) :: rest
      else kv :: dict_set k v rest
  end.

(** [del d[key]] for a key that is present. *)
Definition dict_del (k : pyval) (d : AddressBook) : AddressBook :=
  filter (fun kv => negb (pyval_eqb (fst kv) k)) d.

(** [d.values()] *)
Definition dict_values (d : AddressBook) : list Contact := map snd d.

(** [AddressBook.add_record] *)
Definition add_record (record : Contact) (self : AddressBook)
  : outcome unit * AddressBook :=
  if dict_contains (value (name record)) self then
    (Raise (ValueError (py "Record with this name already exists.")), self)
  else (Ret tt, dict_set (value (name record)) record self).

(** [AddressBook.find] *)
Definition find_record (n : pyval) (self : AddressBook) : option Contact :=
  dict_get n self.

(** [AddressBook.delete] *)
Definition delete (n : pyval) (self : AddressBook)
  : outcome unit * AddressBook :=
  if dict_contains n self then (Ret tt, dict_del n self)
  else (Raise (KeyError (py "Record not found.")), self).

(** A method called on the record that [find] returns: the book holds the
    very object, so what the method does to it shows in the book. Nothing
    is run when the name is absent. *)
Definition on_record {A} (n : pyval) (m : method A) (self : AddressBook)
  : option (outcome A) * AddressBook :=
  match find_record n self with
  | None => (None, self)
  | Some r => (Some (fst (m r)), dict_set n (snd (m r)) self)
  end.

(** One element of the list that [get_upcoming_birthdays] returns, a
    dictionary with the keys "name" and "congratulation date". *)
Record greeting : Type := mkgreeting {
  g_name : pyval;
  g_congratulation_date : str
}.

(** Lines 131 to 134: the birthday in this year, or in the next one when
    it has passed. *)
Definition birthday_this_year (today d : date) : outcome date :=
  this_year <- replace_year d (year today) ;;
  if date_ltb this_year today then replace_year this_year (year today + 1)
  else Ret this_year.

(** Lines 138 to 142: the day of congratulation, rendered. *)
Definition congratulation_date (c : libc) (bty : date) : outcome str :=
  if 5 <=? weekday bty then
    let days_ahead := 7 - weekday bty in
    shifted <- date_add_days bty days_ahead ;;
    Ret (strftime_dmY c shifted)
  else Ret (strftime_dmY c bty).

(** The body of the loop for one record: the greetings it appends. *)
Definition upcoming_of_record (c : libc) (today : date) (days : Z)
  (record : Contact) : outcome (list greeting) :=
  match birthday record with
  | None => Ret []
  | Some b =>
      match value b with
      | VStr _ => Raise (TypeError (py "str.replace() takes no keyword arguments"))
      | VDate d =>
          bty <- birthday_this_year today d ;;
          let delta := days_between bty today in
          if (0 <=? delta) && (delta <=? days) then
            s <- congratulation_date c bty ;;
            Ret [mkgreeting (value (name record)) s]
          else Ret []
      end
  end.

Fixpoint upcoming_loop (c : libc) (today : date) (days : Z)
  (records : list Contact) (upcoming_birthdays : list greeting)
  : outcome (list greeting) :=
  match records with
  | [] => Ret upcoming_birthdays
  | record :: rest =>
      more <- upcoming_of_record c today days record ;;
      upcoming_loop c today days rest (upcoming_birthdays ++ more)
  end.

(** [AddressBook.get_upcoming_birthdays], with [date.today()] as [today]. *)
Definition get_upcoming_birthdays (c : libc) (today : date) (days : Z)
  (self : AddressBook) : outcome (list greeting) :=
  upcoming_loop c today days (dict_values self) [].

(* ================================================================== *)
(** * The states the operations reach *)
(* ================================================================== *)

(** The mutating methods of a record. *)
Inductive record_op : Type :=
| AddPhone (raw : str)
| RemovePhone (raw : str)
| EditPhone (old_raw new_raw : str)
| AddBirthday (raw : str).

Definition run_record_op (o : record_op) : method unit :=
  match o with
  | AddPhone raw => add_phone raw
  | RemovePhone raw => remove_phone raw
  | EditPhone old_raw new_raw => edit_phone old_raw new_raw
  | AddBirthday raw => add_birthday raw
  end.

(** A record as the program can hold it: made by [Record(name)] and then
    changed by its methods, whether a call succeeded or raised. *)
Inductive built : Contact -> Prop :=
| built_init n r : Record_init n = Ret r -> built r
| built_op o r : built r -> built (snd (run_record_op o r)).

(** An address book as the program can hold it: empty at first, then
    changed by [add_record], by [delete] and by the methods of the
    records in it. *)
Inductive reachable : AddressBook -> Prop :=
| reach_empty : reachable []
| reach_add r b : reachable b -> built r -> reachable (snd (add_record r b))
| reach_delete n b : reachable b -> reachable (snd (delete n b))
| reach_record n o b :
    reachable b -> reachable (snd (on_record n (run_record_op o) b)).

(** A phone entry that went through the check of [Phone.__init__]. *)
Definition validated_phone (f : Field) : Prop :=
  exists v, f = Phone v /\ isdigit v = true /\ len v = 10.

(** Whether two fields are instances of the same class. *)
Definition same_class (a b : Field) : bool :=
  match a, b with
  | Name _, Name _ => true
  | Phone _, Phone _ => true
  | Birthday _, Birthday _ => true
  | _, _ => false
  end.

(** The ten-character string of superscript twos. *)
Definition superscript_twos : str :=
  [178; 178; 178; 178; 178; 178; 178; 178; 178; 178].


(* ================================================================== *)
(** * Texts of the form DD.MM.YYYY, and a check of [month_day] *)
(* ================================================================== *)

(** The number that one of the characters '0' to '9' writes. *)
Definition digit_of (c : Z) : Z := c - 48.


(** The check that [month_day] puts day [n] of a year in a month and on a
    day of that month, [n] days after the first of January. *)
Definition month_day_ok (leapyear : bool) (n : Z) : bool :=
  let m := fst (month_day leapyear n) in
  let d := snd (month_day leapyear n) in
  (1 <=? m) && (m <=? 12) && (1 <=? d)
  && (d <=? DAYS_IN_MONTH m + (if (m =? 2) && leapyear then 1 else 0))
  && (DAYS_BEFORE_MONTH m + (if (2 <? m) && leapyear then 1 else 0) + d
      =? n + 1).

(** The numbers 0, 1, ..., k - 1. *)
Definition Z_range (k : nat) : list Z := map Z.of_nat (seq 0 k).

(* ================================================================== *)
(** * The upcoming birthdays, as the specification words them *)
(* ================================================================== *)

(** The birthday projected onto the year of [today], or onto the next
    year when that day is strictly before [today]. *)
Definition projected (today d : date) : date :=
  let this_year := mkdate (year today) (month d) (day d) in
  if date_ltb this_year today
  then mkdate (year today + 1) (month d) (day d)
  else this_year.

(** The inclusive window [today, today + days]. *)
Definition in_window (today : date) (days : Z) (p : date) : bool :=
  (toordinal today <=? toordinal p) && (toordinal p <=? toordinal today + days).

(** By how many days a Saturday (5) or a Sunday (6) is moved. *)
Definition weekend_shift (p : date) : Z :=
  if weekday p =? 5 then 2 else if weekday p =? 6 then 1 else 0.

(** The day of congratulation: the projected date moved by that much. *)
Definition congratulation_day (p : date) : date :=
  if weekend_shift p =? 0 then p else ord2ymd (toordinal p + weekend_shift p).

(** The greeting for one record, if any. *)
Definition expected_greetings (c : libc) (today : date) (days : Z)
  (r : Contact) : list greeting :=
  match birthday r with
  | Some (Birthday d) =>
      if in_window today days (projected today d)
      then [mkgreeting (value (name r))
              (strftime_dmY c (congratulation_day (projected today d)))]
      else []
  | _ => []
  end.

(** Every record of the book that has a birthday has it as a [Birthday]
    field whose day exists in the year of [today] and in the year it is
    projected onto. *)
Definition projections_exist (today : date) (book : AddressBook) : Prop :=
  forall r b, In r (dict_values book) -> birthday r = Some b ->
    exists d, b = Birthday d
      /\ valid_dateb (year today) (month d) (day d) = true
      /\ valid_dateb (year (projected today d)) (month d) (day d) = true.

(* ================================================================== *)
(** * Rendering records and the book *)
(* ================================================================== *)

(** [str(d)] for a date, the ISO form, which Python prints itself. *)
Definition isoformat (d : date) : str :=
  pad4 (year d) ++ py "-" ++ pad2 (month d) ++ py "-" ++ pad2 (day d).

(** A value inside an f-string. *)
Definition format_value (v : pyval) : str :=
  match v with
  | VStr s => s
  | VDate d => isoformat d
  end.

(** [sep.join(items)] for items that are strings. *)
Fixpoint join (sep : str) (items : list str) : str :=
  match items with
  | [] => []
  | [s] => s
  | s :: rest => s ++ sep ++ join sep rest
  end.

(** [join] takes strings only: the first item that is none raises. The
    message, which names the position of the item, is given without it. *)
Fixpoint all_str (items : list pyval) : outcome (list str) :=
  match items with
  | [] => Ret []
  | VStr s :: rest => l <- all_str rest ;; Ret (s :: l)
  | VDate _ :: _ =>
      Raise (TypeError (py "expected str instance, datetime.date found"))
  end.

(** [Record.__str__] *)
Definition Record_str (c : libc) (self : Contact) : outcome str :=
  phones <- all_str (map value (phones self)) ;;
  let phones_str := join (py "; ") phones in
  let birthday_str :=
    match birthday self with
    | Some b => py ", Birthday: " ++ Field_str c b
    | None => []
    end in
  Ret (py "Contact name: " ++ format_value (value (name self))
       ++ py ", Phones: " ++ phones_str ++ birthday_str).

(** [str(record) for record in ...], one after the other. *)
Fixpoint records_str (c : libc) (records : list Contact)
  : outcome (list str) :=
  match records with
  | [] => Ret []
  | record :: rest =>
      s <- Record_str c record ;;
      l <- records_str c rest ;;
      Ret (s :: l)
  end.

(** [AddressBook.__str__] *)
Definition AddressBook_str (c : libc) (self : AddressBook) : outcome str :=
  lines <- records_str c (dict_values self) ;;
  Ret (join (py (String (ascii_of_nat 10) EmptyString)) lines).

(* ================================================================== *)
(** * The commands *)
(* ================================================================== *)

(** What a command can raise: the exceptions of the classes above, the
    [IndexError] of [args[i]] and the [AttributeError] of a method that
    the object does not have. *)
Inductive raised : Type :=
| Of (e : exn)
| IndexError (msg : str)
| AttributeError (msg : str).

(** What the body of a command produces. *)
Inductive attempt (A : Type) : Type :=
| Done (a : A)
| Failed (e : raised).
Arguments Done {A} a.
Arguments Failed {A} e.

Definition lift {A} (o : outcome A) : attempt A :=
  match o with
  | Ret a => Done a
  | Raise e => Failed (Of e)
  end.

(** [args[i]] *)
Definition item (args : list str) (i : nat) : attempt str :=
  match nth_error args i with
  | Some a => Done a
  | None => Failed (IndexError (py "list index out of range"))
  end.

(** What a command returns to [main] for printing. *)
Inductive reply : Type :=
| Text (s : str)
| PhoneList (l : list Field)
| WholeBook (b : AddressBook)
| OneField (f : Field)
| Greetings (l : list greeting).

(** A command is given the book and returns what it produced together
    with the book as it leaves it. *)
Definition command : Type := AddressBook -> attempt reply * AddressBook.

(** The decorators that catch [ValueError] and [IndexError]:
    [input_error_add], [input_error_change] and
    [input_error_add_birthday], which differ in the message for the
    missing argument. [str(e)] is the message of the error. *)
Definition catch_value_and_index (index_message : str) (body : command)
  : command :=
  fun contact_book =>
    match body contact_book with
    | (Failed (Of (ValueError msg)), b) => (Done (Text msg), b)
    | (Failed (IndexError _), b) => (Done (Text index_message), b)
    | other => other
    end.

(** The decorators that catch [IndexError] only: [input_error_show] and
    [input_error_show_birthday]. *)
Definition catch_index (index_message : str) (body : command) : command :=
  fun contact_book =>
    match body contact_book with
    | (Failed (IndexError _), b) => (Done (Text index_message), b)
    | other => other
    end.

Definition input_error_add : command -> command :=
  catch_value_and_index (py "Give me name and phone please.").

Definition input_error_change : command -> command :=
  catch_value_and_index (py "Give me name, old phone and new phone please.").

Definition input_error_show : command -> command :=
  catch_index (py "Give me name please.").

Definition input_error_add_birthday : command -> command :=
  catch_value_and_index (py "Give me name and birthday please.").

Definition input_error_show_birthday : command -> command :=
  catch_index (py "Give me name please.").

(** [record.add_phone(v)] for whatever [v] is: a value that is no string
    has no [isdigit]. *)
Definition add_phone_value (v : pyval) (record : Contact)
  : attempt unit * Contact :=
  match v with
  | VStr s => (lift (fst (add_phone s record)), snd (add_phone s record))
  | VDate _ =>
      (Failed (AttributeError
                 (py "'datetime.date' object has no attribute 'isdigit'")),
       record)
  end.

(** [record.add_birthday(v)] for whatever [v] is: [strptime] takes a
    string, and the [TypeError] it raises for a date is not the
    [ValueError] that [Birthday.__init__] catches. *)
Definition add_birthday_value (v : pyval) (record : Contact)
  : attempt unit * Contact :=
  match v with
  | VStr s => (lift (fst (add_birthday s record)), snd (add_birthday s record))
  | VDate _ =>
      (Failed (Of (TypeError
                 (py "strptime() argument 1 must be str, not datetime.date"))),
       record)
  end.

Definition no_attribute (attribute : string) : raised :=
  AttributeError (py "'NoneType' object has no attribute '" ++ py attribute
                  ++ py "'").

(** The body of [add_contact]. *)
Definition add_contact_body (args : list str) : command :=
  fun contact_book =>
    match item args 1 with
    | Failed e => (Failed e, contact_book)
    | Done raw =>
    match Phone_init raw with
    | Raise e => (Failed (Of e), contact_book)
    | Ret phone =>
    match item args 0 with
    | Failed e => (Failed e, contact_book)
    | Done name =>
        if dict_contains (VStr name) contact_book then
          match find_record (VStr name) contact_book with
          | None => (Failed (no_attribute "add_phone"), contact_book)
          | Some record =>
              match add_phone_value (value phone) record with
              | (Failed e, record') =>
                  (Failed e, dict_set (VStr name) record' contact_book)
              | (Done _, record') =>
                  (Done (Text (py "New phone added to contact")),
                   dict_set (VStr name) record' contact_book)
              end
          end
        else
          match Record_init name with
          | Raise e => (Failed (Of e), contact_book)
          | Ret record =>
              match add_phone_value (value phone) record with
              | (Failed e, _) => (Failed e, contact_book)
              | (Done _, record') =>
                  match add_record record' contact_book with
                  | (Raise e, b) => (Failed (Of e), b)
                  | (Ret _, b) => (Done (Text (py "Contact added")), b)
                  end
              end
          end
    end end end.

(** [add_contact] *)
Definition add_contact (args : list str) : command :=
  input_error_add (add_contact_body args).

(** [record.edit_phone(old, new)] for whatever the two values are. A
    value that is no string has no [isdigit]: for the old one this shows
    at once, for the new one only if the old one was found, since the
    [try] block builds the new phone last. *)
Definition edit_phone_values (old new : pyval) (record : Contact)
  : attempt unit * Contact :=
  let no_isdigit :=
    AttributeError (py "'datetime.date' object has no attribute 'isdigit'") in
  match old, new with
  | VStr o, VStr n =>
      (lift (fst (edit_phone o n record)), snd (edit_phone o n record))
  | VStr o, VDate _ =>
      match (old_phone <- Phone_init o ;;
             list_index (phones record) old_phone) with
      | Ret _ => (Failed no_isdigit, record)
      | Raise (ValueError _) =>
          (Failed (Of (ValueError (py "Old phone number not found."))), record)
      | Raise e => (Failed (Of e), record)
      end
  | VDate _, _ => (Failed no_isdigit, record)
  end.

(** The body of [change_contact]. *)
Definition change_contact_body (args : list str) : command :=
  fun contact_book =>
    match item args 0 with
    | Failed e => (Failed e, contact_book)
    | Done name =>
    match item args 1 with
    | Failed e => (Failed e, contact_book)
    | Done raw_old =>
    match Phone_init raw_old with
    | Raise e => (Failed (Of e), contact_book)
    | Ret old_phone =>
    match item args 2 with
    | Failed e => (Failed e, contact_book)
    | Done raw_new =>
    match Phone_init raw_new with
    | Raise e => (Failed (Of e), contact_book)
    | Ret new_phone =>
        if dict_contains (VStr name) contact_book then
          match find_record (VStr name) contact_book with
          | None => (Failed (no_attribute "edit_phone"), contact_book)
          | Some record =>
              match edit_phone_values (value old_phone) (value new_phone)
                      record with
              | (Failed e, record') =>
                  (Failed e, dict_set (VStr name) record' contact_book)
              | (Done _, record') =>
                  (Done (Text (py "Number was edited")),
                   dict_set (VStr name) record' contact_book)
              end
          end
        else
          (Done (Text (py "There is no " ++ name ++ py " in contact book.")),
           contact_book)
    end end end end end.

(** [change_contact] *)
Definition change_contact (args : list str) : command :=
  input_error_change (change_contact_body args).

(** The body of [show_phone]; a record counts as true, [None] as false. *)
Definition show_phone_body (args : list str) : command :=
  fun contact_book =>
    match item args 0 with
    | Failed e => (Failed e, contact_book)
    | Done name =>
        match find_record (VStr name) contact_book with
        | Some record => (Done (PhoneList (phones record)), contact_book)
        | None =>
            (Done (Text (py "There is no " ++ name ++ py " in contact book.")),
             contact_book)
        end
    end.

(** [show_phone] *)
Definition show_phone (args : list str) : command :=
  input_error_show (show_phone_body args).

(** [show_all]; a book counts as true when it is not empty. *)
Definition show_all : command :=
  fun contact_book =>
    match contact_book with
    | [] => (Done (Text (py "Contact book is empty")), contact_book)
    | _ => (Done (WholeBook contact_book), contact_book)
    end.

(** The body of the command [add_birthday]. *)
Definition add_birthday_body (args : list str) : command :=
  fun contact_book =>
    match item args 0 with
    | Failed e => (Failed e, contact_book)
    | Done name =>
    match item args 1 with
    | Failed e => (Failed e, contact_book)
    | Done raw =>
    match Birthday_init raw with
    | Raise e => (Failed (Of e), contact_book)
    | Ret birthday =>
        if dict_contains (VStr name) contact_book then
          match find_record (VStr name) contact_book with
          | None => (Failed (no_attribute "add_birthday"), contact_book)
          | Some record =>
              match add_birthday_value (value birthday) record with
              | (Failed e, record') =>
                  (Failed e, dict_set (VStr name) record' contact_book)
              | (Done _, record') =>
                  (Done (Text (py "Birthday added")),
                   dict_set (VStr name) record' contact_book)
              end
          end
        else
          (Done (Text (py "There is no " ++ name ++ py " in contact book.")),
           contact_book)
    end end end.

(** The command [add_birthday] *)
Definition add_birthday_command (args : list str) : command :=
  input_error_add_birthday (add_birthday_body args).

(** The body of [show_birthday]. *)
Definition show_birthday_body (args : list str) : command :=
  fun contact_book =>
    match item args 0 with
    | Failed e => (Failed e, contact_book)
    | Done name =>
        if dict_contains (VStr name) contact_book then
          match find_record (VStr name) contact_book with
          | None => (Failed (no_attribute "birthday"), contact_book)
          | Some record =>
              match birthday record with
              | Some b => (Done (OneField b), contact_book)
              | None =>
                  (Done (Text (py "Birthday of " ++ name
                               ++ py " is not indicated in contact book")),
                   contact_book)
              end
          end
        else
          (Done (Text (py "There is no " ++ name ++ py " in contact book.")),
           contact_book)
    end.

(** [show_birthday] *)
Definition show_birthday (args : list str) : command :=
  input_error_show_birthday (show_birthday_body args).

(** [birthdays], on the day [today]. *)
Definition birthdays (c : libc) (today : date) : command :=
  fun contact_book =>
    match get_upcoming_birthdays c today 7 contact_book with
    | Ret l => (Done (Greetings l), contact_book)
    | Raise e => (Failed (Of e), contact_book)
    end.

(** The books that a session reaches from the empty book through the
    commands that change it. *)
Inductive session_book : AddressBook -> Prop :=
| session_empty : session_book []
| session_add args b : session_book b -> session_book (snd (add_contact args b))
| session_change args b :
    session_book b -> session_book (snd (change_contact args b))
| session_birthday args b :
    session_book b -> session_book (snd (add_birthday_command args b)).

(** [str.split()]: the runs of characters that are not white space. *)
Fixpoint split_ws (current : str) (s : str) : list str :=
  match s with
  | [] => match current with [] => [] | _ => [rev current] end
  | ch :: rest =>
      if char_isspace ch then
        match current with
        | [] => split_ws [] rest
        | _ => rev current :: split_ws [] rest
        end
      else split_ws (ch :: current) rest
  end.

Definition str_split (s : str) : list str := split_ws [] s.

Section ParseInput.

(** [str.lower], which the Unicode tables of the interpreter define. *)
Variable lower : str -> str.

(** [parse_input]: unpacking [cmd, *args] needs one word at least. *)
Definition parse_input (user_input : str) : outcome (str * list str) :=
  match str_split user_input with
  | [] =>
      Raise (ValueError
               (py "not enough values to unpack (expected at least 1, got 0)"))
  | cmd :: args => Ret (lower (strip cmd), args)
  end.

End ParseInput.

(* ================================================================== *)
(** * Sample records and books *)
(* ================================================================== *)

Definition alice : Contact :=
  mkContact (Name (py "Alice")) [Phone (py "0501234567")] None.

Definition alice_again : Contact :=
  mkContact (Name (py "Alice")) [] None.

Definition book_of_alice : AddressBook := [(VStr (py "Alice"), alice)].

(** Three phones, the second and the third with the same number. *)
Definition bob : Contact :=
  mkContact (Name (py "Bob"))
    [Phone (py "0931111111"); Phone (py "0501234567"); Phone (py "0501234567")]
    None.

(** Bob, born on 12.03.1990, and Carl, born on 16.03.1985. *)
Definition bob_with_birthday : Contact :=
  mkContact (Name (py "Bob")) [] (Some (Birthday (mkdate 1990 3 12))).

Definition carl : Contact :=
  mkContact (Name (py "Carl")) [] (Some (Birthday (mkdate 1985 3 16))).

Definition book_of_bob_and_carl : AddressBook :=
  [(VStr (py "Bob"), bob_with_birthday); (VStr (py "Carl"), carl)].

(** Eve, born on 29.02.2000. *)
Definition eve : Contact :=
  mkContact (Name (py "Eve")) [] (Some (Birthday (mkdate 2000 2 29))).

Definition book_of_eve : AddressBook := [(VStr (py "Eve"), eve)].

(** Eve and Bob in one book. *)
Definition book_of_eve_and_bob : AddressBook :=
  [(VStr (py "Eve"), eve); (VStr (py "Bob"), bob_with_birthday)].

(* ================================================================== *)
(** * Equality of values and fields *)
(* ================================================================== *)

Lemma str_eqb_eq (a b : str) : str_eqb a b = true <-> a = b.
Proof.
  unfold str_eqb. destruct (list_eq_dec Z.eq_dec a b); split; congruence.
Qed.

Lemma date_eqb_eq (a b : date) : date_eqb a b = true <-> a = b.
Proof.
  destruct a as [y m d], b as [y' m' d']. unfold date_eqb. simpl.
  rewrite !andb_true_iff, !Z.eqb_eq. split.
  - intros [[-> ->] ->]. reflexivity.
  - intros H. injection H as -> -> ->. auto.
Qed.

Lemma pyval_eqb_eq (a b : pyval) : pyval_eqb a b = true <-> a = b.
Proof.
  destruct a, b; simpl.
  - rewrite str_eqb_eq. split; congruence.
  - split; discriminate.
  - split; discriminate.
  - rewrite date_eqb_eq. split; congruence.
Qed.

Lemma pyval_eqb_refl (a : pyval) : pyval_eqb a a = true.
Proof. apply pyval_eqb_eq. reflexivity. Qed.

Lemma pyval_eqb_neq (a b : pyval) : pyval_eqb a b = false <-> a <> b.
Proof.
  rewrite <- pyval_eqb_eq. destruct (pyval_eqb a b); split; congruence.
Qed.

Lemma pyval_eqb_sym (a b : pyval) : pyval_eqb a b = pyval_eqb b a.
Proof.
  destruct (pyval_eqb a b) eqn:E.
  - apply pyval_eqb_eq in E. subst. symmetry. apply pyval_eqb_refl.
  - destruct (pyval_eqb b a) eqn:E'; [| reflexivity].
    apply pyval_eqb_eq in E'. subst. rewrite pyval_eqb_refl in E. discriminate.
Qed.

(** C7, as amended: [Field.__eq__] answers true exactly when the other
    object is a field, of whatever class, that holds the same value. *)
Theorem Field_eq_by_value (a : Field) (other : pyobj) :
  Field_eq a other = true <-> exists b, other = OField b /\ value a = value b.
Proof.
  destruct other as [b | s | d |]; simpl.
  - rewrite pyval_eqb_eq. split.
    + intros H. exists b. auto.
    + intros [b' [Hb Hv]]. injection Hb as <-. exact Hv.
  - split; [discriminate | intros [b [Hb _]]; discriminate].
  - split; [discriminate | intros [b [Hb _]]; discriminate].
  - split; [discriminate | intros [b [Hb _]]; discriminate].
Qed.

(** C7, as stated, fails: a name and a phone built by their constructors
    from the same ten digits are equal although their classes differ. *)
Lemma Field_eq_across_classes :
  Name_init (py "0501234567") = Ret (Name (py "0501234567"))
  /\ Phone_init (py "0501234567") = Ret (Phone (py "0501234567"))
  /\ Field_eq (Name (py "0501234567")) (OField (Phone (py "0501234567"))) = true
  /\ same_class (Name (py "0501234567")) (Phone (py "0501234567")) = false
  /\ ~ (Field_eq (Name (py "0501234567")) (OField (Phone (py "0501234567"))) = true
        <-> same_class (Name (py "0501234567")) (Phone (py "0501234567")) = true
            /\ value (Name (py "0501234567")) = value (Phone (py "0501234567"))).
Proof.
  repeat split; try reflexivity.
  intros [H _]. destruct (H eq_refl) as [Hc _]. discriminate Hc.
Qed.

(* ================================================================== *)
(** * The dictionary *)
(* ================================================================== *)

Lemma dict_get_set (k n : pyval) (v : Contact) (d : AddressBook) :
  dict_get k (dict_set n v d) =
  if pyval_eqb n k then Some v else dict_get k d.
Proof.
  unfold dict_get. induction d as [| [k0 v0] rest IH]; simpl.
  - destruct (pyval_eqb n k); reflexivity.
  - destruct (pyval_eqb k0 n) eqn:E0; simpl.
    + apply pyval_eqb_eq in E0. subst k0.
      destruct (pyval_eqb n k); reflexivity.
    + destruct (pyval_eqb k0 k) eqn:E1; simpl.
      * destruct (pyval_eqb n k) eqn:E2; [| reflexivity].
        apply pyval_eqb_eq in E1, E2. subst.
        rewrite pyval_eqb_refl in E0. discriminate.
      * exact IH.
Qed.

Lemma dict_get_del (k n : pyval) (d : AddressBook) :
  dict_get k (dict_del n d) =
  if pyval_eqb n k then None else dict_get k d.
Proof.
  unfold dict_get, dict_del. induction d as [| [k0 v0] rest IH]; simpl.
  - destruct (pyval_eqb n k); reflexivity.
  - destruct (pyval_eqb k0 n) eqn:E0; simpl.
    + apply pyval_eqb_eq in E0. subst k0. rewrite IH.
      destruct (pyval_eqb n k); reflexivity.
    + destruct (pyval_eqb k0 k) eqn:E1; simpl.
      * destruct (pyval_eqb n k) eqn:E2; [| reflexivity].
        apply pyval_eqb_eq in E1, E2. subst.
        rewrite pyval_eqb_refl in E0. discriminate.
      * exact IH.
Qed.

Lemma dict_contains_get (k : pyval) (d : AddressBook) :
  dict_contains k d = true <-> exists v, dict_get k d = Some v.
Proof.
  unfold dict_contains, dict_get. induction d as [| [k0 v0] rest IH]; simpl.
  - split; [discriminate | intros [v H]; discriminate].
  - destruct (pyval_eqb k0 k); simpl.
    + split; [intros _; exists v0; reflexivity | reflexivity].
    + exact IH.
Qed.

Lemma in_dict_set (k n : pyval) (r v : Contact) (d : AddressBook) :
  In (k, r) (dict_set n v d) -> In (k, r) d \/ (k = n /\ r = v).
Proof.
  induction d as [| [k0 v0] rest IH]; simpl.
  - intros [H | []]. injection H as <- <-. right. auto.
  - destruct (pyval_eqb k0 n) eqn:E; simpl.
    + apply pyval_eqb_eq in E. subst k0. intros [H | H].
      * injection H as <- <-. right. auto.
      * left. right. exact H.
    + intros [H | H].
      * left. left. exact H.
      * destruct (IH H) as [H1 | H1]; [left; right; exact H1 | right; exact H1].
Qed.

Lemma in_dict_del (k n : pyval) (r : Contact) (d : AddressBook) :
  In (k, r) (dict_del n d) -> In (k, r) d.
Proof. unfold dict_del. intros H. apply filter_In in H. tauto. Qed.

Lemma dict_get_in (k : pyval) (r : Contact) (d : AddressBook) :
  dict_get k d = Some r -> In (k, r) d.
Proof.
  unfold dict_get. destruct (find _ d) as [[k0 v0] |] eqn:E; [| discriminate].
  intros H. injection H as <-. apply find_some in E. destruct E as [Hin Hk].
  simpl in Hk. apply pyval_eqb_eq in Hk. subst. exact Hin.
Qed.

(* ================================================================== *)
(** * Adding and finding records *)
(* ================================================================== *)

(** C6: when the name is not in the book, [add_record] succeeds and [find]
    on the name then returns the record that was added; when the name is
    in the book, [add_record] raises the error for a duplicate and the
    book, and so the entry under that name, stays as it was. *)
Theorem add_record_then_find (book : AddressBook) (r : Contact) :
  (dict_contains (value (name r)) book = false ->
     fst (add_record r book) = Ret tt
     /\ find_record (value (name r)) (snd (add_record r book)) = Some r)
  /\ (dict_contains (value (name r)) book = true ->
     fst (add_record r book)
       = Raise (ValueError (py "Record with this name already exists."))
     /\ snd (add_record r book) = book
     /\ find_record (value (name r)) (snd (add_record r book))
        = find_record (value (name r)) book).
Proof.
  unfold add_record, find_record. split; intros H; rewrite H; simpl.
  - split; [reflexivity |]. rewrite dict_get_set, pyval_eqb_refl. reflexivity.
  - auto.
Qed.

Lemma add_record_then_find_witness :
  dict_contains (value (name alice)) [] = false
  /\ dict_contains (value (name alice_again)) book_of_alice = true
  /\ (fst (add_record alice []) = Ret tt
   /\ find_record (value (name alice)) (snd (add_record alice []))
      = Some alice)
  /\ (fst (add_record alice_again book_of_alice)
       = Raise (ValueError (py "Record with this name already exists."))
     /\ snd (add_record alice_again book_of_alice) = book_of_alice
     /\ find_record (value (name alice_again))
          (snd (add_record alice_again book_of_alice))
        = find_record (value (name alice_again)) book_of_alice).
Proof.
  split; [reflexivity |]. split; [reflexivity |]. split.
  - apply (proj1 (add_record_then_find [] alice)). reflexivity.
  - apply (proj2 (add_record_then_find book_of_alice alice_again)).
    reflexivity.
Defined.

(* ================================================================== *)
(** * The phone field *)
(* ================================================================== *)

Lemma Phone_init_ok (s : str) :
  isdigit s = true -> len s = 10 -> Phone_init s = Ret (Phone s).
Proof.
  intros Hd Hl. unfold Phone_init. rewrite Hd, Hl. reflexivity.
Qed.

Lemma Phone_init_inv (s : str) (f : Field) :
  Phone_init s = Ret f -> f = Phone s /\ isdigit s = true /\ len s = 10.
Proof.
  unfold Phone_init.
  destruct (isdigit s) eqn:Hd; simpl; [| discriminate].
  destruct (len s =? 10) eqn:Hl; simpl; [| discriminate].
  intros H. injection H as <-. apply Z.eqb_eq in Hl. auto.
Qed.

Lemma Phone_init_raises (s : str) :
  isdigit s = false \/ len s <> 10 ->
  Phone_init s = Raise (ValueError (py "Phone number must consist of 10 digits.")).
Proof.
  intros H. unfold Phone_init.
  destruct (isdigit s) eqn:Hd; simpl; [| reflexivity].
  destruct (len s =? 10) eqn:Hl; simpl; [| reflexivity].
  apply Z.eqb_eq in Hl. destruct H as [H | H]; [discriminate | contradiction].
Qed.

Lemma Phone_init_cases (s : str) :
  Phone_init s = Ret (Phone s)
  \/ Phone_init s = Raise (ValueError (py "Phone number must consist of 10 digits.")).
Proof.
  unfold Phone_init. destruct (negb (isdigit s) || negb (len s =? 10)); auto.
Qed.

Lemma isdigit_forallb (s : str) :
  isdigit s = true <-> s <> [] /\ forallb char_isdigit s = true.
Proof.
  destruct s as [| c rest]; simpl.
  - split; [discriminate | intros [H _]; contradiction].
  - split; [intros H; split; [discriminate | exact H] | tauto].
Qed.

Lemma len_10_nonempty (s : str) : len s = 10 -> s <> [].
Proof. intros H ->. discriminate H. Qed.

Lemma char_isdecimal_isdigit (c : Z) :
  char_isdecimal c = true -> char_isdigit c = true.
Proof. intros H. unfold char_isdigit. rewrite H. reflexivity. Qed.

Lemma decimal_value_ascii (c : Z) :
  ascii_digit c = true -> decimal_value c = Some (c - 48).
Proof.
  unfold ascii_digit. rewrite andb_true_iff, !Z.leb_le. intros [H1 H2].
  unfold decimal_value, decimal_blocks. cbn [find].
  unfold in_block at 1.
  replace (48 <=? c) with true by (symmetry; apply Z.leb_le; lia).
  replace (c <? 48 + 10) with true by (symmetry; apply Z.ltb_lt; lia).
  reflexivity.
Qed.

Lemma ascii_digit_isdecimal (c : Z) :
  ascii_digit c = true -> char_isdecimal c = true.
Proof.
  intros H. unfold char_isdecimal. rewrite (decimal_value_ascii c H).
  reflexivity.
Qed.

Lemma ascii_digit_isdigit (c : Z) :
  ascii_digit c = true -> char_isdigit c = true.
Proof. intros H. apply char_isdecimal_isdigit, ascii_digit_isdecimal, H. Qed.

(** C4, as amended: a string of ten characters that [str.isdigit] accepts
    (the digits 0 to 9 among them, see [ascii_digit_isdigit]) makes a
    phone field that renders as the same string; a string whose length is
    not ten, or that holds a character [str.isdigit] rejects, raises the
    error of the phone format. *)
Theorem Phone_init_checks_isdigit (c : libc) (s : str) :
  (len s = 10 -> forallb char_isdigit s = true ->
     Phone_init s = Ret (Phone s) /\ Field_str c (Phone s) = s)
  /\ (len s <> 10 \/ (exists ch, In ch s /\ char_isdigit ch = false) ->
     Phone_init s
       = Raise (ValueError (py "Phone number must consist of 10 digits."))).
Proof.
  split.
  - intros Hl Hd. split; [| reflexivity].
    apply Phone_init_ok; [| exact Hl].
    apply isdigit_forallb. split; [apply len_10_nonempty, Hl | exact Hd].
  - intros [Hl | [ch [Hin Hch]]]; apply Phone_init_raises; [right; exact Hl |].
    left. destruct (isdigit s) eqn:Hd; [| reflexivity].
    apply isdigit_forallb in Hd. destruct Hd as [_ Hall].
    rewrite forallb_forall in Hall. rewrite (Hall ch Hin) in Hch. discriminate.
Qed.

Lemma Phone_init_checks_isdigit_witness :
  len (py "0501234567") = 10
  /\ forallb char_isdigit (py "0501234567") = true
  /\ (Phone_init (py "0501234567") = Ret (Phone (py "0501234567"))
      /\ Field_str glibc (Phone (py "0501234567")) = py "0501234567")
  /\ (len (py "050123456") <> 10
      \/ (exists ch, In ch (py "050123456") /\ char_isdigit ch = false))
  /\ Phone_init (py "050123456")
     = Raise (ValueError (py "Phone number must consist of 10 digits.")).
Proof.
  split; [reflexivity |]. split; [reflexivity |]. split.
  - apply (proj1 (Phone_init_checks_isdigit glibc (py "0501234567")));
      reflexivity.
  - split; [left; discriminate |].
    apply (proj2 (Phone_init_checks_isdigit glibc (py "050123456"))).
    left. discriminate.
Defined.

(** C4, as stated, fails: SUPERSCRIPT TWO is not a decimal digit, and
    ten of them make a phone field all the same. *)
Lemma Phone_init_accepts_superscripts :
  len superscript_twos = 10
  /\ In 178 superscript_twos
  /\ char_isdecimal 178 = false
  /\ ascii_digit 178 = false
  /\ Phone_init superscript_twos = Ret (Phone superscript_twos)
  /\ Phone_init superscript_twos
     <> Raise (ValueError (py "Phone number must consist of 10 digits.")).
Proof.
  repeat split; try reflexivity.
  - left. reflexivity.
  - discriminate.
Qed.

(* ================================================================== *)
(** * Editing a phone *)
(* ================================================================== *)

Lemma list_index_absent (l : list Field) (x : Field) :
  (forall q, In q l -> value q <> value x) ->
  list_index l x = Raise (ValueError (py "x is not in list")).
Proof.
  induction l as [| e rest IH]; simpl; intros H; [reflexivity |].
  destruct (pyval_eqb (value e) (value x)) eqn:E.
  - apply pyval_eqb_eq in E. exfalso. apply (H e); auto.
  - rewrite IH; [reflexivity |]. intros q Hq. apply H. auto.
Qed.

Lemma list_index_first (l1 l2 : list Field) (p x : Field) :
  (forall q, In q l1 -> value q <> value x) ->
  value p = value x ->
  list_index (l1 ++ p :: l2) x = Ret (List.length l1).
Proof.
  intros Hl1 Hp. induction l1 as [| e rest IH]; simpl.
  - rewrite Hp, pyval_eqb_refl. reflexivity.
  - destruct (pyval_eqb (value e) (value x)) eqn:E.
    + apply pyval_eqb_eq in E. exfalso. apply (Hl1 e); simpl; auto.
    + rewrite IH; [reflexivity |]. intros q Hq. apply Hl1. simpl. auto.
Qed.

Lemma list_set_middle (l1 l2 : list Field) (p x : Field) :
  list_set (l1 ++ p :: l2) (List.length l1) x = l1 ++ x :: l2.
Proof.
  induction l1 as [| e rest IH]; simpl; [reflexivity |]. rewrite IH.
  reflexivity.
Qed.

Lemma list_index_raises_ValueError (l : list Field) (x : Field) (e : exn) :
  list_index l x = Raise e -> exists msg, e = ValueError msg.
Proof.
  revert e. induction l as [| a rest IH]; simpl; intros e H.
  - injection H as <-. eexists. reflexivity.
  - destruct (pyval_eqb (value a) (value x)); [discriminate |].
    destruct (list_index rest x) as [i | e'] eqn:E; simpl in H; [discriminate |].
    injection H as <-. apply (IH e'). reflexivity.
Qed.

(** The first entry with the value, when some entry has it. *)
Lemma first_with_value (l : list Field) (v : pyval) :
  (exists p, In p l /\ value p = v) ->
  exists l1 p l2, l = l1 ++ p :: l2 /\ value p = v
                  /\ forall q, In q l1 -> value q <> v.
Proof.
  induction l as [| e rest IH]; intros [p [Hin Hp]]; [destruct Hin |].
  destruct (pyval_eqb (value e) v) eqn:E.
  - apply pyval_eqb_eq in E. exists [], e, rest. repeat split; auto.
  - apply pyval_eqb_neq in E. destruct Hin as [-> | Hin]; [contradiction |].
    destruct IH as [l1 [p' [l2 [Hl [Hp' Hl1]]]]]; [exists p; auto |].
    exists (e :: l1), p', l2. subst rest. repeat split; auto.
    intros q [<- | Hq]; auto.
Qed.

Lemma edit_phone_absent (old new : str) (self : Contact) :
  (forall q, In q (phones self) -> value q <> VStr old) ->
  edit_phone old new self
  = (Raise (ValueError (py "Old phone number not found.")), self).
Proof.
  intros H. unfold edit_phone.
  destruct (Phone_init_cases old) as [E | E]; rewrite E; simpl; [| reflexivity].
  rewrite list_index_absent; [reflexivity | exact H].
Qed.

Lemma edit_phone_invalid_old (old new : str) (self : Contact) :
  is_raise (Phone_init old) = true ->
  edit_phone old new self
  = (Raise (ValueError (py "Old phone number not found.")), self).
Proof.
  intros H. unfold edit_phone.
  destruct (Phone_init_cases old) as [E | E]; rewrite E in *; simpl;
    [discriminate | reflexivity].
Qed.

Lemma edit_phone_outcomes (old new : str) (self : Contact) :
  (exists i, edit_phone old new self
     = (Ret tt, set_phones self (list_set (phones self) i (Phone new)))
     /\ Phone_init new = Ret (Phone new))
  \/ edit_phone old new self
     = (Raise (ValueError (py "Old phone number not found.")), self).
Proof.
  unfold edit_phone.
  destruct (Phone_init_cases old) as [E | E]; rewrite E; simpl; [| auto].
  destruct (list_index (phones self) (Phone old)) as [i | e] eqn:Ei; simpl.
  - destruct (Phone_init_cases new) as [En | En]; rewrite En; simpl; [| auto].
    left. exists i. auto.
  - destruct (list_index_raises_ValueError _ _ _ Ei) as [msg ->]. auto.
Qed.

(** C8: when some entry of the phone list equals [old], and [old] and
    [new] are valid, [edit_phone] returns, and the phone list of the
    record it leaves is the old list with the new phone in the place of
    the first such entry: the entries before it and the entries after it
    are as they were, in their order, and the name and the birthday are
    untouched; when no entry equals [old], it raises the not-found error
    and the record, its phone list included, is unchanged. *)
Theorem edit_phone_replaces_first (old new : str) (self : Contact) :
  ((exists p, In p (phones self) /\ value p = VStr old) ->
   isdigit old = true -> len old = 10 ->
   isdigit new = true -> len new = 10 ->
   exists l1 p l2,
     phones self = l1 ++ p :: l2
     /\ value p = VStr old
     /\ (forall q, In q l1 -> value q <> VStr old)
     /\ fst (edit_phone old new self) = Ret tt
     /\ phones (snd (edit_phone old new self)) = l1 ++ Phone new :: l2
     /\ name (snd (edit_phone old new self)) = name self
     /\ birthday (snd (edit_phone old new self)) = birthday self)
  /\ ((forall q, In q (phones self) -> value q <> VStr old) ->
      edit_phone old new self
      = (Raise (ValueError (py "Old phone number not found.")), self)
      /\ phones (snd (edit_phone old new self)) = phones self).
Proof.
  split.
  - intros Hex Hdo Hlo Hdn Hln.
    destruct (first_with_value _ _ Hex) as [l1 [p [l2 [Hl [Hp Hl1]]]]].
    exists l1, p, l2. split; [exact Hl |]. split; [exact Hp |].
    split; [exact Hl1 |].
    unfold edit_phone.
    rewrite (Phone_init_ok old Hdo Hlo), (Phone_init_ok new Hdn Hln). simpl.
    rewrite Hl, list_index_first by assumption. simpl.
    rewrite list_set_middle. repeat split; reflexivity.
  - intros H. rewrite (edit_phone_absent old new self H). split; reflexivity.
Qed.

Lemma edit_phone_replaces_first_witness :
  (exists p, In p (phones bob) /\ value p = VStr (py "0501234567"))
  /\ isdigit (py "0501234567") = true /\ len (py "0501234567") = 10
  /\ isdigit (py "0670000000") = true /\ len (py "0670000000") = 10
  /\ (exists l1 p l2,
        phones bob = l1 ++ p :: l2
        /\ value p = VStr (py "0501234567")
        /\ (forall q, In q l1 -> value q <> VStr (py "0501234567"))
        /\ fst (edit_phone (py "0501234567") (py "0670000000") bob) = Ret tt
        /\ phones (snd (edit_phone (py "0501234567") (py "0670000000") bob))
           = l1 ++ Phone (py "0670000000") :: l2
        /\ name (snd (edit_phone (py "0501234567") (py "0670000000") bob))
           = name bob
        /\ birthday (snd (edit_phone (py "0501234567") (py "0670000000") bob))
           = birthday bob)
  /\ (forall q, In q (phones alice) -> value q <> VStr (py "0670000000"))
  /\ edit_phone (py "0670000000") (py "0501234567") alice
     = (Raise (ValueError (py "Old phone number not found.")), alice)
  /\ phones (snd (edit_phone (py "0670000000") (py "0501234567") alice))
     = phones alice.
Proof.
  assert (Hin : exists p, In p (phones bob) /\ value p = VStr (py "0501234567")).
  { exists (Phone (py "0501234567")). split; [right; left |]; reflexivity. }
  assert (Hout : forall q, In q (phones alice) -> value q <> VStr (py "0670000000")).
  { intros q [<- | []]. discriminate. }
  split; [exact Hin |]. repeat (split; [reflexivity |]). split.
  - apply (proj1 (edit_phone_replaces_first (py "0501234567") (py "0670000000") bob));
      [exact Hin | reflexivity ..].
  - split; [exact Hout |].
    apply (proj2 (edit_phone_replaces_first (py "0670000000") (py "0501234567") alice)).
    exact Hout.
Defined.

(** C2: [edit_phone] reports one error only.  When no entry equals
    [old], and when [old] is not a valid phone, it raises
    "Old phone number not found." and the record is unchanged.  When
    [new] is not a valid phone, [Phone(new)] raises the error of the
    phone format, "Phone number must consist of 10 digits.", inside the
    [try] block, and the handler replaces it: the call raises
    "Old phone number not found.", also when [old] is valid and an entry
    equals it, and the record is unchanged.  Whatever the arguments, an
    error that [edit_phone] raises is the not-found one, never the one of
    the phone format. *)
Theorem edit_phone_reports_not_found (old new : str) (self : Contact) :
  ((forall q, In q (phones self) -> value q <> VStr old) ->
     edit_phone old new self
     = (Raise (ValueError (py "Old phone number not found.")), self))
  /\ (isdigit old = false \/ len old <> 10 ->
     edit_phone old new self
     = (Raise (ValueError (py "Old phone number not found.")), self))
  /\ (isdigit new = false \/ len new <> 10 ->
     Phone_init new
     = Raise (ValueError (py "Phone number must consist of 10 digits."))
     /\ edit_phone old new self
        = (Raise (ValueError (py "Old phone number not found.")), self)
     /\ fst (edit_phone old new self)
        <> Raise (ValueError (py "Phone number must consist of 10 digits.")))
  /\ (forall e, fst (edit_phone old new self) = Raise e ->
        e = ValueError (py "Old phone number not found.")
        /\ snd (edit_phone old new self) = self).
Proof.
  split; [apply edit_phone_absent |].
  split.
  { intros H. apply edit_phone_invalid_old.
    rewrite (Phone_init_raises old H). reflexivity. }
  split.
  - intros H. pose proof (Phone_init_raises new H) as En.
    split; [exact En |].
    destruct (edit_phone_outcomes old new self) as [[i [_ En']] | E].
    + rewrite En in En'. discriminate.
    + rewrite E. split; [reflexivity | discriminate].
  - intros e He.
    destruct (edit_phone_outcomes old new self) as [[i [E _]] | E];
      rewrite E in *; simpl in He.
    + discriminate.
    + injection He as <-. split; reflexivity.
Qed.

Lemma edit_phone_reports_not_found_witness :
  (forall q, In q (phones alice) -> value q <> VStr (py "0670000000"))
  /\ (isdigit (py "067") = false \/ len (py "067") <> 10)
  /\ (isdigit (py "12ab") = false \/ len (py "12ab") <> 10)
  /\ (exists p, In p (phones alice) /\ value p = VStr (py "0501234567"))
  /\ Phone_init (py "0501234567") = Ret (Phone (py "0501234567"))
  /\ edit_phone (py "0670000000") (py "0501234567") alice
     = (Raise (ValueError (py "Old phone number not found.")), alice)
  /\ edit_phone (py "067") (py "0501234567") alice
     = (Raise (ValueError (py "Old phone number not found.")), alice)
  /\ (Phone_init (py "12ab")
      = Raise (ValueError (py "Phone number must consist of 10 digits."))
      /\ edit_phone (py "0501234567") (py "12ab") alice
         = (Raise (ValueError (py "Old phone number not found.")), alice)
      /\ fst (edit_phone (py "0501234567") (py "12ab") alice)
         <> Raise (ValueError (py "Phone number must consist of 10 digits."))).
Proof.
  assert (Hout : forall q, In q (phones alice) -> value q <> VStr (py "0670000000")).
  { intros q [<- | []]. discriminate. }
  assert (Hold : isdigit (py "067") = false \/ len (py "067") <> 10).
  { right. vm_compute. discriminate. }
  assert (Hnew : isdigit (py "12ab") = false \/ len (py "12ab") <> 10).
  { left. reflexivity. }
  split; [exact Hout |]. split; [exact Hold |]. split; [exact Hnew |].
  split.
  { exists (Phone (py "0501234567")). split; [left |]; reflexivity. }
  split; [reflexivity |]. split.
  - apply (proj1 (edit_phone_reports_not_found (py "0670000000") (py "0501234567") alice)).
    exact Hout.
  - split.
    + apply (proj1 (proj2 (edit_phone_reports_not_found (py "067") (py "0501234567") alice))).
      exact Hold.
    + apply (proj1 (proj2 (proj2 (edit_phone_reports_not_found (py "0501234567") (py "12ab") alice)))).
      exact Hnew.
Defined.

(* ================================================================== *)
(** * What holds in every state the operations reach *)
(* ================================================================== *)

Lemma Forall_list_set (P : Field -> Prop) (l : list Field) (i : nat) (x : Field) :
  Forall P l -> P x -> Forall P (list_set l i x).
Proof.
  intros Hl Hx. revert i. induction Hl as [| e rest He Hrest IH]; intros i.
  - destruct i; constructor.
  - destruct i; simpl; constructor; auto.
Qed.

Lemma Forall_filter (P : Field -> Prop) (f : Field -> bool) (l : list Field) :
  Forall P l -> Forall P (filter f l).
Proof.
  intros H. rewrite Forall_forall in *. intros x Hx.
  apply filter_In in Hx. apply H. tauto.
Qed.

Lemma Phone_init_validated (s : str) (f : Field) :
  Phone_init s = Ret f -> validated_phone f.
Proof.
  intros H. apply Phone_init_inv in H. destruct H as [-> [Hd Hl]].
  exists s. auto.
Qed.

Lemma record_op_keeps_phones_validated (o : record_op) (r : Contact) :
  Forall validated_phone (phones r) ->
  Forall validated_phone (phones (snd (run_record_op o r))).
Proof.
  intros H. destruct o as [raw | raw | old new | raw]; simpl.
  - unfold add_phone. destruct (Phone_init raw) as [p | e] eqn:E; simpl; [| exact H].
    apply Forall_app. split; [exact H |]. constructor; [| constructor].
    apply (Phone_init_validated raw). exact E.
  - apply Forall_filter. exact H.
  - destruct (edit_phone_outcomes old new r) as [[i [E En]] | E]; rewrite E; simpl.
    + apply Forall_list_set; [exact H |]. apply (Phone_init_validated new), En.
    + exact H.
  - unfold add_birthday. destruct (Birthday_init raw); simpl; exact H.
Qed.

Lemma record_op_keeps_name (o : record_op) (r : Contact) :
  name (snd (run_record_op o r)) = name r.
Proof.
  destruct o as [raw | raw | old new | raw]; simpl.
  - unfold add_phone. destruct (Phone_init raw); reflexivity.
  - reflexivity.
  - destruct (edit_phone_outcomes old new r) as [[i [E En]] | E]; rewrite E;
      reflexivity.
  - unfold add_birthday. destruct (Birthday_init raw); reflexivity.
Qed.

Lemma Record_init_inv (n : str) (r : Contact) :
  Record_init n = Ret r -> r = mkContact (Name n) [] None.
Proof.
  unfold Record_init, Name_init. destruct (strip n); simpl; [discriminate |].
  intros H. injection H as <-. reflexivity.
Qed.

Lemma built_phones_validated (r : Contact) :
  built r -> Forall validated_phone (phones r).
Proof.
  induction 1 as [n r H | o r Hb IH].
  - apply Record_init_inv in H. subst r. constructor.
  - apply record_op_keeps_phones_validated, IH.
Qed.

Lemma reachable_built (b : AddressBook) :
  reachable b -> forall k r, In (k, r) b -> built r.
Proof.
  induction 1 as [| r0 b Hb IH Hr0 | n b Hb IH | n o b Hb IH]; intros k r Hin.
  - destruct Hin.
  - unfold add_record in Hin.
    destruct (dict_contains (value (name r0)) b); simpl in Hin.
    + apply (IH k r Hin).
    + apply in_dict_set in Hin. destruct Hin as [Hin | [_ ->]];
        [apply (IH k r Hin) | exact Hr0].
  - unfold delete in Hin. destruct (dict_contains n b); simpl in Hin.
    + apply in_dict_del in Hin. apply (IH k r Hin).
    + apply (IH k r Hin).
  - unfold on_record, find_record in Hin.
    destruct (dict_get n b) as [r1 |] eqn:E; simpl in Hin.
    + apply in_dict_set in Hin. destruct Hin as [Hin | [_ ->]].
      * apply (IH k r Hin).
      * apply built_op. apply (IH n r1). apply dict_get_in, E.
    + apply (IH k r Hin).
Qed.

(** C10: each of the record's methods keeps every phone entry a validated
    one (a [Phone] holding ten digit characters); so the entries of every
    record the program can build are validated, and so are those of every
    record in a book the operations reach. *)
Theorem phones_are_validated :
  (forall o r, Forall validated_phone (phones r) ->
               Forall validated_phone (phones (snd (run_record_op o r))))
  /\ (forall r, built r -> Forall validated_phone (phones r))
  /\ (forall b, reachable b ->
      forall k r, In (k, r) b -> Forall validated_phone (phones r)).
Proof.
  split; [apply record_op_keeps_phones_validated |].
  split; [apply built_phones_validated |].
  intros b Hb k r Hin. apply built_phones_validated.
  apply (reachable_built b Hb k r Hin).
Qed.

Lemma reachable_keys (b : AddressBook) :
  reachable b -> forall k r, In (k, r) b -> k = value (name r).
Proof.
  induction 1 as [| r0 b Hb IH Hr0 | n b Hb IH | n o b Hb IH]; intros k r Hin.
  - destruct Hin.
  - unfold add_record in Hin.
    destruct (dict_contains (value (name r0)) b); simpl in Hin.
    + apply (IH k r Hin).
    + apply in_dict_set in Hin. destruct Hin as [Hin | [-> ->]];
        [apply (IH k r Hin) | reflexivity].
  - unfold delete in Hin. destruct (dict_contains n b); simpl in Hin.
    + apply in_dict_del in Hin. apply (IH k r Hin).
    + apply (IH k r Hin).
  - unfold on_record, find_record in Hin.
    destruct (dict_get n b) as [r1 |] eqn:E; simpl in Hin.
    + apply in_dict_set in Hin. destruct Hin as [Hin | [-> ->]].
      * apply (IH k r Hin).
      * rewrite record_op_keeps_name. apply IH. apply dict_get_in, E.
    + apply (IH k r Hin).
Qed.

Lemma add_record_entries (r0 : Contact) (b : AddressBook) (k : pyval) (r : Contact) :
  In (k, r) (snd (add_record r0 b)) ->
  In (k, r) b \/ (k = value (name r0) /\ r = r0).
Proof.
  unfold add_record. destruct (dict_contains (value (name r0)) b); simpl.
  - auto.
  - apply in_dict_set.
Qed.

Lemma delete_keeps_bindings (n : pyval) (b : AddressBook) (k : pyval) (r : Contact) :
  dict_get k (snd (delete n b)) = Some r -> dict_get k b = Some r.
Proof.
  unfold delete. destruct (dict_contains n b); simpl; [| auto].
  rewrite dict_get_del. destruct (pyval_eqb n k); [discriminate | auto].
Qed.

Lemma on_record_keeps_names (n : pyval) (o : record_op) (b : AddressBook)
  (k : pyval) (r' : Contact) :
  dict_get k (snd (on_record n (run_record_op o) b)) = Some r' ->
  exists r, dict_get k b = Some r /\ name r' = name r.
Proof.
  unfold on_record, find_record.
  destruct (dict_get n b) as [r1 |] eqn:E; simpl.
  - rewrite dict_get_set. destruct (pyval_eqb n k) eqn:Ek.
    + apply pyval_eqb_eq in Ek. subst k. intros H. injection H as <-.
      exists r1. split; [exact E | apply record_op_keeps_name].
    + intros H. exists r'. auto.
  - intros H. exists r'. auto.
Qed.

(** C9: in every book the operations reach, each key is the value of the
    name of the record stored under it. [add_record] adds nothing but the
    given record under its own name; no method of a record changes its
    name; [delete] and a method run on a stored record leave every key
    that remains bound to a record of the same name. *)
Theorem keys_are_names :
  (forall b, reachable b -> forall k r, In (k, r) b -> k = value (name r))
  /\ (forall r0 b k r, In (k, r) (snd (add_record r0 b)) ->
        In (k, r) b \/ (k = value (name r0) /\ r = r0))
  /\ (forall o r, name (snd (run_record_op o r)) = name r)
  /\ (forall n b k r, dict_get k (snd (delete n b)) = Some r ->
        dict_get k b = Some r)
  /\ (forall n o b k r',
        dict_get k (snd (on_record n (run_record_op o) b)) = Some r' ->
        exists r, dict_get k b = Some r /\ name r' = name r).
Proof.
  split; [apply reachable_keys |].
  split; [apply add_record_entries |].
  split; [apply record_op_keeps_name |].
  split; [apply delete_keeps_bindings | apply on_record_keeps_names].
Qed.

Lemma book_of_alice_reachable : reachable book_of_alice.
Proof.
  change book_of_alice with
    (snd (on_record (VStr (py "Alice"))
            (run_record_op (AddPhone (py "0501234567")))
            (snd (add_record alice_again [])))).
  apply reach_record. apply reach_add; [apply reach_empty |].
  apply (built_init (py "Alice")). reflexivity.
Qed.

Lemma phones_are_validated_witness :
  Forall validated_phone (phones alice)
  /\ built alice
  /\ reachable book_of_alice
  /\ In (VStr (py "Alice"), alice) book_of_alice
  /\ Forall validated_phone
       (phones (snd (run_record_op (EditPhone (py "0501234567") (py "0670000000"))
                                   alice))).
Proof.
  assert (Hin : In (VStr (py "Alice"), alice) book_of_alice)
    by (left; reflexivity).
  assert (Hb : built alice)
    by exact (reachable_built _ book_of_alice_reachable _ _ Hin).
  assert (Hv : Forall validated_phone (phones alice))
    by exact (proj2 (proj2 phones_are_validated) book_of_alice
                book_of_alice_reachable (VStr (py "Alice")) alice Hin).
  split; [exact Hv |]. split; [exact Hb |].
  split; [exact book_of_alice_reachable |]. split; [exact Hin |].
  exact (proj1 phones_are_validated
           (EditPhone (py "0501234567") (py "0670000000")) alice
           (proj1 (proj2 phones_are_validated) alice Hb)).
Defined.

Lemma keys_are_names_witness :
  reachable book_of_alice
  /\ In (VStr (py "Alice"), alice) book_of_alice
  /\ VStr (py "Alice") = value (name alice)
  /\ dict_get (VStr (py "Alice"))
       (snd (on_record (VStr (py "Alice"))
               (run_record_op (RemovePhone (py "0501234567"))) book_of_alice))
     = Some alice_again
  /\ exists r, dict_get (VStr (py "Alice")) book_of_alice = Some r
               /\ name alice_again = name r.
Proof.
  assert (Hin : In (VStr (py "Alice"), alice) book_of_alice)
    by (left; reflexivity).
  split; [exact book_of_alice_reachable |]. split; [exact Hin |].
  split.
  - exact (proj1 keys_are_names book_of_alice book_of_alice_reachable
             (VStr (py "Alice")) alice Hin).
  - split; [reflexivity |].
    exact (proj2 (proj2 (proj2 (proj2 keys_are_names)))
             (VStr (py "Alice")) (RemovePhone (py "0501234567"))
             book_of_alice (VStr (py "Alice")) alice_again eq_refl).
Defined.

(* ================================================================== *)
(** * The birthday field: parsing and rendering *)
(* ================================================================== *)

Lemma ascii_digit_range (c : Z) : ascii_digit c = true <-> 48 <= c <= 57.
Proof. unfold ascii_digit. rewrite andb_true_iff, !Z.leb_le. tauto. Qed.

Lemma ascii_digit_cases (c : Z) :
  ascii_digit c = true ->
  c = 48 \/ c = 49 \/ c = 50 \/ c = 51 \/ c = 52 \/ c = 53 \/ c = 54
  \/ c = 55 \/ c = 56 \/ c = 57.
Proof. rewrite ascii_digit_range. lia. Qed.

Ltac digit_cases H :=
  apply ascii_digit_cases in H;
  destruct H as [H | [H | [H | [H | [H | [H | [H | [H | [H | H]]]]]]]]];
  subst.

Lemma ascii_digit_not_space (c : Z) :
  ascii_digit c = true -> char_isspace c = false.
Proof. intros H. digit_cases H; reflexivity. Qed.

Lemma dec_digits_small (f : nat) (n : Z) :
  n < 10 -> dec_digits (S f) n = [48 + n].
Proof.
  intros H. simpl. destruct (Z.ltb_spec n 10); [reflexivity | lia].
Qed.

Lemma dec_digits_step (f : nat) (q r : Z) :
  1 <= q -> 0 <= r < 10 ->
  dec_digits (S f) (10 * q + r) = dec_digits f q ++ [48 + r].
Proof.
  intros Hq Hr. cbn [dec_digits].
  destruct (Z.ltb_spec (10 * q + r) 10); [lia |].
  replace ((10 * q + r) / 10) with q
    by (apply (Z.div_unique _ 10 q r); lia).
  replace ((10 * q + r) mod 10) with r
    by (apply (Z.mod_unique _ 10 q r); lia).
  reflexivity.
Qed.

Lemma int_str_1 (d : Z) : 0 <= d < 10 -> int_str d = [48 + d].
Proof. intros H. apply dec_digits_small. lia. Qed.

Lemma int_str_2 (c d : Z) :
  1 <= c < 10 -> 0 <= d < 10 -> int_str (10 * c + d) = [48 + c; 48 + d].
Proof.
  intros Hc Hd. unfold int_str.
  rewrite dec_digits_step by lia. rewrite dec_digits_small by lia. reflexivity.
Qed.

Lemma int_str_3 (b c d : Z) :
  1 <= b < 10 -> 0 <= c < 10 -> 0 <= d < 10 ->
  int_str (100 * b + 10 * c + d) = [48 + b; 48 + c; 48 + d].
Proof.
  intros Hb Hc Hd. unfold int_str.
  replace (100 * b + 10 * c + d) with (10 * (10 * b + c) + d) by ring.
  rewrite dec_digits_step by lia. rewrite dec_digits_step by lia.
  rewrite dec_digits_small by lia. reflexivity.
Qed.

Lemma int_str_4 (a b c d : Z) :
  1 <= a < 10 -> 0 <= b < 10 -> 0 <= c < 10 -> 0 <= d < 10 ->
  int_str (1000 * a + 100 * b + 10 * c + d)
  = [48 + a; 48 + b; 48 + c; 48 + d].
Proof.
  intros Ha Hb Hc Hd. unfold int_str.
  replace (1000 * a + 100 * b + 10 * c + d)
    with (10 * (10 * (10 * a + b) + c) + d) by ring.
  rewrite dec_digits_step by lia. rewrite dec_digits_step by lia.
  rewrite dec_digits_step by lia.
  rewrite dec_digits_small by lia. reflexivity.
Qed.

Lemma pad2_digits (c d : Z) :
  0 <= c < 10 -> 0 <= d < 10 -> pad2 (10 * c + d) = [48 + c; 48 + d].
Proof.
  intros Hc Hd. unfold pad2. destruct (Z.ltb_spec (10 * c + d) 10).
  - assert (c = 0) by lia. subst c. rewrite int_str_1 by lia. reflexivity.
  - apply int_str_2; lia.
Qed.

Lemma pad4_digits (a b c d : Z) :
  0 <= a < 10 -> 0 <= b < 10 -> 0 <= c < 10 -> 0 <= d < 10 ->
  pad4 (1000 * a + 100 * b + 10 * c + d)
  = [48 + a; 48 + b; 48 + c; 48 + d].
Proof.
  intros Ha Hb Hc Hd. unfold pad4.
  destruct (Z.ltb_spec (1000 * a + 100 * b + 10 * c + d) 10).
  { assert (a = 0) by lia. assert (b = 0) by lia. assert (c = 0) by lia.
    subst. rewrite int_str_1 by lia. reflexivity. }
  destruct (Z.ltb_spec (1000 * a + 100 * b + 10 * c + d) 100).
  { assert (a = 0) by lia. assert (b = 0) by lia. subst.
    replace (1000 * 0 + 100 * 0 + 10 * c + d) with (10 * c + d) by ring.
    rewrite int_str_2 by lia. reflexivity. }
  destruct (Z.ltb_spec (1000 * a + 100 * b + 10 * c + d) 1000).
  { assert (a = 0) by lia. subst.
    replace (1000 * 0 + 100 * b + 10 * c + d) with (100 * b + 10 * c + d) by ring.
    rewrite int_str_3 by lia. reflexivity. }
  apply int_str_4; lia.
Qed.



Lemma re_year_four_digits (y1 y2 y3 y4 : Z) (rest : str) :
  ascii_digit y1 = true -> ascii_digit y2 = true ->
  ascii_digit y3 = true -> ascii_digit y4 = true ->
  re_year (y1 :: y2 :: y3 :: y4 :: rest) = [([y1; y2; y3; y4], rest)].
Proof.
  intros H1 H2 H3 H4.
  apply ascii_digit_isdecimal in H1, H2, H3, H4.
  unfold re_year, re_seq, re_d, re_char. simpl.
  rewrite H1. simpl. rewrite H2. simpl. rewrite H3. simpl. rewrite H4.
  reflexivity.
Qed.


Lemma py_int_four_digits (y1 y2 y3 y4 : Z) :
  ascii_digit y1 = true -> ascii_digit y2 = true ->
  ascii_digit y3 = true -> ascii_digit y4 = true ->
  py_int [y1; y2; y3; y4]
  = Some (1000 * digit_of y1 + 100 * digit_of y2
          + 10 * digit_of y3 + digit_of y4).
Proof.
  intros H1 H2 H3 H4. unfold py_int, strip, rstrip.
  pose proof (ascii_digit_not_space _ H1) as S1.
  pose proof (ascii_digit_not_space _ H4) as S4.
  cbn [lstrip]. rewrite S1. cbn [rev app lstrip]. rewrite S4.
  cbn [rev app int_digits].
  rewrite !decimal_value_ascii by assumption.
  unfold digit_of. f_equal. ring.
Qed.

Lemma re_dot_stop (rest : str) : re_dot (46 :: rest) = [([46], rest)].
Proof. reflexivity. Qed.


Lemma date_new_valid (y m d : Z) :
  valid_dateb y m d = true -> date_new y m d = Ret (mkdate y m d).
Proof.
  unfold valid_dateb, date_new. rewrite !andb_true_iff.
  intros [[[[[H1 H2] H3] H4] H5] H6].
  rewrite H1, H2, H3, H4, H5, H6. reflexivity.
Qed.



Lemma digit_of_range (c : Z) : ascii_digit c = true -> 0 <= digit_of c < 10.
Proof. rewrite ascii_digit_range. unfold digit_of. lia. Qed.

Lemma digit_of_char (c : Z) : 48 + digit_of c = c.
Proof. unfold digit_of. ring. Qed.




(* ================================================================== *)
(** * Dates and their ordinals *)
(* ================================================================== *)

Lemma in_Z_range (k : nat) (n : Z) : 0 <= n < Z.of_nat k -> In n (Z_range k).
Proof.
  intros H. unfold Z_range. apply in_map_iff. exists (Z.to_nat n). split.
  - apply Z2Nat.id. lia.
  - apply in_seq. lia.
Qed.

Lemma month_day_ok_common : forallb (month_day_ok false) (Z_range 365) = true.
Proof. vm_compute. reflexivity. Qed.

Lemma month_day_ok_leap : forallb (month_day_ok true) (Z_range 366) = true.
Proof. vm_compute. reflexivity. Qed.

Lemma month_day_spec (leapyear : bool) (n : Z) :
  0 <= n < 365 + (if leapyear then 1 else 0) ->
  let m := fst (month_day leapyear n) in
  let d := snd (month_day leapyear n) in
  1 <= m <= 12
  /\ 1 <= d <= DAYS_IN_MONTH m + (if (m =? 2) && leapyear then 1 else 0)
  /\ DAYS_BEFORE_MONTH m + (if (2 <? m) && leapyear then 1 else 0) + d = n + 1.
Proof.
  intros H.
  assert (Hok : month_day_ok leapyear n = true).
  { destruct leapyear.
    - pose proof month_day_ok_leap as A. rewrite forallb_forall in A.
      apply A. apply in_Z_range. lia.
    - pose proof month_day_ok_common as A. rewrite forallb_forall in A.
      apply A. apply in_Z_range. lia. }
  unfold month_day_ok in Hok. cbv zeta.
  rewrite !andb_true_iff, !Z.leb_le, Z.eqb_eq in Hok. lia.
Qed.

Lemma days_before_year_cycles (n400 n100 n4 n1 : Z) :
  0 <= n100 <= 3 -> 0 <= n4 <= 24 -> 0 <= n1 <= 3 ->
  days_before_year (n400 * 400 + 1 + (n100 * 100 + n4 * 4 + n1))
  = n400 * DI400Y + n100 * DI100Y + n4 * DI4Y + n1 * 365.
Proof.
  intros H100 H4 H1. unfold days_before_year, DI400Y, DI100Y, DI4Y. cbv zeta.
  replace (n400 * 400 + 1 + (n100 * 100 + n4 * 4 + n1) - 1)
    with (n400 * 400 + n100 * 100 + n4 * 4 + n1) by ring.
  replace ((n400 * 400 + n100 * 100 + n4 * 4 + n1) / 4)
    with (n400 * 100 + n100 * 25 + n4)
    by (apply (Z.div_unique _ 4 _ n1); lia).
  replace ((n400 * 400 + n100 * 100 + n4 * 4 + n1) / 100)
    with (n400 * 4 + n100)
    by (apply (Z.div_unique _ 100 _ (n4 * 4 + n1)); lia).
  replace ((n400 * 400 + n100 * 100 + n4 * 4 + n1) / 400)
    with n400
    by (apply (Z.div_unique _ 400 _ (n100 * 100 + n4 * 4 + n1)); lia).
  ring.
Qed.

Lemma is_leap_cycles (n400 n100 n4 n1 : Z) :
  0 <= n100 <= 3 -> 0 <= n4 <= 24 -> 0 <= n1 <= 3 ->
  is_leap (n400 * 400 + 1 + (n100 * 100 + n4 * 4 + n1))
  = (n1 =? 3) && (negb (n4 =? 24) || (n100 =? 3)).
Proof.
  intros H100 H4 H1. unfold is_leap.
  set (y := n400 * 400 + 1 + (n100 * 100 + n4 * 4 + n1)).
  assert (E4 : y mod 4 = (n1 + 1) mod 4).
  { unfold y. replace (n400 * 400 + 1 + (n100 * 100 + n4 * 4 + n1))
      with (n1 + 1 + (n400 * 100 + n100 * 25 + n4) * 4) by ring.
    apply Z.mod_add. lia. }
  assert (E100 : y mod 100 = (n4 * 4 + n1 + 1) mod 100).
  { unfold y. replace (n400 * 400 + 1 + (n100 * 100 + n4 * 4 + n1))
      with (n4 * 4 + n1 + 1 + (n400 * 4 + n100) * 100) by ring.
    apply Z.mod_add. lia. }
  assert (E400 : y mod 400 = (n100 * 100 + n4 * 4 + n1 + 1) mod 400).
  { unfold y. replace (n400 * 400 + 1 + (n100 * 100 + n4 * 4 + n1))
      with (n100 * 100 + n4 * 4 + n1 + 1 + n400 * 400) by ring.
    apply Z.mod_add. lia. }
  rewrite E4, E100, E400.
  destruct (Z.eqb_spec n1 3) as [-> | N1].
  - replace ((3 + 1) mod 4) with 0 by reflexivity. cbn [Z.eqb andb].
    destruct (Z.eqb_spec n4 24) as [-> | N4].
    + replace ((24 * 4 + 3 + 1) mod 100) with 0 by reflexivity.
      cbn [Z.eqb negb orb].
      destruct (Z.eqb_spec n100 3) as [-> | N100]; [reflexivity |].
      destruct (Z.eqb_spec ((n100 * 100 + 24 * 4 + 3 + 1) mod 400) 0)
        as [E | E]; [| reflexivity].
      exfalso. rewrite Z.mod_small in E by lia. lia.
    + cbn [negb orb].
      destruct (Z.eqb_spec ((n4 * 4 + 3 + 1) mod 100) 0) as [E | E];
        [| reflexivity].
      exfalso. rewrite Z.mod_small in E by lia. lia.
  - cbn [andb].
    destruct (Z.eqb_spec ((n1 + 1) mod 4) 0) as [E | E]; [| reflexivity].
    exfalso. rewrite Z.mod_small in E by lia. lia.
Qed.

(** The quotients and remainders that [ord2ymd] takes. *)
Lemma ord2ymd_cycles (n : Z) :
  1 <= n ->
  exists n400 n100 n4 n1 r,
    (n - 1) / DI400Y = n400
    /\ ((n - 1) mod DI400Y) / DI100Y = n100
    /\ (((n - 1) mod DI400Y) mod DI100Y) / DI4Y = n4
    /\ ((((n - 1) mod DI400Y) mod DI100Y) mod DI4Y) / 365 = n1
    /\ ((((n - 1) mod DI400Y) mod DI100Y) mod DI4Y) mod 365 = r
    /\ n - 1 = n400 * DI400Y + n100 * DI100Y + n4 * DI4Y + n1 * 365 + r
    /\ 0 <= n400 /\ 0 <= n100 <= 4 /\ 0 <= n4 <= 24 /\ 0 <= n1 <= 4
    /\ 0 <= r < 365
    /\ (n100 = 4 -> n4 = 0 /\ n1 = 0 /\ r = 0)
    /\ (n1 = 4 -> r = 0 /\ n4 <= 23).
Proof.
  intros Hn. unfold DI400Y, DI100Y, DI4Y.
  do 5 eexists. repeat (split; [reflexivity |]).
  Z.div_mod_to_equations. lia.
Qed.

Lemma ord2ymd_spec (n : Z) :
  1 <= n ->
  toordinal (ord2ymd n) = n
  /\ 1 <= year (ord2ymd n)
  /\ 1 <= month (ord2ymd n) <= 12
  /\ 1 <= day (ord2ymd n)
       <= days_in_month (year (ord2ymd n)) (month (ord2ymd n)).
Proof.
  intros Hn.
  destruct (ord2ymd_cycles n Hn)
    as (n400 & n100 & n4 & n1 & r & E400 & E100 & E4 & E1 & Er & Hsum
        & B400 & B100 & B4 & B1 & Br & S100 & S1).
  unfold ord2ymd. cbv zeta. rewrite E400, E100, E4, E1, Er.
  clear E400 E100 E4 E1 Er.
  destruct ((n1 =? 4) || (n100 =? 4)) eqn:Elast.
  - apply orb_true_iff in Elast. rewrite !Z.eqb_eq in Elast.
    unfold toordinal, ymd2ord, days_before_month, days_in_month.
    cbn [year month day Z.eqb Pos.eqb andb DAYS_IN_MONTH].
    split; [| lia].
    destruct (Z.eq_dec n100 4) as [-> | N100].
    + destruct (S100 eq_refl) as (-> & -> & ->).
      replace (n400 * 400 + 1 + (4 * 100 + 0 * 4 + 0) - 1)
        with (n400 * 400 + 1 + (3 * 100 + 24 * 4 + 3)) by ring.
      rewrite days_before_year_cycles, is_leap_cycles by lia.
      cbn. unfold DI400Y, DI100Y, DI4Y in *. lia.
    + assert (n1 = 4) by lia. subst n1. destruct (S1 eq_refl) as (-> & B4').
      replace (n400 * 400 + 1 + (n100 * 100 + n4 * 4 + 4) - 1)
        with (n400 * 400 + 1 + (n100 * 100 + n4 * 4 + 3)) by ring.
      rewrite days_before_year_cycles, is_leap_cycles by lia.
      destruct (Z.eqb_spec n4 24); [lia |].
      cbn. unfold DI400Y, DI100Y, DI4Y in *. lia.
  - apply orb_false_iff in Elast. rewrite !Z.eqb_neq in Elast.
    set (leapyear := (n1 =? 3) && (negb (n4 =? 24) || (n100 =? 3))).
    unfold toordinal, ymd2ord, days_before_month, days_in_month.
    cbn [year month day].
    rewrite days_before_year_cycles, is_leap_cycles by lia.
    fold leapyear.
    destruct (month_day_spec leapyear r) as (Hm & Hd & Hmd).
    { destruct leapyear; lia. }
    cbv zeta in Hm, Hd, Hmd.
    split; [unfold DI400Y, DI100Y, DI4Y in *; lia |].
    split; [lia |]. split; [exact Hm |].
    destruct (Z.eqb_spec (fst (month_day leapyear r)) 2) as [E2 | E2];
      destruct leapyear; cbn [andb] in *; try lia.
    rewrite E2 in Hd. cbn [DAYS_IN_MONTH] in Hd. lia.
Qed.

Lemma toordinal_ord2ymd (n : Z) : 1 <= n -> toordinal (ord2ymd n) = n.
Proof. intros Hn. apply (ord2ymd_spec n Hn). Qed.

Lemma days_before_year_succ (y : Z) :
  days_before_year (y + 1)
  = days_before_year y + 365 + (if is_leap y then 1 else 0).
Proof.
  unfold days_before_year, is_leap. cbv zeta.
  replace (y + 1 - 1) with y by ring.
  destruct (Z.eqb_spec (y mod 4) 0) as [E4 | E4];
    destruct (Z.eqb_spec (y mod 100) 0) as [E100 | E100];
    destruct (Z.eqb_spec (y mod 400) 0) as [E400 | E400];
    cbn [negb andb orb]; Z.div_mod_to_equations; lia.
Qed.

Lemma days_before_year_mono (y y' : Z) :
  y <= y' -> days_before_year y <= days_before_year y'.
Proof.
  intros H. pattern y'. apply (Zlt_lower_bound_ind _ y); [| exact H].
  intros x IH Hx. destruct (Z.eq_dec x y) as [-> | N]; [lia |].
  assert (Hp : days_before_year y <= days_before_year (x - 1))
    by (apply IH; lia).
  pose proof (days_before_year_succ (x - 1)) as Hs.
  replace (x - 1 + 1) with x in Hs by ring.
  destruct (is_leap (x - 1)); lia.
Qed.

Lemma valid_dateb_iff (y m d : Z) :
  valid_dateb y m d = true
  <-> 1 <= y <= 9999 /\ 1 <= m <= 12 /\ 1 <= d <= days_in_month y m.
Proof.
  unfold valid_dateb, MINYEAR, MAXYEAR. rewrite !andb_true_iff, !Z.leb_le.
  tauto.
Qed.

Lemma day_of_year_bounds (y m d : Z) :
  1 <= m <= 12 -> 1 <= d <= days_in_month y m ->
  1 <= days_before_month y m + d <= 365 + (if is_leap y then 1 else 0).
Proof.
  intros Hm Hd. unfold days_before_month, days_in_month in *.
  assert (Cm : m = 1 \/ m = 2 \/ m = 3 \/ m = 4 \/ m = 5 \/ m = 6 \/ m = 7
               \/ m = 8 \/ m = 9 \/ m = 10 \/ m = 11 \/ m = 12) by lia.
  revert Hd. destruct (is_leap y);
    repeat (destruct Cm as [-> | Cm]; [cbn -[Z.add]; lia |]); subst;
    cbn -[Z.add]; lia.
Qed.

Lemma toordinal_bounds (d : date) :
  valid_dateb (year d) (month d) (day d) = true ->
  1 <= toordinal d <= MAXORDINAL.
Proof.
  rewrite valid_dateb_iff. intros (Hy & Hm & Hd).
  pose proof (day_of_year_bounds _ _ _ Hm Hd) as Hb.
  pose proof (days_before_year_mono 1 (year d) ltac:(lia)) as Hlo.
  pose proof (days_before_year_mono (year d + 1) 10000 ltac:(lia)) as Hhi.
  pose proof (days_before_year_succ (year d)) as Hs.
  change (days_before_year 1) with 0 in Hlo.
  change (days_before_year 10000) with 3652059 in Hhi.
  unfold toordinal, ymd2ord, MAXORDINAL. lia.
Qed.

Lemma ord2ymd_valid (n : Z) :
  1 <= n <= MAXORDINAL ->
  valid_dateb (year (ord2ymd n)) (month (ord2ymd n)) (day (ord2ymd n)) = true.
Proof.
  intros [Hlo Hhi]. destruct (ord2ymd_spec n Hlo) as (Ho & Hy & Hm & Hd).
  apply valid_dateb_iff. repeat split; try lia.
  destruct (Z_le_gt_dec (year (ord2ymd n)) 9999) as [L | G]; [exact L |].
  exfalso.
  pose proof (days_before_year_mono 10000 (year (ord2ymd n)) ltac:(lia)) as Hmono.
  change (days_before_year 10000) with 3652059 in Hmono.
  pose proof (day_of_year_bounds _ _ _ Hm Hd) as Hb.
  unfold toordinal, ymd2ord, MAXORDINAL in *. lia.
Qed.

Lemma weekday_range (p : date) : 0 <= weekday p <= 6.
Proof. unfold weekday. pose proof (Z.mod_pos_bound (toordinal p + 6) 7). lia. Qed.

(** Moving a Saturday or a Sunday to the next Monday stays inside the
    calendar. *)
Lemma weekend_shift_in_calendar (p : date) :
  valid_dateb (year p) (month p) (day p) = true ->
  5 <= weekday p ->
  1 <= toordinal p + (7 - weekday p) <= MAXORDINAL.
Proof.
  intros Hv Hw. pose proof (toordinal_bounds p Hv) as Hb.
  pose proof (weekday_range p) as Hr.
  unfold weekday, MAXORDINAL in *. Z.div_mod_to_equations. lia.
Qed.

Lemma weekday_after_shift (p q : date) :
  5 <= weekday p ->
  toordinal q = toordinal p + (7 - weekday p) ->
  weekday q = 0.
Proof.
  intros Hw Hq. pose proof (weekday_range p) as Hr.
  unfold weekday in *. rewrite Hq. Z.div_mod_to_equations. lia.
Qed.

(* ================================================================== *)
(** * The upcoming birthdays *)
(* ================================================================== *)

Section Upcoming.

Variable c : libc.
Variable today : date.
Variable days : Z.

Lemma birthday_this_year_projected (d : date) :
  valid_dateb (year today) (month d) (day d) = true ->
  valid_dateb (year (projected today d)) (month d) (day d) = true ->
  birthday_this_year today d = Ret (projected today d).
Proof.
  intros H1 H2. unfold birthday_this_year, replace_year, projected in *.
  rewrite (date_new_valid _ _ _ H1). cbn [bind month day].
  destruct (date_ltb (mkdate (year today) (month d) (day d)) today).
  - cbn [year] in H2. apply date_new_valid, H2.
  - reflexivity.
Qed.

Lemma projected_month_day (d : date) :
  month (projected today d) = month d /\ day (projected today d) = day d.
Proof.
  unfold projected.
  destruct (date_ltb (mkdate (year today) (month d) (day d)) today); auto.
Qed.

Lemma projected_valid (d : date) :
  valid_dateb (year (projected today d)) (month d) (day d) = true ->
  valid_dateb (year (projected today d)) (month (projected today d))
    (day (projected today d)) = true.
Proof.
  destruct (projected_month_day d) as [-> ->]. auto.
Qed.

Lemma weekend_shift_cases (p : date) :
  (weekday p < 5 /\ weekend_shift p = 0)
  \/ (5 <= weekday p /\ weekend_shift p = 7 - weekday p
      /\ 1 <= weekend_shift p <= 2).
Proof.
  pose proof (weekday_range p) as Hr. unfold weekend_shift.
  destruct (Z.eqb_spec (weekday p) 5) as [E5 | E5]; [right; lia |].
  destruct (Z.eqb_spec (weekday p) 6) as [E6 | E6]; [right; lia |].
  left. lia.
Qed.

Lemma congratulation_date_day (p : date) :
  valid_dateb (year p) (month p) (day p) = true ->
  congratulation_date c p = Ret (strftime_dmY c (congratulation_day p)).
Proof.
  intros Hv. unfold congratulation_date, congratulation_day.
  destruct (weekend_shift_cases p) as [[Hw Hs] | (Hw & Hs & Hb)].
  - destruct (Z.leb_spec 5 (weekday p)); [lia |]. rewrite Hs. reflexivity.
  - destruct (Z.leb_spec 5 (weekday p)); [| lia].
    destruct (Z.eqb_spec (weekend_shift p) 0); [lia |].
    unfold date_add_days. rewrite Hs.
    pose proof (weekend_shift_in_calendar p Hv Hw) as Hcal.
    destruct (Z.ltb_spec 0 (toordinal p + (7 - weekday p))); [| lia].
    destruct (Z.leb_spec (toordinal p + (7 - weekday p)) MAXORDINAL); [| lia].
    reflexivity.
Qed.

Lemma congratulation_day_monday (p : date) :
  valid_dateb (year p) (month p) (day p) = true ->
  (weekday p < 5 -> congratulation_day p = p)
  /\ (weekday p = 5 ->
      toordinal (congratulation_day p) = toordinal p + 2
      /\ weekday (congratulation_day p) = 0)
  /\ (weekday p = 6 ->
      toordinal (congratulation_day p) = toordinal p + 1
      /\ weekday (congratulation_day p) = 0)
  /\ valid_dateb (year (congratulation_day p)) (month (congratulation_day p))
       (day (congratulation_day p)) = true.
Proof.
  intros Hv. unfold congratulation_day.
  destruct (weekend_shift_cases p) as [[Hw Hs] | (Hw & Hs & Hb)].
  - rewrite Hs. cbn [Z.eqb]. repeat split; try lia. exact Hv.
  - destruct (Z.eqb_spec (weekend_shift p) 0); [lia |].
    pose proof (weekend_shift_in_calendar p Hv Hw) as Hcal.
    rewrite <- Hs in Hcal.
    assert (Ho : toordinal (ord2ymd (toordinal p + weekend_shift p))
                 = toordinal p + weekend_shift p)
      by (apply toordinal_ord2ymd; lia).
    assert (Hm : weekday (ord2ymd (toordinal p + weekend_shift p)) = 0).
    { apply (weekday_after_shift p); [exact Hw |]. rewrite Ho. lia. }
    split; [lia |]. split; [intros E; split; [lia | exact Hm] |].
    split; [intros E; split; [lia | exact Hm] |].
    apply ord2ymd_valid. exact Hcal.
Qed.

Lemma upcoming_of_record_expected (r : Contact) :
  (forall b, birthday r = Some b ->
     exists d, b = Birthday d
       /\ valid_dateb (year today) (month d) (day d) = true
       /\ valid_dateb (year (projected today d)) (month d) (day d) = true) ->
  upcoming_of_record c today days r = Ret (expected_greetings c today days r).
Proof.
  intros H. unfold upcoming_of_record, expected_greetings.
  destruct (birthday r) as [b |]; [| reflexivity].
  destruct (H b eq_refl) as (d & -> & H1 & H2). cbn [value].
  rewrite (birthday_this_year_projected d H1 H2). cbn [bind].
  unfold days_between, in_window.
  replace ((0 <=? toordinal (projected today d) - toordinal today)
           && (toordinal (projected today d) - toordinal today <=? days))
    with ((toordinal today <=? toordinal (projected today d))
          && (toordinal (projected today d) <=? toordinal today + days)).
  2: { f_equal.
       - destruct (Z.leb_spec (toordinal today) (toordinal (projected today d)));
           destruct (Z.leb_spec 0 (toordinal (projected today d) - toordinal today));
           try reflexivity; lia.
       - destruct (Z.leb_spec (toordinal (projected today d)) (toordinal today + days));
           destruct (Z.leb_spec (toordinal (projected today d) - toordinal today) days);
           try reflexivity; lia. }
  destruct ((toordinal today <=? toordinal (projected today d))
            && (toordinal (projected today d) <=? toordinal today + days));
    [| reflexivity].
  rewrite (congratulation_date_day _ (projected_valid d H2)).
  reflexivity.
Qed.

Lemma upcoming_loop_expected (records : list Contact) (acc : list greeting) :
  (forall r b, In r records -> birthday r = Some b ->
     exists d, b = Birthday d
       /\ valid_dateb (year today) (month d) (day d) = true
       /\ valid_dateb (year (projected today d)) (month d) (day d) = true) ->
  upcoming_loop c today days records acc
  = Ret (acc ++ flat_map (expected_greetings c today days) records).
Proof.
  revert acc. induction records as [| r rest IH]; intros acc H.
  - cbn. rewrite app_nil_r. reflexivity.
  - cbn [upcoming_loop flat_map].
    rewrite upcoming_of_record_expected
      by (intros b Hb; apply (H r b); [left; reflexivity | exact Hb]).
    cbn [bind]. rewrite IH.
    + rewrite <- app_assoc. reflexivity.
    + intros r' b Hr' Hb. apply (H r' b); [right; exact Hr' | exact Hb].
Qed.

Lemma in_expected_greetings (r : Contact) (g : greeting) :
  In g (expected_greetings c today days r)
  <-> exists d, birthday r = Some (Birthday d)
        /\ in_window today days (projected today d) = true
        /\ g = mkgreeting (value (name r))
                 (strftime_dmY c (congratulation_day (projected today d))).
Proof.
  unfold expected_greetings. split.
  - destruct (birthday r) as [[v | v | d] |]; try (intros []).
    destruct (in_window today days (projected today d)) eqn:E; [| intros []].
    intros [<- | []]. exists d. auto.
  - intros (d & -> & -> & ->). left. reflexivity.
Qed.

(** X1: when the day of every birthday exists in the year of [today]
    and in the year it is projected onto, [get_upcoming_birthdays] returns, in
    the order of the book, one greeting for each record whose projected
    birthday lies in the window from [today] to [today + days], both ends
    included, and for no other record. The date of the greeting is the
    projected date itself on a weekday (0 to 4); on a Saturday (5) it is
    the date two days later and on a Sunday (6) the date one day later,
    which is a Monday. *)
Theorem upcoming_birthdays_in_window (book : AddressBook) :
  projections_exist today book ->
  get_upcoming_birthdays c today days book
  = Ret (flat_map (expected_greetings c today days) (dict_values book))
  /\ (forall g,
        In g (flat_map (expected_greetings c today days) (dict_values book))
        <-> exists r d,
              In r (dict_values book)
              /\ birthday r = Some (Birthday d)
              /\ in_window today days (projected today d) = true
              /\ g = mkgreeting (value (name r))
                       (strftime_dmY c
                          (congratulation_day (projected today d))))
  /\ (forall r d,
        In r (dict_values book) -> birthday r = Some (Birthday d) ->
        (weekday (projected today d) < 5 ->
           congratulation_day (projected today d) = projected today d)
        /\ (weekday (projected today d) = 5 ->
            toordinal (congratulation_day (projected today d))
            = toordinal (projected today d) + 2
            /\ weekday (congratulation_day (projected today d)) = 0)
        /\ (weekday (projected today d) = 6 ->
            toordinal (congratulation_day (projected today d))
            = toordinal (projected today d) + 1
            /\ weekday (congratulation_day (projected today d)) = 0)).
Proof.
  intros H. split; [| split].
  - unfold get_upcoming_birthdays.
    rewrite upcoming_loop_expected by exact H. reflexivity.
  - intros g. rewrite in_flat_map. split.
    + intros (r & Hr & Hg). apply in_expected_greetings in Hg.
      destruct Hg as (d & Hg). exists r, d. tauto.
    + intros (r & d & Hr & Hg). exists r. split; [exact Hr |].
      apply in_expected_greetings. exists d. exact Hg.
  - intros r d Hr Hb. destruct (H r (Birthday d) Hr Hb) as (d' & E & _ & H2).
    injection E as <-.
    destruct (congratulation_day_monday _ (projected_valid d H2))
      as (A & B & C & _).
    auto.
Qed.

End Upcoming.

Lemma book_of_bob_and_carl_projections :
  projections_exist (mkdate 2024 3 10) book_of_bob_and_carl.
Proof.
  intros r b Hr Hb. destruct Hr as [<- | [<- | []]];
    injection Hb as <-; eexists; repeat split; reflexivity.
Qed.

Lemma upcoming_birthdays_in_window_witness :
  projections_exist (mkdate 2024 3 10) book_of_bob_and_carl
  /\ get_upcoming_birthdays glibc (mkdate 2024 3 10) 7 book_of_bob_and_carl
     = Ret [mkgreeting (VStr (py "Bob")) (py "12.03.2024");
            mkgreeting (VStr (py "Carl")) (py "18.03.2024")]
  /\ weekday (projected (mkdate 2024 3 10) (mkdate 1985 3 16)) = 5
  /\ (toordinal (congratulation_day
                   (projected (mkdate 2024 3 10) (mkdate 1985 3 16)))
      = toordinal (projected (mkdate 2024 3 10) (mkdate 1985 3 16)) + 2
      /\ weekday (congratulation_day
                    (projected (mkdate 2024 3 10) (mkdate 1985 3 16))) = 0).
Proof.
  split; [exact book_of_bob_and_carl_projections |].
  split.
  - exact (proj1 (upcoming_birthdays_in_window glibc (mkdate 2024 3 10) 7
                    book_of_bob_and_carl book_of_bob_and_carl_projections)).
  - split; [reflexivity |].
    refine (proj1 (proj2 (proj2 (proj2
              (upcoming_birthdays_in_window glibc (mkdate 2024 3 10) 7
                 book_of_bob_and_carl book_of_bob_and_carl_projections))
              carl (mkdate 1985 3 16) _ eq_refl)) eq_refl).
    right. left. reflexivity.
Defined.

(* ================================================================== *)
(** * A birthday on 29 February *)
(* ================================================================== *)

Lemma upcoming_loop_raises (c : libc) (today : date) (days : Z)
  (records : list Contact) (acc : list greeting) (r : Contact) :
  In r records ->
  is_raise (upcoming_of_record c today days r) = true ->
  is_raise (upcoming_loop c today days records acc) = true.
Proof.
  revert acc. induction records as [| r0 rest IH]; intros acc Hin Hr.
  - destruct Hin.
  - cbn [upcoming_loop].
    destruct (upcoming_of_record c today days r0) as [more | e] eqn:E0.
    + cbn [bind]. destruct Hin as [-> | Hin].
      * rewrite E0 in Hr. discriminate.
      * apply IH; assumption.
    + reflexivity.
Qed.

Lemma is_leap_next (y : Z) : is_leap y = true -> is_leap (y + 1) = false.
Proof.
  unfold is_leap. rewrite andb_true_iff, Z.eqb_eq. intros [H4 _].
  destruct (Z.eqb_spec ((y + 1) mod 4) 0) as [E | E]; [| reflexivity].
  exfalso. Z.div_mod_to_equations. lia.
Qed.

Lemma date_new_feb29_raises (y : Z) :
  is_leap y = false -> is_raise (date_new y 2 29) = true.
Proof.
  intros H. unfold date_new, days_in_month. rewrite H. cbn [Z.eqb Pos.eqb andb].
  destruct (negb ((MINYEAR <=? y) && (y <=? MAXYEAR))); reflexivity.
Qed.

Lemma date_new_inv (y m d : Z) (t : date) :
  date_new y m d = Ret t ->
  t = mkdate y m d /\ valid_dateb y m d = true.
Proof.
  unfold date_new, valid_dateb.
  destruct ((MINYEAR <=? y) && (y <=? MAXYEAR)); [| discriminate].
  destruct ((1 <=? m) && (m <=? 12)) eqn:Em; [| discriminate].
  destruct ((1 <=? d) && (d <=? days_in_month y m)) eqn:Ed; [| discriminate].
  cbn [negb]. intros H. injection H as <-.
  apply andb_true_iff in Em, Ed. destruct Em as [-> ->], Ed as [-> ->].
  auto.
Qed.

Lemma birthday_this_year_feb29_raises (today d : date) :
  month d = 2 -> day d = 29 ->
  is_leap (year today) = false
  \/ date_ltb (mkdate (year today) 2 29) today = true ->
  is_raise (birthday_this_year today d) = true.
Proof.
  intros Hm Hd H. unfold birthday_this_year, replace_year. rewrite Hm, Hd.
  destruct (is_leap (year today)) eqn:L.
  - destruct H as [H | H]; [discriminate |].
    destruct (date_new (year today) 2 29) as [t |] eqn:E; [| reflexivity].
    cbn [bind].
    assert (Et : t = mkdate (year today) 2 29)
      by (apply (date_new_inv _ _ _ _ E)).
    subst t. rewrite H. cbn [month day].
    apply date_new_feb29_raises, is_leap_next, L.
  - rewrite (proj1 (not_false_iff_true _)); [reflexivity |].
    intros E. pose proof (date_new_feb29_raises (year today) L) as R.
    destruct (date_new (year today) 2 29); [discriminate R | discriminate E].
Qed.

(** C1 does not hold of the code: when a record of the book has its
    birthday on 29 February and the year of [today] is not a leap year,
    or [today] is past 29 February of a leap year, so that the birthday
    goes to the next year, [get_upcoming_birthdays] raises an exception
    instead of returning a list. *)
Theorem feb29_birthday_raises (c : libc) (today : date) (days : Z)
  (book : AddressBook) (r : Contact) (d : date) :
  In r (dict_values book) ->
  birthday r = Some (Birthday d) ->
  month d = 2 -> day d = 29 ->
  is_leap (year today) = false
  \/ date_ltb (mkdate (year today) 2 29) today = true ->
  exists e, get_upcoming_birthdays c today days book = Raise e.
Proof.
  intros Hr Hb Hm Hd Hy.
  assert (R : is_raise (get_upcoming_birthdays c today days book) = true).
  { unfold get_upcoming_birthdays. apply (upcoming_loop_raises _ _ _ _ _ r Hr).
    unfold upcoming_of_record. rewrite Hb. cbn [value].
    pose proof (birthday_this_year_feb29_raises today d Hm Hd Hy) as B.
    destruct (birthday_this_year today d); [discriminate B | reflexivity]. }
  destruct (get_upcoming_birthdays c today days book) as [l | e];
    [discriminate R | exists e; reflexivity].
Qed.

Lemma feb29_birthday_raises_witness :
  In eve (dict_values book_of_eve)
  /\ birthday eve = Some (Birthday (mkdate 2000 2 29))
  /\ (is_leap (year (mkdate 2023 3 1)) = false
      \/ date_ltb (mkdate (year (mkdate 2023 3 1)) 2 29) (mkdate 2023 3 1) = true)
  /\ exists e, get_upcoming_birthdays glibc (mkdate 2023 3 1) 7 book_of_eve
               = Raise e.
Proof.
  split; [left; reflexivity |]. split; [reflexivity |].
  split; [left; reflexivity |].
  apply (feb29_birthday_raises glibc (mkdate 2023 3 1) 7 book_of_eve eve
           (mkdate 2000 2 29)).
  - left. reflexivity.
  - reflexivity.
  - reflexivity.
  - reflexivity.
  - left. reflexivity.
Defined.

(** The record of Eve is one the program builds, and the call on her book
    ends in the error of [date.replace]. *)
Lemma book_of_eve_raises :
  Record_init (py "Eve") = Ret (mkContact (Name (py "Eve")) [] None)
  /\ add_birthday (py "29.02.2000") (mkContact (Name (py "Eve")) [] None)
     = (Ret tt, eve)
  /\ add_record eve [] = (Ret tt, book_of_eve)
  /\ get_upcoming_birthdays glibc (mkdate 2023 3 1) 7 book_of_eve
     = Raise (ValueError (py "day is out of range for month"))
  /\ get_upcoming_birthdays glibc (mkdate 2024 3 1) 7 book_of_eve
     = Raise (ValueError (py "day is out of range for month")).
Proof. repeat split; reflexivity. Qed.

(* ================================================================== *)
(** * When the projections exist *)
(* ================================================================== *)

Lemma Birthday_init_inv (s : str) (f : Field) :
  Birthday_init s = Ret f ->
  exists d, f = Birthday d
            /\ valid_dateb (year d) (month d) (day d) = true.
Proof.
  unfold Birthday_init.
  destruct (strptime_dmY s) as [d | e] eqn:E; cbn [bind except_ValueError].
  - intros H. injection H as <-. exists d. split; [reflexivity |].
    unfold strptime_dmY in E.
    destruct (match_dmY s) as [[[[gd gm] gy] rest] |]; [| discriminate].
    destruct rest; [| discriminate].
    destruct (int_group gy) as [y |]; [| discriminate].
    destruct (int_group gm) as [m |]; [| discriminate].
    destruct (int_group gd) as [dd |]; [| discriminate].
    cbn [bind] in E. apply date_new_inv in E. destruct E as [-> E]. exact E.
  - destruct e; discriminate.
Qed.

Lemma built_birthday (r : Contact) :
  built r ->
  forall b, birthday r = Some b ->
  exists d, b = Birthday d /\ valid_dateb (year d) (month d) (day d) = true.
Proof.
  induction 1 as [n r H | o r Hb IH]; intros b Hbd.
  - apply Record_init_inv in H. subst r. discriminate.
  - destruct o as [raw | raw | old new | raw]; cbn [run_record_op] in Hbd.
    + unfold add_phone in Hbd. destruct (Phone_init raw); apply IH, Hbd.
    + apply IH, Hbd.
    + destruct (edit_phone_outcomes old new r) as [[i [E En]] | E];
        rewrite E in Hbd; apply IH, Hbd.
    + unfold add_birthday in Hbd.
      destruct (Birthday_init raw) as [f | e] eqn:E; cbn [snd] in Hbd.
      * cbn in Hbd. injection Hbd as <-. apply (Birthday_init_inv raw f E).
      * apply IH, Hbd.
Qed.

Lemma valid_dateb_other_year (y y' m d : Z) :
  valid_dateb y m d = true -> 1 <= y' <= 9999 ->
  ~ (m = 2 /\ d = 29) ->
  valid_dateb y' m d = true.
Proof.
  rewrite !valid_dateb_iff. unfold days_in_month.
  intros (Hy & Hm & Hd) Hy' N. repeat split; try lia.
  destruct (Z.eqb_spec m 2) as [-> | M]; cbn [andb] in *.
  - destruct (is_leap y), (is_leap y'); cbn [DAYS_IN_MONTH] in *; lia.
  - lia.
Qed.

(** The projections exist for every book the operations reach, in every
    year but the last, when nobody was born on a 29 February. *)
Lemma reachable_projections_exist (today : date) (book : AddressBook) :
  reachable book ->
  1 <= year today <= 9998 ->
  (forall r d, In r (dict_values book) -> birthday r = Some (Birthday d) ->
               ~ (month d = 2 /\ day d = 29)) ->
  projections_exist today book.
Proof.
  intros Hreach Hy Hno r b Hr Hb.
  unfold dict_values in Hr. apply in_map_iff in Hr.
  destruct Hr as ([k r'] & <- & Hin). cbn [snd] in *.
  pose proof (reachable_built book Hreach k r' Hin) as Hbuilt.
  destruct (built_birthday r' Hbuilt b Hb) as (d & -> & Hv).
  exists d. split; [reflexivity |].
  assert (N : ~ (month d = 2 /\ day d = 29)).
  { apply (Hno r' d); [| exact Hb].
    unfold dict_values. apply in_map_iff. exists (k, r'). auto. }
  split; apply (valid_dateb_other_year (year d)); try assumption; try lia.
  unfold projected.
  destruct (date_ltb (mkdate (year today) (month d) (day d)) today);
    cbn [year]; lia.
Qed.

(** The scenario of Dana: born on 01.01.2000, seen from 31.12.2024. *)
Example dana_next_year :
  get_upcoming_birthdays glibc (mkdate 2024 12 31) 7
    [(VStr (py "Dana"),
      mkContact (Name (py "Dana")) [] (Some (Birthday (mkdate 2000 1 1))))]
  = Ret [mkgreeting (VStr (py "Dana")) (py "01.01.2025")].
Proof. reflexivity. Qed.

(* ================================================================== *)
(** * When the call returns *)
(* ================================================================== *)

Lemma birthday_this_year_returns (today d p : date) :
  birthday_this_year today d = Ret p ->
  valid_dateb (year today) (month d) (day d) = true
  /\ valid_dateb (year (projected today d)) (month d) (day d) = true.
Proof.
  unfold birthday_this_year, replace_year, projected.
  destruct (date_new (year today) (month d) (day d)) as [t |] eqn:E;
    [| discriminate].
  apply date_new_inv in E. destruct E as [-> E]. cbn [bind month day].
  destruct (date_ltb (mkdate (year today) (month d) (day d)) today).
  - intros H. apply date_new_inv in H. cbn [year]. tauto.
  - intros _. cbn [year]. tauto.
Qed.

Lemma upcoming_of_record_returns (c : libc) (today : date) (days : Z)
  (r : Contact) (l : list greeting) :
  upcoming_of_record c today days r = Ret l ->
  forall b, birthday r = Some b ->
    exists d, b = Birthday d
      /\ valid_dateb (year today) (month d) (day d) = true
      /\ valid_dateb (year (projected today d)) (month d) (day d) = true.
Proof.
  unfold upcoming_of_record. intros H b Hb. rewrite Hb in H.
  destruct b as [v | v | d]; cbn [value] in H; try discriminate.
  exists d. split; [reflexivity |].
  destruct (birthday_this_year today d) as [p |] eqn:E; [| discriminate].
  apply (birthday_this_year_returns today d p E).
Qed.

Lemma upcoming_loop_returns (c : libc) (today : date) (days : Z)
  (records : list Contact) (acc l : list greeting) :
  upcoming_loop c today days records acc = Ret l ->
  forall r b, In r records -> birthday r = Some b ->
    exists d, b = Birthday d
      /\ valid_dateb (year today) (month d) (day d) = true
      /\ valid_dateb (year (projected today d)) (month d) (day d) = true.
Proof.
  revert acc. induction records as [| r0 rest IH]; intros acc H r b Hin Hb.
  - destruct Hin.
  - cbn [upcoming_loop] in H.
    destruct (upcoming_of_record c today days r0) as [more |] eqn:E;
      [| discriminate].
    cbn [bind] in H. destruct Hin as [-> | Hin].
    + apply (upcoming_of_record_returns c today days r more E b Hb).
    + apply (IH _ H r b Hin Hb).
Qed.

(** X2: [get_upcoming_birthdays] returns a list exactly when the
    projections exist, and the list is then the expected one; on every
    other book it raises. *)
Theorem upcoming_birthdays_returns_iff (c : libc) (today : date) (days : Z)
  (book : AddressBook) (l : list greeting) :
  get_upcoming_birthdays c today days book = Ret l
  <-> projections_exist today book
      /\ l = flat_map (expected_greetings c today days) (dict_values book).
Proof.
  split.
  - intros H.
    assert (P : projections_exist today book).
    { intros r b Hr Hb. unfold get_upcoming_birthdays in H.
      apply (upcoming_loop_returns c today days _ _ _ H r b Hr Hb). }
    split; [exact P |].
    unfold get_upcoming_birthdays in H.
    rewrite upcoming_loop_expected in H by exact P.
    injection H as <-. reflexivity.
  - intros [P ->]. unfold get_upcoming_birthdays.
    rewrite upcoming_loop_expected by exact P. reflexivity.
Qed.

(** C5 does not hold of the code for every book: on 10.03.2023 the
    projected birthday of Bob, 12.03.2023, lies in the window of seven
    days, and the call on his own book greets him on Monday 13.03.2023;
    with Eve, born on a 29 February, in the same book the call raises
    and no greeting for Bob is returned. *)
Lemma upcoming_birthdays_lost_to_feb29 :
  In bob_with_birthday (dict_values book_of_eve_and_bob)
  /\ birthday bob_with_birthday = Some (Birthday (mkdate 1990 3 12))
  /\ projected (mkdate 2023 3 10) (mkdate 1990 3 12) = mkdate 2023 3 12
  /\ in_window (mkdate 2023 3 10) 7 (mkdate 2023 3 12) = true
  /\ get_upcoming_birthdays glibc (mkdate 2023 3 10) 7 book_of_eve_and_bob
     = Raise (ValueError (py "day is out of range for month"))
  /\ get_upcoming_birthdays glibc (mkdate 2023 3 10) 7
       [(VStr (py "Bob"), bob_with_birthday)]
     = Ret [mkgreeting (VStr (py "Bob")) (py "13.03.2023")].
Proof.
  split; [right; left; reflexivity |]. repeat split; reflexivity.
Qed.

(* ================================================================== *)
(** * Names, and the phones of a record *)
(* ================================================================== *)

Lemma lstrip_nil_iff (s : str) :
  lstrip s = [] <-> forallb char_isspace s = true.
Proof.
  induction s as [| c rest IH]; simpl; [tauto |].
  destruct (char_isspace c); simpl; [exact IH |].
  split; discriminate.
Qed.

Lemma lstrip_suffix (s : str) : exists pre, s = pre ++ lstrip s
  /\ forallb char_isspace pre = true.
Proof.
  induction s as [| c rest IH]; simpl.
  - exists []. auto.
  - destruct (char_isspace c) eqn:E.
    + destruct IH as [pre [H1 H2]]. exists (c :: pre). simpl.
      rewrite E, H2. split; [f_equal; exact H1 | reflexivity].
    + exists []. auto.
Qed.

Lemma forallb_rev (f : Z -> bool) (s : str) :
  forallb f (rev s) = forallb f s.
Proof.
  induction s as [| c rest IH]; simpl; [reflexivity |].
  rewrite forallb_app, IH. simpl. rewrite andb_true_r. apply andb_comm.
Qed.

Lemma strip_nil_iff (s : str) :
  strip s = [] <-> forallb char_isspace s = true.
Proof.
  unfold strip, rstrip. split.
  - intros H.
    assert (H1 : lstrip (rev (lstrip s)) = []).
    { destruct (lstrip (rev (lstrip s))) as [| x l] eqn:E; [reflexivity |].
      simpl in H. destruct (rev l); discriminate. }
    apply lstrip_nil_iff in H1. rewrite forallb_rev in H1.
    destruct (lstrip_suffix s) as [pre [Hs Hpre]].
    rewrite Hs, forallb_app, Hpre, H1. reflexivity.
  - intros H. apply lstrip_nil_iff in H. rewrite H. reflexivity.
Qed.

Lemma Record_init_cases (n : str) :
  (forallb char_isspace n = true ->
     Record_init n = Raise (ValueError (py "Name field cannot be empty.")))
  /\ (forallb char_isspace n = false ->
     Record_init n = Ret (mkContact (Name n) [] None)).
Proof.
  unfold Record_init, Name_init. split; intros H.
  - apply strip_nil_iff in H. rewrite H. reflexivity.
  - destruct (strip n) as [| x l] eqn:E; [| reflexivity].
    apply strip_nil_iff in E. congruence.
Qed.

(** X3: [Record(name)] raises the error of the empty name exactly when
    the name has no character that is not white space (the empty name
    among them); any other name makes a record with that name as it was
    given, white space around it included, no phones and no birthday. *)
Theorem Record_init_blank_name (n : str) :
  (forallb char_isspace n = true ->
     Record_init n = Raise (ValueError (py "Name field cannot be empty.")))
  /\ (forallb char_isspace n = false ->
     Record_init n = Ret (mkContact (Name n) [] None)).
Proof. exact (Record_init_cases n). Qed.

Lemma Record_init_blank_name_witness :
  forallb char_isspace (py "  ") = true
  /\ forallb char_isspace (py " Bob ") = false
  /\ Record_init (py "  ") = Raise (ValueError (py "Name field cannot be empty."))
  /\ Record_init (py " Bob ") = Ret (mkContact (Name (py " Bob ")) [] None).
Proof.
  split; [reflexivity |]. split; [reflexivity |]. split.
  - apply (proj1 (Record_init_blank_name (py "  "))). reflexivity.
  - apply (proj2 (Record_init_blank_name (py " Bob "))). reflexivity.
Defined.

Lemma find_phone_none_iff (p : str) (self : Contact) :
  find_phone p self = None
  <-> forall q, In q (phones self) -> value q <> VStr p.
Proof.
  unfold find_phone. split.
  - intros H q Hq E. apply (find_none _ _ H) in Hq.
    rewrite E, pyval_eqb_refl in Hq. discriminate.
  - intros H. destruct (find _ (phones self)) as [f |] eqn:E; [| reflexivity].
    apply find_some in E. destruct E as [Hin Hv].
    apply pyval_eqb_eq in Hv. exfalso. apply (H f Hin Hv).
Qed.

Lemma find_filter_other (v w : pyval) (l : list Field) :
  v <> w ->
  find (fun q => pyval_eqb (value q) v)
       (filter (fun q => negb (pyval_eqb (value q) w)) l)
  = find (fun q => pyval_eqb (value q) v) l.
Proof.
  intros N. induction l as [| e rest IH]; simpl; [reflexivity |].
  destruct (pyval_eqb (value e) w) eqn:Ew; simpl.
  - destruct (pyval_eqb (value e) v) eqn:Ev; [| exact IH].
    apply pyval_eqb_eq in Ew, Ev. congruence.
  - rewrite IH. reflexivity.
Qed.

Lemma filter_all_kept (f : Field -> bool) (l : list Field) :
  (forall x, In x l -> f x = true) -> filter f l = l.
Proof.
  induction l as [| e rest IH]; simpl; intros H; [reflexivity |].
  rewrite (H e) by auto. rewrite IH; auto.
Qed.

(** X4: [remove_phone] never raises; afterwards [find_phone] of the
    removed number returns [None], [find_phone] of every other number
    returns what it returned before, the name and the birthday are
    untouched, and a number that was not in the record leaves the whole
    record as it was. *)
Theorem remove_phone_removes_every_match (p : str) (self : Contact) :
  fst (remove_phone p self) = Ret tt
  /\ find_phone p (snd (remove_phone p self)) = None
  /\ (forall q, q <> p ->
        find_phone q (snd (remove_phone p self)) = find_phone q self)
  /\ name (snd (remove_phone p self)) = name self
  /\ birthday (snd (remove_phone p self)) = birthday self
  /\ (find_phone p self = None -> snd (remove_phone p self) = self).
Proof.
  unfold remove_phone. cbn [fst snd set_phones name birthday].
  split; [reflexivity |]. split; [| split; [| split; [| split]]].
  - apply find_phone_none_iff. cbn [phones]. intros q Hq E.
    apply filter_In in Hq. destruct Hq as [_ Hq].
    rewrite E, pyval_eqb_refl in Hq. discriminate.
  - intros q N. unfold find_phone. cbn [phones].
    apply find_filter_other. congruence.
  - reflexivity.
  - reflexivity.
  - intros H. rewrite find_phone_none_iff in H.
    rewrite filter_all_kept.
    + destruct self; reflexivity.
    + intros x Hx. apply negb_true_iff, pyval_eqb_neq, (H x Hx).
Qed.

Lemma remove_phone_removes_every_match_witness :
  find_phone (py "0670000000") alice = None
  /\ snd (remove_phone (py "0670000000") alice) = alice.
Proof.
  split; [reflexivity |].
  apply (proj2 (proj2 (proj2 (proj2 (proj2
           (remove_phone_removes_every_match (py "0670000000") alice)))))).
  reflexivity.
Defined.

Lemma find_app_last (v : pyval) (l : list Field) (x : Field) :
  find (fun q => pyval_eqb (value q) v) (l ++ [x])
  = match find (fun q => pyval_eqb (value q) v) l with
    | Some f => Some f
    | None => if pyval_eqb (value x) v then Some x else None
    end.
Proof.
  induction l as [| e rest IH]; simpl; [reflexivity |].
  destruct (pyval_eqb (value e) v); [reflexivity | exact IH].
Qed.

(** X5: [add_phone] of a valid number succeeds and puts the new entry
    after the entries that were there, whether or not the number was
    already present; afterwards [find_phone] finds an entry with that
    number, and every other lookup returns what it returned before. *)
Theorem add_phone_then_find (p : str) (self : Contact) :
  isdigit p = true -> len p = 10 ->
  fst (add_phone p self) = Ret tt
  /\ phones (snd (add_phone p self)) = phones self ++ [Phone p]
  /\ (exists f, find_phone p (snd (add_phone p self)) = Some f
                /\ value f = VStr p)
  /\ (forall q f, find_phone q self = Some f ->
                  find_phone q (snd (add_phone p self)) = Some f)
  /\ (forall q, q <> p ->
                find_phone q (snd (add_phone p self)) = find_phone q self).
Proof.
  intros Hd Hl. unfold add_phone. rewrite (Phone_init_ok p Hd Hl).
  cbn [fst snd]. split; [reflexivity |]. split; [reflexivity |].
  unfold find_phone. cbn [set_phones phones]. split; [| split].
  - rewrite find_app_last.
    destruct (find (fun q => pyval_eqb (value q) (VStr p)) (phones self))
      as [f |] eqn:E.
    + exists f. split; [reflexivity |]. apply find_some in E.
      apply pyval_eqb_eq, E.
    + cbn [value]. rewrite pyval_eqb_refl. exists (Phone p). auto.
  - intros q f H. rewrite find_app_last, H. reflexivity.
  - intros q N. rewrite find_app_last.
    destruct (find (fun q0 => pyval_eqb (value q0) (VStr q)) (phones self));
      [reflexivity |].
    cbn [value]. destruct (pyval_eqb (VStr p) (VStr q)) eqn:E; [| reflexivity].
    apply pyval_eqb_eq in E. congruence.
Qed.

Lemma add_phone_then_find_witness :
  isdigit (py "0670000000") = true /\ len (py "0670000000") = 10
  /\ phones (snd (add_phone (py "0670000000") alice))
     = phones alice ++ [Phone (py "0670000000")].
Proof.
  split; [reflexivity |]. split; [reflexivity |].
  apply (proj1 (proj2 (add_phone_then_find (py "0670000000") alice
                         eq_refl eq_refl))).
Defined.

Lemma filter_app_last_removed (p : str) (l : list Field) :
  (forall q, In q l -> value q <> VStr p) ->
  filter (fun q => negb (pyval_eqb (value q) (VStr p))) (l ++ [Phone p]) = l.
Proof.
  intros H. rewrite filter_app. cbn [filter value].
  rewrite pyval_eqb_refl. cbn [negb]. rewrite app_nil_r.
  apply filter_all_kept. intros x Hx.
  apply negb_true_iff, pyval_eqb_neq, (H x Hx).
Qed.

(** X6: adding a valid number that the record does not hold and then
    removing it gives back the record as it was. *)
Theorem add_phone_then_remove_phone (p : str) (self : Contact) :
  isdigit p = true -> len p = 10 ->
  find_phone p self = None ->
  snd (remove_phone p (snd (add_phone p self))) = self.
Proof.
  intros Hd Hl Hn. unfold add_phone. rewrite (Phone_init_ok p Hd Hl).
  unfold remove_phone. cbn [fst snd set_phones phones name birthday].
  rewrite filter_app_last_removed by (apply find_phone_none_iff, Hn).
  destruct self; reflexivity.
Qed.

Lemma add_phone_then_remove_phone_witness :
  isdigit (py "0670000000") = true /\ len (py "0670000000") = 10
  /\ find_phone (py "0670000000") alice = None
  /\ snd (remove_phone (py "0670000000")
            (snd (add_phone (py "0670000000") alice))) = alice.
Proof.
  split; [reflexivity |]. split; [reflexivity |]. split; [reflexivity |].
  apply (add_phone_then_remove_phone (py "0670000000") alice); reflexivity.
Defined.

Lemma list_index_found (l : list Field) (x : Field) (i : nat) :
  list_index l x = Ret i ->
  exists l1 p l2, l = l1 ++ p :: l2 /\ List.length l1 = i
                  /\ value p = value x
                  /\ forall q, In q l1 -> value q <> value x.
Proof.
  revert i. induction l as [| e rest IH]; simpl; intros i H; [discriminate |].
  destruct (pyval_eqb (value e) (value x)) eqn:E.
  - injection H as <-. apply pyval_eqb_eq in E.
    exists [], e, rest. repeat split; auto.
  - destruct (list_index rest x) as [j |] eqn:Ej; [| discriminate].
    cbn [bind] in H. injection H as <-.
    destruct (IH j eq_refl) as (l1 & p & l2 & -> & Hlen & Hp & Hl1).
    exists (e :: l1), p, l2. repeat split; auto.
    + simpl. f_equal. exact Hlen.
    + intros q [<- | Hq]; [apply pyval_eqb_neq, E | apply Hl1, Hq].
Qed.

Lemma find_first_match (v : pyval) (l1 l2 : list Field) (x : Field) :
  (forall q, In q l1 -> value q <> v) -> value x = v ->
  find (fun q => pyval_eqb (value q) v) (l1 ++ x :: l2) = Some x.
Proof.
  intros H Hx. induction l1 as [| e rest IH]; simpl.
  - rewrite Hx, pyval_eqb_refl. reflexivity.
  - destruct (pyval_eqb (value e) v) eqn:E.
    + apply pyval_eqb_eq in E. exfalso. apply (H e); simpl; auto.
    + apply IH. intros q Hq. apply H. simpl. auto.
Qed.

Lemma edit_phone_at_first (old new : str) (self : Contact)
  (l1 : list Field) (p : Field) (l2 : list Field) :
  isdigit old = true -> len old = 10 ->
  isdigit new = true -> len new = 10 ->
  phones self = l1 ++ p :: l2 ->
  value p = VStr old ->
  (forall q, In q l1 -> value q <> VStr old) ->
  edit_phone old new self = (Ret tt, set_phones self (l1 ++ Phone new :: l2)).
Proof.
  intros Hdo Hlo Hdn Hln Hl Hp Hl1. unfold edit_phone.
  rewrite (Phone_init_ok old Hdo Hlo), (Phone_init_ok new Hdn Hln).
  cbn [bind]. rewrite Hl, list_index_first by assumption.
  cbn [bind except_ValueError]. rewrite list_set_middle. reflexivity.
Qed.

Lemma edit_phone_success (old new : str) (self : Contact) :
  fst (edit_phone old new self) = Ret tt
  <-> (isdigit old = true /\ len old = 10)
      /\ (isdigit new = true /\ len new = 10)
      /\ find_phone old self <> None.
Proof.
  split.
  - intros H. unfold edit_phone in H.
    destruct (Phone_init old) as [po |] eqn:Eo; cbn [bind except_ValueError] in H.
    2: { destruct e; discriminate H. }
    apply Phone_init_inv in Eo. destruct Eo as (-> & Hdo & Hlo).
    destruct (list_index (phones self) (Phone old)) as [i |] eqn:Ei;
      cbn [bind except_ValueError] in H.
    2: { destruct e; discriminate H. }
    destruct (Phone_init new) as [pn |] eqn:En; cbn [bind except_ValueError] in H.
    2: { destruct e; discriminate H. }
    apply Phone_init_inv in En. destruct En as (-> & Hdn & Hln).
    repeat split; try assumption.
    destruct (list_index_found _ _ _ Ei) as (l1 & p & l2 & Hl & _ & Hp & _).
    intros Hnone. rewrite find_phone_none_iff in Hnone.
    apply (Hnone p); [rewrite Hl; apply in_elt | exact Hp].
  - intros ((Hdo & Hlo) & (Hdn & Hln) & Hf).
    assert (Hex : exists p, In p (phones self) /\ value p = VStr old).
    { unfold find_phone in Hf.
      destruct (find _ (phones self)) as [f |] eqn:E; [| contradiction].
      apply find_some in E. exists f. split; [apply E |].
      apply pyval_eqb_eq, E. }
    destruct (first_with_value _ _ Hex) as (l1 & p & l2 & Hl & Hp & Hl1).
    unfold edit_phone.
    rewrite (Phone_init_ok old Hdo Hlo), (Phone_init_ok new Hdn Hln).
    cbn [bind]. rewrite Hl, list_index_first by assumption. reflexivity.
Qed.

(** X7: [edit_phone] succeeds exactly when both numbers are valid and
    [find_phone] finds the old one. *)
Theorem edit_phone_succeeds_iff (old new : str) (self : Contact) :
  fst (edit_phone old new self) = Ret tt
  <-> (isdigit old = true /\ len old = 10)
      /\ (isdigit new = true /\ len new = 10)
      /\ find_phone old self <> None.
Proof. exact (edit_phone_success old new self). Qed.

(** X8: after a successful [edit_phone] the record has as many phones
    as before, [find_phone] finds an entry with the new number, the
    lookups of all numbers other than the two are as before, and the name
    and the birthday are untouched. *)
Theorem edit_phone_then_find (old new : str) (self : Contact) :
  fst (edit_phone old new self) = Ret tt ->
  List.length (phones (snd (edit_phone old new self)))
  = List.length (phones self)
  /\ (exists f, find_phone new (snd (edit_phone old new self)) = Some f
                /\ value f = VStr new)
  /\ (forall q, q <> old -> q <> new ->
        find_phone q (snd (edit_phone old new self)) = find_phone q self)
  /\ name (snd (edit_phone old new self)) = name self
  /\ birthday (snd (edit_phone old new self)) = birthday self.
Proof.
  intros H. apply edit_phone_success in H.
  destruct H as ((Hdo & Hlo) & (Hdn & Hln) & Hf).
  assert (Hex : exists p, In p (phones self) /\ value p = VStr old).
  { unfold find_phone in Hf.
    destruct (find _ (phones self)) as [f |] eqn:E; [| contradiction].
    apply find_some in E. exists f. split; [apply E |].
    apply pyval_eqb_eq, E. }
  destruct (first_with_value _ _ Hex) as (l1 & p & l2 & Hl & Hp & Hl1).
  pose proof (edit_phone_at_first old new self l1 p l2 Hdo Hlo Hdn Hln Hl Hp Hl1)
    as E.
  rewrite E. cbn [snd set_phones phones name birthday].
  split; [rewrite Hl, !length_app; reflexivity |].
  split; [| split; [| split; reflexivity]].
  - unfold find_phone, set_phones. cbn [phones].
    destruct (find (fun q => pyval_eqb (value q) (VStr new)) l1) as [f |] eqn:E1.
    + exists f. split.
      * clear - E1. induction l1 as [| e rest IH]; simpl in *; [discriminate |].
        destruct (pyval_eqb (value e) (VStr new)); [exact E1 | apply IH, E1].
      * apply find_some in E1. apply pyval_eqb_eq, E1.
    + exists (Phone new). split; [| reflexivity].
      apply find_first_match; [| reflexivity].
      intros q Hq Eq. apply (find_none _ _ E1) in Hq.
      rewrite Eq, pyval_eqb_refl in Hq. discriminate.
  - intros q No Nn. unfold find_phone, set_phones. cbn [phones]. rewrite Hl.
    assert (E1 : pyval_eqb (VStr new) (VStr q) = false)
      by (apply pyval_eqb_neq; congruence).
    assert (E2 : pyval_eqb (VStr old) (VStr q) = false)
      by (apply pyval_eqb_neq; congruence).
    clear - E1 E2 Hp. induction l1 as [| e rest IH]; cbn [app find].
    + rewrite Hp. cbn [value]. rewrite E1, E2. reflexivity.
    + destruct (pyval_eqb (value e) (VStr q)); [reflexivity | exact IH].
Qed.

Lemma edit_phone_succeeds_iff_witness :
  fst (edit_phone (py "0501234567") (py "0670000000") bob) = Ret tt
  /\ ~ fst (edit_phone (py "0670000000") (py "0501234567") alice) = Ret tt.
Proof.
  split.
  - apply (proj2 (edit_phone_succeeds_iff (py "0501234567")
                    (py "0670000000") bob)).
    repeat split; try reflexivity. discriminate.
  - intros H.
    apply (proj1 (edit_phone_succeeds_iff (py "0670000000")
                    (py "0501234567") alice)) in H.
    destruct H as (_ & _ & H). apply H. reflexivity.
Defined.

Lemma edit_phone_then_find_witness :
  fst (edit_phone (py "0501234567") (py "0670000000") bob) = Ret tt
  /\ List.length (phones (snd (edit_phone (py "0501234567")
                                 (py "0670000000") bob)))
     = List.length (phones bob).
Proof.
  split; [reflexivity |].
  apply (proj1 (edit_phone_then_find (py "0501234567") (py "0670000000") bob
                  eq_refl)).
Defined.

(* ================================================================== *)
(** * The birthday of a record *)
(* ================================================================== *)

Lemma int_group_raises_ValueError (s : str) (e : exn) :
  int_group s = Raise e -> exists msg, e = ValueError msg.
Proof.
  unfold int_group. destruct (py_int s); [discriminate |].
  intros H. injection H as <-. eexists. reflexivity.
Qed.

Lemma date_new_raises_ValueError (y m d : Z) (e : exn) :
  date_new y m d = Raise e -> exists msg, e = ValueError msg.
Proof.
  unfold date_new.
  destruct (negb ((MINYEAR <=? y) && (y <=? MAXYEAR)));
    [intros H; injection H as <-; eexists; reflexivity |].
  destruct (negb ((1 <=? m) && (m <=? 12)));
    [intros H; injection H as <-; eexists; reflexivity |].
  destruct (negb ((1 <=? d) && (d <=? days_in_month y m)));
    [intros H; injection H as <-; eexists; reflexivity | discriminate].
Qed.

Lemma strptime_dmY_raises_ValueError (s : str) (e : exn) :
  strptime_dmY s = Raise e -> exists msg, e = ValueError msg.
Proof.
  unfold strptime_dmY.
  destruct (match_dmY s) as [[[[gd gm] gy] rest] |].
  2: { intros H. injection H as <-. eexists. reflexivity. }
  destruct rest.
  2: { intros H. injection H as <-. eexists. reflexivity. }
  destruct (int_group gy) as [y | ey] eqn:Ey; cbn [bind].
  2: { intros H. injection H as <-. apply (int_group_raises_ValueError gy), Ey. }
  destruct (int_group gm) as [m | em] eqn:Em; cbn [bind].
  2: { intros H. injection H as <-. apply (int_group_raises_ValueError gm), Em. }
  destruct (int_group gd) as [d | ed] eqn:Ed; cbn [bind].
  2: { intros H. injection H as <-. apply (int_group_raises_ValueError gd), Ed. }
  apply date_new_raises_ValueError.
Qed.

Lemma Birthday_init_outcomes (s : str) :
  (exists d, Birthday_init s = Ret (Birthday d)
             /\ valid_dateb (year d) (month d) (day d) = true)
  \/ Birthday_init s
     = Raise (ValueError (py "Invalid date format. Use DD.MM.YYYY")).
Proof.
  destruct (Birthday_init s) as [f | e] eqn:E.
  - left. destruct (Birthday_init_inv s f E) as (d & -> & Hv). exists d. auto.
  - right. unfold Birthday_init in E.
    destruct (strptime_dmY s) as [d | e'] eqn:Es; cbn [bind except_ValueError] in E;
      [discriminate |].
    destruct (strptime_dmY_raises_ValueError s e' Es) as [msg ->].
    cbn in E. injection E as <-. reflexivity.
Qed.


Lemma re_day_one_digit (d1 : Z) (rest : str) :
  ascii_digit d1 = true -> 1 <= digit_of d1 ->
  re_day (d1 :: 46 :: rest) = [([d1], 46 :: rest)].
Proof.
  intros H Hr. unfold digit_of in Hr. digit_cases H; try lia; reflexivity.
Qed.

Lemma re_month_one_digit (m1 : Z) (rest : str) :
  ascii_digit m1 = true -> 1 <= digit_of m1 ->
  re_month (m1 :: 46 :: rest) = [([m1], 46 :: rest)].
Proof.
  intros H Hr. unfold digit_of in Hr. digit_cases H; try lia; reflexivity.
Qed.

Lemma py_int_one_digit (c1 : Z) :
  ascii_digit c1 = true -> py_int [c1] = Some (digit_of c1).
Proof. intros H. digit_cases H; reflexivity. Qed.

(** X10: [Birthday] also accepts a day and a month written with one
    digit each: a text D.M.YYYY with D and M from 1 to 9 and a year from
    1000 on is read as that date, and rendered with two digits for the
    day and the month. *)
Theorem Birthday_short_day_and_month (c : libc) (d1 m1 y1 y2 y3 y4 : Z) :
  forallb ascii_digit [d1; m1; y1; y2; y3; y4] = true ->
  1 <= digit_of d1 -> 1 <= digit_of m1 -> 1 <= digit_of y1 ->
  Birthday_init [d1; 46; m1; 46; y1; y2; y3; y4]
  = Ret (Birthday (mkdate (1000 * digit_of y1 + 100 * digit_of y2
                           + 10 * digit_of y3 + digit_of y4)
                          (digit_of m1) (digit_of d1)))
  /\ Field_str c (Birthday (mkdate (1000 * digit_of y1 + 100 * digit_of y2
                                    + 10 * digit_of y3 + digit_of y4)
                                   (digit_of m1) (digit_of d1)))
     = [48; d1; 46; 48; m1; 46; y1; y2; y3; y4].
Proof.
  intros Hall Hd Hm Hy. cbn [forallb] in Hall. rewrite !andb_true_iff in Hall.
  destruct Hall as (A1 & A2 & A3 & A4 & A5 & A6 & _).
  pose proof (digit_of_range _ A1). pose proof (digit_of_range _ A2).
  pose proof (digit_of_range _ A3). pose proof (digit_of_range _ A4).
  pose proof (digit_of_range _ A5). pose proof (digit_of_range _ A6).
  split.
  - unfold Birthday_init, strptime_dmY, match_dmY.
    rewrite re_day_one_digit by assumption.
    cbn [flat_map fst snd app]. rewrite re_dot_stop. cbn [flat_map fst snd app].
    rewrite re_month_one_digit by assumption.
    cbn [flat_map fst snd app]. rewrite re_dot_stop. cbn [flat_map fst snd app].
    rewrite (re_year_four_digits y1 y2 y3 y4 [] A3 A4 A5 A6).
    cbn [map app hd_error fst snd]. unfold int_group.
    rewrite py_int_four_digits by assumption.
    rewrite !py_int_one_digit by assumption. cbn [bind].
    rewrite date_new_valid; [reflexivity |].
    apply valid_dateb_iff. unfold days_in_month.
    assert (Cm : digit_of m1 = 1 \/ digit_of m1 = 2 \/ digit_of m1 = 3
                 \/ digit_of m1 = 4 \/ digit_of m1 = 5 \/ digit_of m1 = 6
                 \/ digit_of m1 = 7 \/ digit_of m1 = 8 \/ digit_of m1 = 9) by lia.
    repeat split; try lia.
    destruct (is_leap _);
      repeat (destruct Cm as [-> | Cm]; [cbn; lia |]); rewrite Cm; cbn; lia.
  - unfold Field_str, strftime_dmY. cbn [year month day].
    replace (digit_of d1) with (10 * 0 + digit_of d1) by ring.
    replace (digit_of m1) with (10 * 0 + digit_of m1) by ring.
    rewrite !pad2_digits by lia.
    assert (Hyear : year_str c (1000 * digit_of y1 + 100 * digit_of y2
                                + 10 * digit_of y3 + digit_of y4)
                    = [y1; y2; y3; y4]).
    { destruct c; cbn [year_str].
      - rewrite int_str_4 by lia. rewrite !digit_of_char. reflexivity.
      - rewrite pad4_digits by lia. rewrite !digit_of_char. reflexivity. }
    rewrite Hyear, !digit_of_char. reflexivity.
Qed.

Lemma Birthday_short_day_and_month_witness :
  forallb ascii_digit [49; 50; 50; 48; 48; 48] = true
  /\ 1 <= digit_of 49 /\ 1 <= digit_of 50
  /\ Birthday_init (py "1.2.2000") = Ret (Birthday (mkdate 2000 2 1))
  /\ Field_str glibc (Birthday (mkdate 2000 2 1)) = py "01.02.2000".
Proof.
  split; [reflexivity |]. split; [unfold digit_of; lia |].
  split; [unfold digit_of; lia |].
  apply (Birthday_short_day_and_month glibc 49 50 50 48 48 48);
    [reflexivity | unfold digit_of; lia ..].
Defined.

(* ================================================================== *)
(** * Deleting records, and the keys of the book *)
(* ================================================================== *)

(** X11: in every book the operations reach, the birthday of a record,
    when it has one, is a [Birthday] field that holds a valid calendar
    date. *)
Theorem reachable_birthdays_valid (book : AddressBook) :
  reachable book ->
  forall k r f, In (k, r) book -> birthday r = Some f ->
    exists d, f = Birthday d
              /\ valid_dateb (year d) (month d) (day d) = true.
Proof.
  intros Hb k r f Hin Hf.
  apply (built_birthday r (reachable_built book Hb k r Hin) f Hf).
Qed.

Lemma dict_contains_false_iff (k : pyval) (d : AddressBook) :
  dict_contains k d = false <-> dict_get k d = None.
Proof.
  pose proof (dict_contains_get k d) as H.
  destruct (dict_contains k d), (dict_get k d) as [v |]; split; intros E;
    try reflexivity; try discriminate.
  - destruct (proj1 H eq_refl). discriminate.
  - assert (true = false) by (symmetry; apply H; exists v; reflexivity; fail).
    discriminate.
Qed.

(** X12: [delete] of a name that is in the book succeeds, after which
    [find] returns [None] for that name and what it returned before for
    every other name; [delete] of a name that is not in the book raises
    the key error "Record not found." and leaves the book as it was. *)
Theorem delete_then_find (n : pyval) (book : AddressBook) :
  (dict_contains n book = true ->
     fst (delete n book) = Ret tt
     /\ find_record n (snd (delete n book)) = None
     /\ forall k, k <> n ->
          find_record k (snd (delete n book)) = find_record k book)
  /\ (dict_contains n book = false ->
      delete n book = (Raise (KeyError (py "Record not found.")), book)).
Proof.
  unfold delete, find_record. split; intros H; rewrite H; [| reflexivity].
  cbn [fst snd]. split; [reflexivity |]. split.
  - rewrite dict_get_del, pyval_eqb_refl. reflexivity.
  - intros k N. rewrite dict_get_del.
    destruct (pyval_eqb n k) eqn:E; [| reflexivity].
    apply pyval_eqb_eq in E. congruence.
Qed.

Lemma delete_then_find_witness :
  dict_contains (VStr (py "Alice")) book_of_alice = true
  /\ dict_contains (VStr (py "Bob")) book_of_alice = false
  /\ find_record (VStr (py "Alice"))
       (snd (delete (VStr (py "Alice")) book_of_alice)) = None
  /\ delete (VStr (py "Bob")) book_of_alice
     = (Raise (KeyError (py "Record not found.")), book_of_alice).
Proof.
  split; [reflexivity |]. split; [reflexivity |]. split.
  - apply (proj1 (delete_then_find (VStr (py "Alice")) book_of_alice)).
    reflexivity.
  - apply (proj2 (delete_then_find (VStr (py "Bob")) book_of_alice)).
    reflexivity.
Defined.

Lemma dict_contains_false_all (k : pyval) (d : AddressBook) :
  dict_contains k d = false ->
  forall kv, In kv d -> pyval_eqb (fst kv) k = false.
Proof.
  unfold dict_contains. intros H kv Hin.
  destruct (pyval_eqb (fst kv) k) eqn:E; [| reflexivity].
  assert (existsb (fun kv0 => pyval_eqb (fst kv0) k) d = true)
    by (apply existsb_exists; exists kv; auto).
  congruence.
Qed.

Lemma dict_set_fresh (k : pyval) (v : Contact) (d : AddressBook) :
  dict_contains k d = false -> dict_set k v d = d ++ [(k, v)].
Proof.
  induction d as [| kv rest IH]; simpl; [reflexivity |].
  intros H. apply orb_false_iff in H. destruct H as [H1 H2].
  rewrite H1, IH by exact H2. reflexivity.
Qed.

(** X13: adding a record whose name is not in the book and then deleting
    that name gives back the book as it was, order included. *)
Theorem add_record_then_delete (r : Contact) (book : AddressBook) :
  dict_contains (value (name r)) book = false ->
  fst (add_record r book) = Ret tt
  /\ delete (value (name r)) (snd (add_record r book)) = (Ret tt, book).
Proof.
  intros H. unfold add_record. rewrite H. cbn [fst snd].
  split; [reflexivity |].
  rewrite dict_set_fresh by exact H. unfold delete.
  assert (C : dict_contains (value (name r)) (book ++ [(value (name r), r)])
              = true).
  { unfold dict_contains. rewrite existsb_app. cbn [existsb fst].
    rewrite pyval_eqb_refl. apply orb_true_iff. right. reflexivity. }
  rewrite C. f_equal. unfold dict_del. rewrite filter_app. cbn [filter fst].
  rewrite pyval_eqb_refl. cbn [negb]. rewrite app_nil_r.
  clear C. induction book as [| kv rest IH]; [reflexivity |].
  simpl in H. apply orb_false_iff in H. destruct H as [H1 H2].
  cbn [filter]. rewrite H1. cbn [negb]. f_equal. apply IH, H2.
Qed.

Lemma add_record_then_delete_witness :
  dict_contains (value (name carl)) book_of_alice = false
  /\ delete (value (name carl)) (snd (add_record carl book_of_alice))
     = (Ret tt, book_of_alice).
Proof.
  split; [reflexivity |].
  apply (proj2 (add_record_then_delete carl book_of_alice eq_refl)).
Defined.

Lemma dict_set_keys (k : pyval) (v : Contact) (d : AddressBook) :
  map fst (dict_set k v d)
  = if dict_contains k d then map fst d else map fst d ++ [k].
Proof.
  induction d as [| kv rest IH]; simpl; [reflexivity |].
  destruct (pyval_eqb (fst kv) k) eqn:E; simpl; [reflexivity |].
  rewrite IH. destruct (dict_contains k rest); reflexivity.
Qed.

Lemma dict_contains_in_keys (k : pyval) (d : AddressBook) :
  dict_contains k d = true <-> In k (map fst d).
Proof.
  unfold dict_contains. rewrite existsb_exists, in_map_iff. split.
  - intros (kv & Hin & E). apply pyval_eqb_eq in E. exists kv. auto.
  - intros (kv & E & Hin). exists kv. split; [exact Hin |].
    apply pyval_eqb_eq, E.
Qed.

Lemma NoDup_keys_filter (f : pyval * Contact -> bool) (d : AddressBook) :
  NoDup (map fst d) -> NoDup (map fst (filter f d)).
Proof.
  induction d as [| kv rest IH]; simpl; intros H; [constructor |].
  inversion H as [| x l Hnot Hnd]; subst.
  destruct (f kv); simpl; [| apply IH, Hnd].
  constructor; [| apply IH, Hnd].
  intros Hin. apply Hnot. apply in_map_iff in Hin.
  destruct Hin as (kv' & E & Hin). apply filter_In in Hin.
  apply in_map_iff. exists kv'. tauto.
Qed.

Lemma NoDup_keys_set (k : pyval) (v : Contact) (d : AddressBook) :
  NoDup (map fst d) -> NoDup (map fst (dict_set k v d)).
Proof.
  intros H. rewrite dict_set_keys.
  destruct (dict_contains k d) eqn:E; [exact H |].
  apply NoDup_app; repeat split; auto.
  - constructor; [intros [] | constructor].
  - intros x Hx [<- | []]. apply dict_contains_in_keys in Hx. congruence.
Qed.

(** X14: in every book the operations reach no name occurs twice: the
    keys are pairwise different, so a name is bound to one record. *)
Theorem reachable_keys_unique (book : AddressBook) :
  reachable book ->
  NoDup (map fst book)
  /\ forall k r r', In (k, r) book -> In (k, r') book -> r = r'.
Proof.
  intros Hb.
  assert (N : NoDup (map fst book)).
  { induction Hb as [| r0 b Hb IH Hr0 | n b Hb IH | n o b Hb IH].
    - constructor.
    - unfold add_record. destruct (dict_contains (value (name r0)) b);
        cbn [snd]; [exact IH | apply NoDup_keys_set, IH].
    - unfold delete. destruct (dict_contains n b); cbn [snd];
        [apply NoDup_keys_filter, IH | exact IH].
    - unfold on_record. destruct (find_record n b); cbn [snd];
        [apply NoDup_keys_set, IH | exact IH]. }
  split; [exact N |].
  clear Hb. induction book as [| [k0 r0] rest IH]; intros k r r' H1 H2;
    [destruct H1 |].
  cbn [map fst] in N. inversion N as [| x l Hnot Hnd]; subst.
  destruct H1 as [E1 | H1], H2 as [E2 | H2].
  - congruence.
  - injection E1 as <- <-. exfalso. apply Hnot.
    apply in_map_iff. exists (k0, r'). auto.
  - injection E2 as <- <-. exfalso. apply Hnot.
    apply in_map_iff. exists (k0, r). auto.
  - apply (IH Hnd k r r' H1 H2).
Qed.

Lemma reachable_keys_unique_witness :
  reachable book_of_alice /\ NoDup (map fst book_of_alice).
Proof.
  split; [exact book_of_alice_reachable |].
  apply (proj1 (reachable_keys_unique book_of_alice book_of_alice_reachable)).
Defined.

Lemma book_of_eve_reachable : reachable book_of_eve.
Proof.
  change book_of_eve with (snd (add_record eve [])).
  apply reach_add; [apply reach_empty |].
  change eve with
    (snd (run_record_op (AddBirthday (py "29.02.2000"))
            (mkContact (Name (py "Eve")) [] None))).
  apply built_op. apply (built_init (py "Eve")). reflexivity.
Qed.

Lemma reachable_birthdays_valid_witness :
  reachable book_of_eve
  /\ In (VStr (py "Eve"), eve) book_of_eve
  /\ birthday eve = Some (Birthday (mkdate 2000 2 29))
  /\ exists d, Birthday (mkdate 2000 2 29) = Birthday d
               /\ valid_dateb (year d) (month d) (day d) = true.
Proof.
  split; [exact book_of_eve_reachable |].
  split; [left; reflexivity |]. split; [reflexivity |].
  apply (reachable_birthdays_valid book_of_eve book_of_eve_reachable
           (VStr (py "Eve")) eve (Birthday (mkdate 2000 2 29))).
  - left. reflexivity.
  - reflexivity.
Defined.

(* ================================================================== *)
(** * More on the upcoming birthdays *)
(* ================================================================== *)

Lemma expected_greetings_short (c : libc) (today : date) (days : Z)
  (r : Contact) :
  (List.length (expected_greetings c today days r) <= 1)%nat.
Proof.
  unfold expected_greetings.
  destruct (birthday r) as [[v | v | d] |]; simpl; try lia.
  destruct (in_window today days (projected today d)); simpl; lia.
Qed.

Lemma flat_map_short (c : libc) (today : date) (days : Z)
  (rs : list Contact) :
  (List.length (flat_map (expected_greetings c today days) rs)
   <= List.length rs)%nat.
Proof.
  induction rs as [| r rest IH]; simpl; [lia |].
  rewrite length_app.
  pose proof (expected_greetings_short c today days r). lia.
Qed.

(** X15: on a book the operations reach, in which nobody was born on a
    29 February, and on a day of the years 1 to 9998,
    [get_upcoming_birthdays] returns a list and raises nothing; the list
    has at most one greeting for each record of the book. *)
Theorem upcoming_birthdays_never_raises (c : libc) (today : date) (days : Z)
  (book : AddressBook) :
  reachable book ->
  1 <= year today <= 9998 ->
  (forall r d, In r (dict_values book) -> birthday r = Some (Birthday d) ->
               ~ (month d = 2 /\ day d = 29)) ->
  exists l, get_upcoming_birthdays c today days book = Ret l
            /\ (List.length l <= List.length book)%nat.
Proof.
  intros Hb Hy Hno.
  pose proof (reachable_projections_exist today book Hb Hy Hno) as P.
  exists (flat_map (expected_greetings c today days) (dict_values book)).
  split.
  - unfold get_upcoming_birthdays.
    rewrite upcoming_loop_expected by exact P. reflexivity.
  - pose proof (flat_map_short c today days (dict_values book)) as L.
    unfold dict_values in L at 2. rewrite length_map in L. exact L.
Qed.

(** X16: the day of congratulation computed for a valid date is never a
    Saturday or a Sunday; it is the date itself or one of the two days
    after it, a valid date again, and computing it raises nothing, the
    last days of the year 9999 included. *)
Theorem congratulation_never_on_weekend (c : libc) (p : date) :
  valid_dateb (year p) (month p) (day p) = true ->
  exists q,
    congratulation_date c p = Ret (strftime_dmY c q)
    /\ valid_dateb (year q) (month q) (day q) = true
    /\ 0 <= weekday q <= 4
    /\ toordinal p <= toordinal q <= toordinal p + 2.
Proof.
  intros Hv. exists (congratulation_day p).
  split; [apply congratulation_date_day, Hv |].
  destruct (congratulation_day_monday p Hv) as (A & B & C & D).
  split; [exact D |].
  pose proof (weekday_range p) as Hr.
  destruct (Z_lt_ge_dec (weekday p) 5) as [L | G].
  - rewrite (A L). lia.
  - assert (Hw : weekday p = 5 \/ weekday p = 6) by lia.
    destruct Hw as [Hw | Hw];
      [destruct (B Hw) as [E1 E2] | destruct (C Hw) as [E1 E2]];
      rewrite E1, E2; lia.
Qed.

Lemma in_window_wider (today : date) (days days' : Z) (p : date) :
  days <= days' -> in_window today days p = true ->
  in_window today days' p = true.
Proof.
  unfold in_window. rewrite !andb_true_iff, !Z.leb_le. lia.
Qed.

Lemma in_window_negative (today : date) (days : Z) (p : date) :
  days < 0 -> in_window today days p = false.
Proof.
  intros H. unfold in_window.
  destruct (Z.leb_spec (toordinal today) (toordinal p)); [| reflexivity].
  destruct (Z.leb_spec (toordinal p) (toordinal today + days));
    [lia | reflexivity].
Qed.

(** X17: where the projections exist, a negative number of days gives
    the empty list, and a wider window loses nothing: every greeting
    returned for [days] is returned for every [days'] from [days] up. *)
Theorem upcoming_birthdays_window_grows (c : libc) (today : date)
  (days days' : Z) (book : AddressBook) :
  projections_exist today book ->
  exists l l',
    get_upcoming_birthdays c today days book = Ret l
    /\ get_upcoming_birthdays c today days' book = Ret l'
    /\ (days < 0 -> l = [])
    /\ (days <= days' -> forall g, In g l -> In g l').
Proof.
  intros P.
  exists (flat_map (expected_greetings c today days) (dict_values book)),
         (flat_map (expected_greetings c today days') (dict_values book)).
  unfold get_upcoming_birthdays.
  rewrite !upcoming_loop_expected by exact P.
  split; [reflexivity |]. split; [reflexivity |]. split.
  - intros Hneg. induction (dict_values book) as [| r rest IH];
      [reflexivity |].
    cbn [flat_map]. rewrite IH. unfold expected_greetings.
    destruct (birthday r) as [[v | v | d] |]; try reflexivity.
    rewrite in_window_negative by exact Hneg. reflexivity.
  - intros Hle g Hg. rewrite in_flat_map in *.
    destruct Hg as (r & Hr & Hg). exists r. split; [exact Hr |].
    apply in_expected_greetings in Hg. apply in_expected_greetings.
    destruct Hg as (d & Hb & Hw & Hg). exists d.
    split; [exact Hb |]. split; [| exact Hg].
    apply (in_window_wider today days days'); assumption.
Qed.

Lemma days_before_month_step (y m m' : Z) :
  1 <= m -> m < m' -> m' <= 12 ->
  days_before_month y m + days_in_month y m <= days_before_month y m'.
Proof.
  intros H1 H2 H3. unfold days_before_month, days_in_month.
  assert (Cm : m = 1 \/ m = 2 \/ m = 3 \/ m = 4 \/ m = 5 \/ m = 6 \/ m = 7
               \/ m = 8 \/ m = 9 \/ m = 10 \/ m = 11) by lia.
  assert (Cm' : m' = 2 \/ m' = 3 \/ m' = 4 \/ m' = 5 \/ m' = 6 \/ m' = 7
                \/ m' = 8 \/ m' = 9 \/ m' = 10 \/ m' = 11 \/ m' = 12) by lia.
  destruct (is_leap y);
    repeat (destruct Cm as [-> | Cm]);
    try subst m;
    repeat (destruct Cm' as [-> | Cm']);
    try subst m'; cbn; lia.
Qed.

Lemma toordinal_lt (a b : date) :
  valid_dateb (year a) (month a) (day a) = true ->
  valid_dateb (year b) (month b) (day b) = true ->
  date_ltb a b = true -> toordinal a < toordinal b.
Proof.
  rewrite !valid_dateb_iff. intros (Hya & Hma & Hda) (Hyb & Hmb & Hdb).
  unfold date_ltb.
  rewrite !orb_true_iff, !andb_true_iff, !orb_true_iff, !andb_true_iff,
    !Z.ltb_lt, !Z.eqb_eq.
  pose proof (day_of_year_bounds _ _ _ Hma Hda) as Ba.
  pose proof (day_of_year_bounds _ _ _ Hmb Hdb) as Bb.
  unfold toordinal, ymd2ord.
  intros [Hy | [Hy [Hm | [Hm Hd]]]].
  - pose proof (days_before_year_succ (year a)) as Hs.
    pose proof (days_before_year_mono (year a + 1) (year b) ltac:(lia)).
    lia.
  - rewrite Hy in *.
    pose proof (days_before_month_step (year b) (month a) (month b)
                  ltac:(lia) Hm ltac:(lia)).
    lia.
  - rewrite Hy, Hm in *. lia.
Qed.

Lemma date_ltb_total (a b : date) :
  date_ltb a b = false -> a = b \/ date_ltb b a = true.
Proof.
  destruct a as [ya ma da], b as [yb mb db]. unfold date_ltb. cbn [year month day].
  intros H.
  destruct (Z.ltb_spec ya yb); [discriminate |].
  destruct (Z.ltb_spec yb ya); [right; reflexivity |].
  assert (ya = yb) by lia. subst yb. rewrite Z.eqb_refl in *. cbn [orb andb] in *.
  destruct (Z.ltb_spec ma mb); [discriminate |].
  destruct (Z.ltb_spec mb ma); [right; reflexivity |].
  assert (ma = mb) by lia. subst mb. rewrite Z.eqb_refl in *. cbn [orb andb] in *.
  destruct (Z.ltb_spec da db); [discriminate |].
  destruct (Z.ltb_spec db da); [right; reflexivity |].
  left. f_equal. lia.
Qed.

Lemma projected_days_ahead (today d : date) :
  valid_dateb (year today) (month today) (day today) = true ->
  valid_dateb (year today) (month d) (day d) = true ->
  valid_dateb (year (projected today d)) (month d) (day d) = true ->
  0 <= days_between (projected today d) today <= 365.
Proof.
  intros Ht H1 H2. unfold days_between, projected in *.
  destruct (date_ltb (mkdate (year today) (month d) (day d)) today) eqn:E;
    cbn [year] in H2.
  - pose proof (toordinal_lt (mkdate (year today) (month d) (day d)) today
                  H1 Ht E) as Hlt.
    apply valid_dateb_iff in Ht, H1, H2.
    destruct Ht as (Hy & Hm & Hd), H1 as (_ & Hm1 & Hd1), H2 as (Hy2 & _ & Hd2).
    pose proof (day_of_year_bounds _ _ _ Hm Hd) as Bt.
    pose proof (day_of_year_bounds _ _ _ Hm1 Hd2) as Bp.
    pose proof (days_before_year_succ (year today)) as Hs.
    unfold toordinal, ymd2ord in *. cbn [year month day] in *.
    assert (Hdiff : days_before_month (year today + 1) (month d)
                    <= days_before_month (year today) (month d)
                       + (if is_leap (year today) then 0 else 1)).
    { unfold days_before_month.
      destruct (is_leap (year today)) eqn:L.
      - rewrite (is_leap_next _ L). rewrite andb_false_r.
        destruct ((2 <? month d) && true); lia.
      - rewrite andb_false_r.
        destruct ((2 <? month d) && is_leap (year today + 1)); lia. }
    destruct (is_leap (year today)); lia.
  - destruct (date_ltb_total _ _ E) as [Eq | Hlt].
    + rewrite Eq. lia.
    + pose proof (toordinal_lt today (mkdate (year today) (month d) (day d))
                    Ht H1 Hlt) as Hlt'.
      apply valid_dateb_iff in Ht, H1.
      destruct Ht as (Hy & Hm & Hd), H1 as (_ & Hm1 & Hd1).
      pose proof (day_of_year_bounds _ _ _ Hm Hd) as Bt.
      pose proof (day_of_year_bounds _ _ _ Hm1 Hd1) as Bp.
      unfold toordinal, ymd2ord in *. cbn [year month day] in *.
      destruct (is_leap (year today)); lia.
Qed.

(** X18: where the projections exist, the projected birthday is never
    before [today] and never more than 365 days after it; so with 365
    days or more every record that has a birthday gets its greeting. *)
Theorem upcoming_birthdays_within_a_year (c : libc) (today : date)
  (days : Z) (book : AddressBook) :
  valid_dateb (year today) (month today) (day today) = true ->
  projections_exist today book ->
  (forall r d, In r (dict_values book) -> birthday r = Some (Birthday d) ->
     0 <= days_between (projected today d) today <= 365)
  /\ (365 <= days ->
      forall r d, In r (dict_values book) -> birthday r = Some (Birthday d) ->
      exists l, get_upcoming_birthdays c today days book = Ret l
        /\ In (mkgreeting (value (name r))
                 (strftime_dmY c (congratulation_day (projected today d)))) l).
Proof.
  intros Ht P.
  assert (A : forall r d, In r (dict_values book) ->
                birthday r = Some (Birthday d) ->
                0 <= days_between (projected today d) today <= 365).
  { intros r d Hr Hb. destruct (P r (Birthday d) Hr Hb) as (d' & E & H1 & H2).
    injection E as <-. apply projected_days_ahead; assumption. }
  split; [exact A |].
  intros Hdays r d Hr Hb.
  exists (flat_map (expected_greetings c today days) (dict_values book)).
  split.
  - unfold get_upcoming_birthdays.
    rewrite upcoming_loop_expected by exact P. reflexivity.
  - apply in_flat_map. exists r. split; [exact Hr |].
    apply in_expected_greetings. exists d. split; [exact Hb |].
    split; [| reflexivity].
    pose proof (A r d Hr Hb) as B. unfold days_between in B.
    unfold in_window. apply andb_true_iff. rewrite !Z.leb_le. lia.
Qed.

Lemma book_of_bob_and_carl_reachable : reachable book_of_bob_and_carl.
Proof.
  change book_of_bob_and_carl with
    (snd (add_record carl (snd (add_record bob_with_birthday [])))).
  apply reach_add; [apply reach_add; [apply reach_empty |] |].
  - change bob_with_birthday with
      (snd (run_record_op (AddBirthday (py "12.03.1990"))
              (mkContact (Name (py "Bob")) [] None))).
    apply built_op. apply (built_init (py "Bob")). reflexivity.
  - change carl with
      (snd (run_record_op (AddBirthday (py "16.03.1985"))
              (mkContact (Name (py "Carl")) [] None))).
    apply built_op. apply (built_init (py "Carl")). reflexivity.
Qed.

Lemma book_of_bob_and_carl_no_feb29 :
  forall r d, In r (dict_values book_of_bob_and_carl) ->
    birthday r = Some (Birthday d) -> ~ (month d = 2 /\ day d = 29).
Proof.
  intros r d [<- | [<- | []]] Hb; injection Hb as <-; cbn; lia.
Qed.

Lemma upcoming_birthdays_never_raises_witness :
  reachable book_of_bob_and_carl
  /\ 1 <= year (mkdate 2024 3 10) <= 9998
  /\ exists l,
       get_upcoming_birthdays glibc (mkdate 2024 3 10) 7 book_of_bob_and_carl
       = Ret l
       /\ (List.length l <= List.length book_of_bob_and_carl)%nat.
Proof.
  split; [exact book_of_bob_and_carl_reachable |].
  split; [cbn; lia |].
  apply (upcoming_birthdays_never_raises glibc (mkdate 2024 3 10) 7
           book_of_bob_and_carl book_of_bob_and_carl_reachable).
  - cbn. lia.
  - exact book_of_bob_and_carl_no_feb29.
Defined.

Lemma congratulation_never_on_weekend_witness :
  valid_dateb 2024 3 16 = true
  /\ weekday (mkdate 2024 3 16) = 5
  /\ exists q,
       congratulation_date glibc (mkdate 2024 3 16)
       = Ret (strftime_dmY glibc q)
       /\ valid_dateb (year q) (month q) (day q) = true
       /\ 0 <= weekday q <= 4
       /\ toordinal (mkdate 2024 3 16) <= toordinal q
          <= toordinal (mkdate 2024 3 16) + 2.
Proof.
  split; [reflexivity |]. split; [reflexivity |].
  apply (congratulation_never_on_weekend glibc (mkdate 2024 3 16)).
  reflexivity.
Defined.

Lemma upcoming_birthdays_window_grows_witness :
  projections_exist (mkdate 2024 3 10) book_of_bob_and_carl
  /\ exists l l',
       get_upcoming_birthdays glibc (mkdate 2024 3 10) 2 book_of_bob_and_carl
       = Ret l
       /\ get_upcoming_birthdays glibc (mkdate 2024 3 10) 7
            book_of_bob_and_carl = Ret l'
       /\ (2 < 0 -> l = [])
       /\ (2 <= 7 -> forall g, In g l -> In g l').
Proof.
  split; [exact book_of_bob_and_carl_projections |].
  apply (upcoming_birthdays_window_grows glibc (mkdate 2024 3 10) 2 7
           book_of_bob_and_carl book_of_bob_and_carl_projections).
Defined.

Lemma upcoming_birthdays_within_a_year_witness :
  valid_dateb 2024 3 10 = true
  /\ projections_exist (mkdate 2024 3 10) book_of_bob_and_carl
  /\ 0 <= days_between (projected (mkdate 2024 3 10) (mkdate 1985 3 16))
                       (mkdate 2024 3 10) <= 365.
Proof.
  split; [reflexivity |].
  split; [exact book_of_bob_and_carl_projections |].
  apply (proj1 (upcoming_birthdays_within_a_year glibc (mkdate 2024 3 10) 7
                  book_of_bob_and_carl eq_refl
                  book_of_bob_and_carl_projections) carl (mkdate 1985 3 16)).
  - right. left. reflexivity.
  - reflexivity.
Defined.

(* ================================================================== *)
(** * Rendering *)
(* ================================================================== *)

Lemma built_name (r : Contact) : built r -> exists n, name r = Name n.
Proof.
  induction 1 as [n r H | o r Hb IH].
  - apply Record_init_inv in H. subst r. exists n. reflexivity.
  - rewrite record_op_keeps_name. exact IH.
Qed.

Lemma validated_phones_numbers (l : list Field) :
  Forall validated_phone l ->
  exists numbers, l = map Phone numbers
                  /\ all_str (map value l) = Ret numbers.
Proof.
  induction 1 as [| f rest Hf Hrest IH].
  - exists []. auto.
  - destruct Hf as (v & -> & _). destruct IH as (numbers & -> & E).
    exists (v :: numbers). split; [reflexivity |].
    cbn [map value all_str]. rewrite E. reflexivity.
Qed.

Lemma Record_str_of_built_aux (c : libc) (r : Contact) :
  built r -> exists line, Record_str c r = Ret line.
Proof.
  intros Hb. destruct (built_name r Hb) as [n Hn].
  destruct (validated_phones_numbers _ (built_phones_validated r Hb))
    as (numbers & Hp & E).
  unfold Record_str. rewrite E. eexists. reflexivity.
Qed.

(** X19: [str(record)] raises nothing on a record the program builds;
    it is "Contact name: ", the name, ", Phones: ", the numbers in their
    order with "; " between them, and then ", Birthday: " with the
    rendered birthday when the record has one, nothing otherwise. *)
Theorem Record_str_of_built (c : libc) (r : Contact) :
  built r ->
  exists n numbers,
    name r = Name n
    /\ phones r = map Phone numbers
    /\ Record_str c r
       = Ret (py "Contact name: " ++ n ++ py ", Phones: "
              ++ join (py "; ") numbers
              ++ match birthday r with
                 | Some b => py ", Birthday: " ++ Field_str c b
                 | None => []
                 end).
Proof.
  intros Hb. destruct (built_name r Hb) as [n Hn].
  destruct (validated_phones_numbers _ (built_phones_validated r Hb))
    as (numbers & Hp & E).
  exists n, numbers. split; [exact Hn |]. split; [exact Hp |].
  unfold Record_str. rewrite E, Hn. reflexivity.
Qed.

Lemma alice_built : built alice.
Proof.
  exact (reachable_built _ book_of_alice_reachable (VStr (py "Alice")) alice
           (or_introl eq_refl)).
Qed.

Lemma Record_str_of_built_witness :
  built alice
  /\ Record_str glibc alice
     = Ret (py "Contact name: Alice, Phones: 0501234567").
Proof.
  split; [exact alice_built |].
  destruct (Record_str_of_built glibc alice alice_built)
    as (n & numbers & Hn & Hp & E).
  injection Hn as <-.
  assert (numbers = [py "0501234567"]).
  { destruct numbers as [| x [| y l]]; try discriminate Hp.
    injection Hp as <-. reflexivity. }
  subst numbers. exact E.
Defined.

(** X20: [str(book)] raises nothing on a book the operations reach; it
    is the renderings of the records, in the order of the book, with a
    line feed between them. *)
Theorem AddressBook_str_of_reachable (c : libc) (book : AddressBook) :
  reachable book ->
  exists lines,
    Forall2 (fun r line => Record_str c r = Ret line) (dict_values book) lines
    /\ AddressBook_str c book
       = Ret (join (py (String (ascii_of_nat 10) EmptyString)) lines).
Proof.
  intros Hb.
  assert (A : forall rs, (forall r, In r rs -> built r) ->
              exists lines,
                Forall2 (fun r line => Record_str c r = Ret line) rs lines
                /\ records_str c rs = Ret lines).
  { induction rs as [| r rest IH]; intros H.
    - exists []. split; [constructor | reflexivity].
    - destruct (Record_str_of_built_aux c r (H r (or_introl eq_refl)))
        as [line E].
      destruct IH as (lines & F & E'); [intros x Hx; apply H; right; exact Hx |].
      exists (line :: lines). split; [constructor; assumption |].
      cbn [records_str]. rewrite E, E'. reflexivity. }
  destruct (A (dict_values book)) as (lines & F & E).
  { intros r Hr. unfold dict_values in Hr. apply in_map_iff in Hr.
    destruct Hr as ([k r'] & <- & Hin). apply (reachable_built book Hb k r' Hin). }
  exists lines. split; [exact F |].
  unfold AddressBook_str. rewrite E. reflexivity.
Qed.

Lemma AddressBook_str_of_reachable_witness :
  reachable book_of_alice
  /\ exists lines,
       Forall2 (fun r line => Record_str glibc r = Ret line)
         (dict_values book_of_alice) lines
       /\ AddressBook_str glibc book_of_alice
          = Ret (join (py (String (ascii_of_nat 10) EmptyString)) lines).
Proof.
  split; [exact book_of_alice_reachable |].
  apply (AddressBook_str_of_reachable glibc book_of_alice
           book_of_alice_reachable).
Defined.

(* ================================================================== *)
(** * The commands *)
(* ================================================================== *)

Lemma dict_set_same (n : pyval) (r : Contact) (b : AddressBook) :
  dict_get n b = Some r -> dict_set n r b = b.
Proof.
  unfold dict_get. induction b as [| [k v] rest IH]; simpl; [discriminate |].
  destruct (pyval_eqb k n) eqn:E; simpl.
  - intros H. injection H as <-. reflexivity.
  - intros H. rewrite IH by exact H. reflexivity.
Qed.

Lemma item_short (args : list str) (i : nat) :
  (List.length args <= i)%nat ->
  item args i = Failed (IndexError (py "list index out of range")).
Proof.
  intros H. unfold item. rewrite (proj2 (nth_error_None args i) H).
  reflexivity.
Qed.

Lemma add_contact_cases (args : list str) (book : AddressBook) :
  ((List.length args < 2)%nat ->
     add_contact args book
     = (Done (Text (py "Give me name and phone please.")), book))
  /\ (forall who raw rest, args = who :: raw :: rest ->
      (is_raise (Phone_init raw) = true ->
         add_contact args book
         = (Done (Text (py "Phone number must consist of 10 digits.")), book))
      /\ (isdigit raw = true -> len raw = 10 ->
          (forall record, find_record (VStr who) book = Some record ->
             add_contact args book
             = (Done (Text (py "New phone added to contact")),
                dict_set (VStr who)
                  (set_phones record (phones record ++ [Phone raw])) book))
          /\ (find_record (VStr who) book = None ->
              (forallb char_isspace who = false ->
                 add_contact args book
                 = (Done (Text (py "Contact added")),
                    book ++ [(VStr who,
                              mkContact (Name who) [Phone raw] None)]))
              /\ (forallb char_isspace who = true ->
                 add_contact args book
                 = (Done (Text (py "Name field cannot be empty.")), book))))).
Proof.
  unfold add_contact, input_error_add, catch_value_and_index, add_contact_body.
  split.
  { intros H. rewrite item_short by lia. reflexivity. }
  intros who raw rest ->. cbn [item nth_error]. split.
  - intros H. destruct (Phone_init_cases raw) as [E | E]; rewrite E in *;
      [discriminate | reflexivity].
  - intros Hd Hl. rewrite (Phone_init_ok raw Hd Hl). cbn [value].
    unfold add_phone_value, add_phone. rewrite (Phone_init_ok raw Hd Hl).
    cbn [fst snd lift]. split.
    + intros record Hf.
      assert (C : dict_contains (VStr who) book = true)
        by (apply dict_contains_get; exists record; exact Hf).
      rewrite C, Hf. reflexivity.
    + intros Hf.
      assert (C : dict_contains (VStr who) book = false)
        by (apply dict_contains_false_iff; exact Hf).
      rewrite C. split; intros Hn.
      * rewrite (proj2 (Record_init_cases who) Hn).
        unfold set_phones, add_record. cbn [phones app name birthday value].
        rewrite C.
        rewrite dict_set_fresh by exact C. reflexivity.
      * rewrite (proj1 (Record_init_cases who) Hn). reflexivity.
Qed.

(** X21: what [add_contact] answers and does. With fewer than two
    arguments it answers "Give me name and phone please."; with a number
    that is not valid, "Phone number must consist of 10 digits."; in both
    cases the book is unchanged. With a valid number and a name that is
    in the book it puts the number after the phones of that record and
    answers "New phone added to contact"; with a name that is not in the
    book it puts a new record with that one phone at the end of the book
    and answers "Contact added", unless the name is blank, which is
    answered by "Name field cannot be empty." with the book unchanged. *)
Theorem add_contact_outcomes (args : list str) (book : AddressBook) :
  ((List.length args < 2)%nat ->
     add_contact args book
     = (Done (Text (py "Give me name and phone please.")), book))
  /\ (forall who raw rest, args = who :: raw :: rest ->
      (is_raise (Phone_init raw) = true ->
         add_contact args book
         = (Done (Text (py "Phone number must consist of 10 digits.")), book))
      /\ (isdigit raw = true -> len raw = 10 ->
          (forall record, find_record (VStr who) book = Some record ->
             add_contact args book
             = (Done (Text (py "New phone added to contact")),
                dict_set (VStr who)
                  (set_phones record (phones record ++ [Phone raw])) book))
          /\ (find_record (VStr who) book = None ->
              (forallb char_isspace who = false ->
                 add_contact args book
                 = (Done (Text (py "Contact added")),
                    book ++ [(VStr who,
                              mkContact (Name who) [Phone raw] None)]))
              /\ (forallb char_isspace who = true ->
                 add_contact args book
                 = (Done (Text (py "Name field cannot be empty.")), book))))).
Proof. exact (add_contact_cases args book). Qed.

Lemma change_contact_cases (args : list str) (book : AddressBook) :
  ((List.length args < 2)%nat ->
     change_contact args book
     = (Done (Text (py "Give me name, old phone and new phone please.")),
        book))
  /\ (forall who raw_old rest, args = who :: raw_old :: rest ->
      (is_raise (Phone_init raw_old) = true ->
         change_contact args book
         = (Done (Text (py "Phone number must consist of 10 digits.")), book))
      /\ (isdigit raw_old = true -> len raw_old = 10 ->
          (rest = [] ->
             change_contact args book
             = (Done (Text (py "Give me name, old phone and new phone please.")),
                book))
          /\ (forall raw_new more, rest = raw_new :: more ->
              (is_raise (Phone_init raw_new) = true ->
                 change_contact args book
                 = (Done (Text (py "Phone number must consist of 10 digits.")),
                    book))
              /\ (isdigit raw_new = true -> len raw_new = 10 ->
                  (find_record (VStr who) book = None ->
                     change_contact args book
                     = (Done (Text (py "There is no " ++ who
                                    ++ py " in contact book.")), book))
                  /\ (forall record,
                        find_record (VStr who) book = Some record ->
                        (find_phone raw_old record = None ->
                           change_contact args book
                           = (Done (Text (py "Old phone number not found.")),
                              book))
                        /\ (find_phone raw_old record <> None ->
                            change_contact args book
                            = (Done (Text (py "Number was edited")),
                               dict_set (VStr who)
                                 (snd (edit_phone raw_old raw_new record))
                                 book)
                            /\ fst (edit_phone raw_old raw_new record)
                               = Ret tt)))))).
Proof.
  unfold change_contact, input_error_change, catch_value_and_index,
    change_contact_body.
  split.
  { intros H. destruct args as [| a [| a' l]]; simpl in H; try lia;
      reflexivity. }
  intros who raw_old rest ->. cbn [item nth_error]. split.
  { intros H. destruct (Phone_init_cases raw_old) as [E | E]; rewrite E in *;
      [discriminate | reflexivity]. }
  intros Hdo Hlo. rewrite (Phone_init_ok raw_old Hdo Hlo). split.
  { intros ->. reflexivity. }
  intros raw_new more ->. cbn [item nth_error]. split.
  { intros H. destruct (Phone_init_cases raw_new) as [E | E]; rewrite E in *;
      [discriminate | reflexivity]. }
  intros Hdn Hln. rewrite (Phone_init_ok raw_new Hdn Hln). cbn [value].
  split.
  { intros Hf. rewrite (proj2 (dict_contains_false_iff _ _) Hf). reflexivity. }
  intros record Hf.
  assert (C : dict_contains (VStr who) book = true)
    by (apply dict_contains_get; exists record; exact Hf).
  rewrite C, Hf. unfold edit_phone_values. split.
  - intros Hn.
    rewrite (edit_phone_absent raw_old raw_new record)
      by (apply find_phone_none_iff, Hn).
    cbn [fst snd lift]. rewrite dict_set_same by exact Hf. reflexivity.
  - intros Hn.
    assert (Hs : fst (edit_phone raw_old raw_new record) = Ret tt).
    { apply edit_phone_success. auto. }
    split; [| exact Hs].
    destruct (edit_phone raw_old raw_new record) as [o r'].
    cbn [fst snd] in *. subst o. reflexivity.
Qed.

(** X22: what [change_contact] answers and does. The arguments are
    looked at from the left: fewer than two arguments, or a valid old
    number and no new one, give the message about the missing
    arguments; the first number that is not valid gives "Phone number
    must consist of 10 digits."; then a name that is not in the book
    gives "There is no ... in contact book."; then an old number that the
    record does not hold gives "Old phone number not found."; in all
    these cases the book is unchanged. Otherwise [edit_phone] succeeds,
    the record is replaced by the edited one and the answer is "Number
    was edited". *)
Theorem change_contact_outcomes (args : list str) (book : AddressBook) :
  ((List.length args < 2)%nat ->
     change_contact args book
     = (Done (Text (py "Give me name, old phone and new phone please.")),
        book))
  /\ (forall who raw_old rest, args = who :: raw_old :: rest ->
      (is_raise (Phone_init raw_old) = true ->
         change_contact args book
         = (Done (Text (py "Phone number must consist of 10 digits.")), book))
      /\ (isdigit raw_old = true -> len raw_old = 10 ->
          (rest = [] ->
             change_contact args book
             = (Done (Text (py "Give me name, old phone and new phone please.")),
                book))
          /\ (forall raw_new more, rest = raw_new :: more ->
              (is_raise (Phone_init raw_new) = true ->
                 change_contact args book
                 = (Done (Text (py "Phone number must consist of 10 digits.")),
                    book))
              /\ (isdigit raw_new = true -> len raw_new = 10 ->
                  (find_record (VStr who) book = None ->
                     change_contact args book
                     = (Done (Text (py "There is no " ++ who
                                    ++ py " in contact book.")), book))
                  /\ (forall record,
                        find_record (VStr who) book = Some record ->
                        (find_phone raw_old record = None ->
                           change_contact args book
                           = (Done (Text (py "Old phone number not found.")),
                              book))
                        /\ (find_phone raw_old record <> None ->
                            change_contact args book
                            = (Done (Text (py "Number was edited")),
                               dict_set (VStr who)
                                 (snd (edit_phone raw_old raw_new record))
                                 book)
                            /\ fst (edit_phone raw_old raw_new record)
                               = Ret tt)))))).
Proof. exact (change_contact_cases args book). Qed.

Lemma add_birthday_command_cases (args : list str) (book : AddressBook) :
  snd (add_birthday_command args book) = book
  /\ ((exists s, fst (add_birthday_command args book) = Done (Text s)
                 /\ (s = py "Give me name and birthday please."
                     \/ s = py "Invalid date format. Use DD.MM.YYYY"
                     \/ exists who, s = py "There is no " ++ who
                                        ++ py " in contact book."))
      \/ (fst (add_birthday_command args book)
          = Failed (Of (TypeError
              (py "strptime() argument 1 must be str, not datetime.date")))
          /\ exists who raw rest record,
               args = who :: raw :: rest
               /\ is_raise (Birthday_init raw) = false
               /\ find_record (VStr who) book = Some record)).
Proof.
  unfold add_birthday_command, input_error_add_birthday,
    catch_value_and_index, add_birthday_body.
  destruct args as [| who [| raw rest]]; cbn [item nth_error].
  - split; [reflexivity |]. left. eexists. split; [reflexivity |]. auto.
  - split; [reflexivity |]. left. eexists. split; [reflexivity |]. auto.
  - destruct (Birthday_init_outcomes raw) as [(d & E & Hv) | E]; rewrite E.
    + cbn [value].
      destruct (dict_contains (VStr who) book) eqn:C.
      * destruct (proj1 (dict_contains_get _ _) C) as [record Hf].
        unfold find_record. rewrite Hf. cbn [add_birthday_value fst snd].
        rewrite dict_set_same by exact Hf.
        split; [reflexivity |]. right. split; [reflexivity |].
        exists who, raw, rest, record. rewrite E. auto.
      * split; [reflexivity |]. left. eexists. split; [reflexivity |].
        right. right. exists who. reflexivity.
    + split; [reflexivity |]. left. eexists. split; [reflexivity |]. auto.
Qed.

(** X23: the command [add_birthday] never changes the book and never
    answers "Birthday added". It hands the date that [Birthday] has
    parsed, not the text, to [record.add_birthday], whose [strptime]
    raises a [TypeError] that no handler catches: with a valid date and a
    name that is in the book the command ends in that [TypeError]. *)
Theorem add_birthday_command_never_stores (args : list str)
  (book : AddressBook) :
  snd (add_birthday_command args book) = book
  /\ fst (add_birthday_command args book) <> Done (Text (py "Birthday added"))
  /\ (forall who raw rest record,
        args = who :: raw :: rest ->
        is_raise (Birthday_init raw) = false ->
        find_record (VStr who) book = Some record ->
        fst (add_birthday_command args book)
        = Failed (Of (TypeError
            (py "strptime() argument 1 must be str, not datetime.date")))).
Proof.
  destruct (add_birthday_command_cases args book) as [Hs Hc].
  split; [exact Hs |]. split.
  - destruct Hc as [(s & E & Hmsg) | (E & _)]; rewrite E; [| discriminate].
    intros H. injection H as ->.
    destruct Hmsg as [H | [H | [who H]]]; discriminate H.
  - intros who raw rest record -> Hr Hf.
    unfold add_birthday_command, input_error_add_birthday,
      catch_value_and_index, add_birthday_body.
    cbn [item nth_error].
    destruct (Birthday_init_outcomes raw) as [(d & E & Hv) | E]; rewrite E in *;
      [| discriminate Hr].
    assert (C : dict_contains (VStr who) book = true)
      by (apply dict_contains_get; exists record; exact Hf).
    rewrite C. unfold find_record in *. rewrite Hf. reflexivity.
Qed.

Lemma add_birthday_command_never_stores_witness :
  is_raise (Birthday_init (py "01.01.2000")) = false
  /\ find_record (VStr (py "Alice")) book_of_alice = Some alice
  /\ fst (add_birthday_command [py "Alice"; py "01.01.2000"] book_of_alice)
     = Failed (Of (TypeError
         (py "strptime() argument 1 must be str, not datetime.date"))).
Proof.
  split; [reflexivity |]. split; [reflexivity |].
  apply (proj2 (proj2 (add_birthday_command_never_stores
                         [py "Alice"; py "01.01.2000"] book_of_alice))
           (py "Alice") (py "01.01.2000") [] alice); reflexivity.
Defined.

(* ================================================================== *)
(** * What a session reaches *)
(* ================================================================== *)

Lemma add_contact_step (args : list str) (b : AddressBook) :
  snd (add_contact args b) = b
  \/ (exists who raw record,
        find_record (VStr who) b = Some record
        /\ isdigit raw = true /\ len raw = 10
        /\ snd (add_contact args b)
           = snd (on_record (VStr who) (run_record_op (AddPhone raw)) b))
  \/ (exists who raw,
        isdigit raw = true /\ len raw = 10
        /\ Record_init who = Ret (mkContact (Name who) [] None)
        /\ snd (add_contact args b)
           = snd (add_record
                    (snd (run_record_op (AddPhone raw)
                            (mkContact (Name who) [] None))) b)).
Proof.
  destruct (add_contact_cases args b) as [Hshort Hlong].
  destruct args as [| who [| raw rest]];
    try (left; rewrite Hshort by (simpl; lia); reflexivity).
  destruct (Hlong who raw rest eq_refl) as [Hbad Hgood].
  destruct (Phone_init raw) as [f |] eqn:E.
  2: { left. rewrite Hbad by reflexivity. reflexivity. }
  apply Phone_init_inv in E. destruct E as (_ & Hd & Hl).
  destruct (Hgood Hd Hl) as [Hin Hout].
  destruct (find_record (VStr who) b) as [record |] eqn:Hf.
  - right. left. exists who, raw, record. repeat split; try assumption.
    rewrite (Hin record eq_refl). unfold on_record. rewrite Hf.
    cbn [snd run_record_op]. unfold add_phone.
    rewrite (Phone_init_ok raw Hd Hl). reflexivity.
  - destruct (Hout eq_refl) as [Hname Hblank].
    destruct (forallb char_isspace who) eqn:Hw.
    + left. rewrite (Hblank eq_refl). reflexivity.
    + right. right. exists who, raw. repeat split; try assumption.
      * apply (proj2 (Record_init_cases who) Hw).
      * rewrite (Hname eq_refl). cbn [run_record_op]. unfold add_phone.
        rewrite (Phone_init_ok raw Hd Hl). cbn [snd].
        unfold add_record, set_phones. cbn [name phones birthday value app].
        rewrite (proj2 (dict_contains_false_iff _ _) Hf). cbn [snd].
        rewrite dict_set_fresh
          by (apply dict_contains_false_iff; exact Hf).
        reflexivity.
Qed.

Lemma change_contact_step (args : list str) (b : AddressBook) :
  snd (change_contact args b) = b
  \/ (exists who raw_old raw_new record,
        find_record (VStr who) b = Some record
        /\ snd (change_contact args b)
           = snd (on_record (VStr who)
                    (run_record_op (EditPhone raw_old raw_new)) b)).
Proof.
  destruct (change_contact_cases args b) as [Hshort Hlong].
  destruct args as [| who [| raw_old rest]];
    try (left; rewrite Hshort by (simpl; lia); reflexivity).
  destruct (Hlong who raw_old rest eq_refl) as [Hbad Hgood].
  destruct (Phone_init raw_old) as [f |] eqn:E.
  2: { left. rewrite Hbad by reflexivity. reflexivity. }
  apply Phone_init_inv in E. destruct E as (_ & Hd & Hl).
  destruct (Hgood Hd Hl) as [Hnil Hcons].
  destruct rest as [| raw_new more].
  { left. rewrite (Hnil eq_refl). reflexivity. }
  destruct (Hcons raw_new more eq_refl) as [Hbad' Hgood'].
  destruct (Phone_init raw_new) as [f' |] eqn:E'.
  2: { left. rewrite Hbad' by reflexivity. reflexivity. }
  apply Phone_init_inv in E'. destruct E' as (_ & Hd' & Hl').
  destruct (Hgood' Hd' Hl') as [Hnone Hsome].
  destruct (find_record (VStr who) b) as [record |] eqn:Hf.
  2: { left. rewrite (Hnone eq_refl). reflexivity. }
  destruct (Hsome record eq_refl) as [Habsent Hpresent].
  destruct (find_phone raw_old record) as [p |] eqn:Hp.
  - right. exists who, raw_old, raw_new, record. split; [exact Hf |].
    destruct Hpresent as [-> _]; [discriminate |].
    unfold on_record. rewrite Hf. reflexivity.
  - left. rewrite (Habsent eq_refl). reflexivity.
Qed.

Lemma session_book_reachable (b : AddressBook) :
  session_book b -> reachable b.
Proof.
  induction 1 as [| args b Hs IH | args b Hs IH | args b Hs IH].
  - apply reach_empty.
  - destruct (add_contact_step args b)
      as [-> | [(who & raw & record & _ & _ & _ & ->)
               | (who & raw & _ & _ & Hr & ->)]].
    + exact IH.
    + apply reach_record, IH.
    + apply reach_add; [exact IH |]. apply built_op.
      apply (built_init who). exact Hr.
  - destruct (change_contact_step args b)
      as [-> | (who & raw_old & raw_new & record & _ & ->)].
    + exact IH.
    + apply reach_record, IH.
  - rewrite (proj1 (add_birthday_command_cases args b)). exact IH.
Qed.

Lemma session_book_no_birthday (b : AddressBook) :
  session_book b -> forall k r, In (k, r) b -> birthday r = None.
Proof.
  induction 1 as [| args b Hs IH | args b Hs IH | args b Hs IH];
    intros k r Hin.
  - destruct Hin.
  - destruct (add_contact_step args b)
      as [E | [(who & raw & record & Hf & _ & _ & E)
              | (who & raw & _ & _ & Hr & E)]]; rewrite E in Hin.
    + apply (IH k r Hin).
    + unfold on_record in Hin. rewrite Hf in Hin. cbn [snd] in Hin.
      apply in_dict_set in Hin. destruct Hin as [Hin | [_ ->]];
        [apply (IH k r Hin) |].
      cbn [run_record_op]. unfold add_phone.
      destruct (Phone_init raw); cbn [snd set_phones birthday];
        apply (IH (VStr who) record), dict_get_in, Hf.
    + apply add_record_entries in Hin. destruct Hin as [Hin | [_ ->]];
        [apply (IH k r Hin) |].
      cbn [run_record_op]. unfold add_phone.
      destruct (Phone_init raw); reflexivity.
  - destruct (change_contact_step args b)
      as [E | (who & raw_old & raw_new & record & Hf & E)]; rewrite E in Hin.
    + apply (IH k r Hin).
    + unfold on_record in Hin. rewrite Hf in Hin. cbn [snd] in Hin.
      apply in_dict_set in Hin. destruct Hin as [Hin | [_ ->]];
        [apply (IH k r Hin) |].
      cbn [run_record_op].
      destruct (edit_phone_outcomes raw_old raw_new record)
        as [[i [E' _]] | E']; rewrite E'; cbn [snd set_phones birthday];
        apply (IH (VStr who) record), dict_get_in, Hf.
  - rewrite (proj1 (add_birthday_command_cases args b)) in Hin.
    apply (IH k r Hin).
Qed.

(** X24: every book that a session reaches from the empty book through
    the commands is a book the operations reach; each key is the name of
    its record, every phone entry is validated, and no record has a
    birthday. *)
Theorem session_books_keep_invariants (b : AddressBook) :
  session_book b ->
  reachable b
  /\ forall k r, In (k, r) b ->
       k = value (name r)
       /\ Forall validated_phone (phones r)
       /\ birthday r = None.
Proof.
  intros Hs. pose proof (session_book_reachable b Hs) as Hr.
  split; [exact Hr |]. intros k r Hin. split; [| split].
  - apply (reachable_keys b Hr k r Hin).
  - apply built_phones_validated, (reachable_built b Hr k r Hin).
  - apply (session_book_no_birthday b Hs k r Hin).
Qed.

Lemma session_of_bob : session_book (snd (add_contact [py "Bob"; py "0501234567"] [])).
Proof. apply session_add, session_empty. Qed.

Lemma session_books_keep_invariants_witness :
  session_book [(VStr (py "Bob"),
                 mkContact (Name (py "Bob")) [Phone (py "0501234567")] None)]
  /\ reachable [(VStr (py "Bob"),
                 mkContact (Name (py "Bob")) [Phone (py "0501234567")] None)].
Proof.
  split; [exact session_of_bob |].
  apply (proj1 (session_books_keep_invariants _ session_of_bob)).
Defined.

Lemma upcoming_loop_no_birthdays (c : libc) (today : date) (days : Z)
  (records : list Contact) (acc : list greeting) :
  (forall r, In r records -> birthday r = None) ->
  upcoming_loop c today days records acc = Ret acc.
Proof.
  revert acc. induction records as [| r rest IH]; intros acc H;
    [reflexivity |].
  cbn [upcoming_loop]. unfold upcoming_of_record.
  rewrite (H r (or_introl eq_refl)). cbn [bind]. rewrite app_nil_r.
  apply IH. intros x Hx. apply H. right. exact Hx.
Qed.

(** X25: on a book that a session reaches from the empty book,
    [birthdays] returns the empty list and raises nothing, and
    [show_birthday] never returns a birthday. *)
Theorem session_has_no_birthdays (c : libc) (today : date)
  (b : AddressBook) :
  session_book b ->
  birthdays c today b = (Done (Greetings []), b)
  /\ forall args f, fst (show_birthday args b) <> Done (OneField f).
Proof.
  intros Hs. pose proof (session_book_no_birthday b Hs) as Hn. split.
  - unfold birthdays, get_upcoming_birthdays.
    rewrite upcoming_loop_no_birthdays; [reflexivity |].
    intros r Hr. unfold dict_values in Hr. apply in_map_iff in Hr.
    destruct Hr as ([k r'] & <- & Hin). apply (Hn k r' Hin).
  - intros args f. unfold show_birthday, input_error_show_birthday,
      catch_index, show_birthday_body.
    destruct args as [| who rest]; cbn [item nth_error]; [discriminate |].
    destruct (dict_contains (VStr who) b); [| discriminate].
    destruct (find_record (VStr who) b) as [record |] eqn:Hf; [| discriminate].
    rewrite (Hn (VStr who) record (dict_get_in _ _ _ Hf)). discriminate.
Qed.

Lemma session_has_no_birthdays_witness :
  session_book [(VStr (py "Bob"),
                 mkContact (Name (py "Bob")) [Phone (py "0501234567")] None)]
  /\ birthdays glibc (mkdate 2024 3 10)
       [(VStr (py "Bob"),
         mkContact (Name (py "Bob")) [Phone (py "0501234567")] None)]
     = (Done (Greetings []),
        [(VStr (py "Bob"),
          mkContact (Name (py "Bob")) [Phone (py "0501234567")] None)]).
Proof.
  split; [exact session_of_bob |].
  apply (proj1 (session_has_no_birthdays glibc (mkdate 2024 3 10) _
                  session_of_bob)).
Defined.

(** X26: [add_contact] and [change_contact] let no exception escape:
    whatever the arguments and the book, each returns a text. *)
Theorem commands_answer_in_text (args : list str) (b : AddressBook) :
  (exists s, fst (add_contact args b) = Done (Text s))
  /\ (exists s, fst (change_contact args b) = Done (Text s)).
Proof.
  split.
  - destruct (add_contact_cases args b) as [Hshort Hlong].
    destruct args as [| who [| raw rest]];
      try (rewrite Hshort by (simpl; lia); eexists; reflexivity).
    destruct (Hlong who raw rest eq_refl) as [Hbad Hgood].
    destruct (Phone_init raw) as [f |] eqn:E.
    2: { rewrite Hbad by reflexivity. eexists. reflexivity. }
    apply Phone_init_inv in E. destruct E as (_ & Hd & Hl).
    destruct (Hgood Hd Hl) as [Hin Hout].
    destruct (find_record (VStr who) b) as [record |] eqn:Hf.
    + rewrite (Hin record eq_refl). eexists. reflexivity.
    + destruct (Hout eq_refl) as [Hname Hblank].
      destruct (forallb char_isspace who) eqn:Hw;
        [rewrite (Hblank eq_refl) | rewrite (Hname eq_refl)];
        eexists; reflexivity.
  - destruct (change_contact_cases args b) as [Hshort Hlong].
    destruct args as [| who [| raw_old rest]];
      try (rewrite Hshort by (simpl; lia); eexists; reflexivity).
    destruct (Hlong who raw_old rest eq_refl) as [Hbad Hgood].
    destruct (Phone_init raw_old) as [f |] eqn:E.
    2: { rewrite Hbad by reflexivity. eexists. reflexivity. }
    apply Phone_init_inv in E. destruct E as (_ & Hd & Hl).
    destruct (Hgood Hd Hl) as [Hnil Hcons].
    destruct rest as [| raw_new more].
    { rewrite (Hnil eq_refl). eexists. reflexivity. }
    destruct (Hcons raw_new more eq_refl) as [Hbad' Hgood'].
    destruct (Phone_init raw_new) as [f' |] eqn:E'.
    2: { rewrite Hbad' by reflexivity. eexists. reflexivity. }
    apply Phone_init_inv in E'. destruct E' as (_ & Hd' & Hl').
    destruct (Hgood' Hd' Hl') as [Hnone Hsome].
    destruct (find_record (VStr who) b) as [record |] eqn:Hf.
    2: { rewrite (Hnone eq_refl). eexists. reflexivity. }
    destruct (Hsome record eq_refl) as [Habsent Hpresent].
    destruct (find_phone raw_old record) as [p |] eqn:Hp.
    + destruct Hpresent as [-> _]; [discriminate |]. eexists. reflexivity.
    + rewrite (Habsent eq_refl). eexists. reflexivity.
Qed.

(* ================================================================== *)
(** * The words of a line *)
(* ================================================================== *)

Lemma split_ws_joined (current s : str) :
  List.concat (split_ws current s)
  = rev current ++ filter (fun ch => negb (char_isspace ch)) s.
Proof.
  revert current. induction s as [| ch rest IH]; intros current.
  - cbn [split_ws filter]. destruct current; cbn [List.concat];
      rewrite ?app_nil_r; reflexivity.
  - cbn [split_ws filter]. destruct (char_isspace ch); cbn [negb].
    + destruct current as [| x l].
      * rewrite IH. reflexivity.
      * cbn [List.concat]. rewrite IH. reflexivity.
    + rewrite IH. cbn [rev]. rewrite <- app_assoc. reflexivity.
Qed.

Lemma split_ws_words (current s : str) :
  forallb (fun ch => negb (char_isspace ch)) current = true ->
  Forall (fun w => w <> []
                   /\ forallb (fun ch => negb (char_isspace ch)) w = true)
         (split_ws current s).
Proof.
  revert current. induction s as [| ch rest IH]; intros current Hc.
  - cbn [split_ws]. destruct current as [| x l]; constructor; [| constructor].
    split.
    + intros E. apply (f_equal (@rev Z)) in E. rewrite rev_involutive in E.
      discriminate.
    + rewrite forallb_rev. exact Hc.
  - cbn [split_ws]. destruct (char_isspace ch) eqn:E.
    + destruct current as [| x l]; [apply IH; reflexivity |].
      constructor; [| apply IH; reflexivity]. split.
      * intros E'. apply (f_equal (@rev Z)) in E'.
        rewrite rev_involutive in E'. discriminate.
      * rewrite forallb_rev. exact Hc.
    + apply IH. cbn [forallb]. rewrite E, Hc. reflexivity.
Qed.

Lemma lstrip_word (w : str) :
  forallb (fun ch => negb (char_isspace ch)) w = true -> lstrip w = w.
Proof.
  destruct w as [| ch rest]; [reflexivity |]. cbn [forallb lstrip].
  rewrite andb_true_iff, negb_true_iff. intros [-> _]. reflexivity.
Qed.

Lemma strip_word (w : str) :
  forallb (fun ch => negb (char_isspace ch)) w = true -> strip w = w.
Proof.
  intros H. unfold strip, rstrip. rewrite (lstrip_word w H).
  rewrite lstrip_word by (rewrite forallb_rev; exact H).
  apply rev_involutive.
Qed.

Lemma all_space_filter (s : str) :
  filter (fun ch => negb (char_isspace ch)) s = []
  <-> forallb char_isspace s = true.
Proof.
  induction s as [| ch rest IH]; cbn [filter forallb]; [tauto |].
  destruct (char_isspace ch); cbn [negb andb]; [exact IH |].
  split; discriminate.
Qed.

(** X27: [parse_input] raises [ValueError] exactly on a line without a
    character that is not white space, the empty line among them;
    otherwise the command is the first word, put in lower case, the
    arguments are the other words in their order, no word is empty or
    holds white space, and the words together are the characters of the
    line that are not white space. *)
Theorem parse_input_words (lower : str -> str) (user_input : str) :
  (forallb char_isspace user_input = true ->
     parse_input lower user_input
     = Raise (ValueError
         (py "not enough values to unpack (expected at least 1, got 0)")))
  /\ (forallb char_isspace user_input = false ->
      exists cmd args,
        parse_input lower user_input = Ret (lower cmd, args)
        /\ Forall (fun w => w <> []
                     /\ forallb (fun ch => negb (char_isspace ch)) w = true)
                  (cmd :: args)
        /\ List.concat (cmd :: args)
           = filter (fun ch => negb (char_isspace ch)) user_input).
Proof.
  pose proof (split_ws_joined [] user_input) as Hc.
  pose proof (split_ws_words [] user_input eq_refl) as Hw.
  cbn [rev app] in Hc. unfold parse_input, str_split.
  destruct (split_ws [] user_input) as [| cmd args]; split; intros H.
  - reflexivity.
  - cbn [List.concat] in Hc. symmetry in Hc. apply all_space_filter in Hc.
    congruence.
  - exfalso. apply all_space_filter in H. rewrite H in Hc.
    inversion Hw as [| x l [Hne _] _]; subst.
    cbn [List.concat] in Hc. destruct cmd; [contradiction | discriminate].
  - exists cmd, args. split; [| split; [exact Hw | exact Hc]].
    inversion Hw as [| x l [_ Hcmd] _]; subst.
    rewrite (strip_word cmd Hcmd). reflexivity.
Qed.

Lemma parse_input_words_witness :
  forallb char_isspace (py "   ") = true
  /\ parse_input (fun s => s) (py "   ")
     = Raise (ValueError
         (py "not enough values to unpack (expected at least 1, got 0)"))
  /\ forallb char_isspace (py " add  Bob 0501234567") = false
  /\ exists cmd args,
       parse_input (fun s => s) (py " add  Bob 0501234567") = Ret (cmd, args)
       /\ Forall (fun w => w <> []
                    /\ forallb (fun ch => negb (char_isspace ch)) w = true)
                 (cmd :: args)
       /\ List.concat (cmd :: args)
          = filter (fun ch => negb (char_isspace ch))
              (py " add  Bob 0501234567").
Proof.
  split; [reflexivity |]. split.
  - apply (proj1 (parse_input_words (fun s => s) (py "   "))). reflexivity.
  - split; [reflexivity |].
    apply (proj2 (parse_input_words (fun s => s)
                    (py " add  Bob 0501234567"))).
    reflexivity.
Defined.

(** X28: after [add_contact] with a valid number and a name that is not
    blank, [show_phone] of that name returns the phones the record had
    before, none for a new name, followed by the new number, and
    [show_all] returns the book, never the text for the empty book. *)
Theorem add_contact_then_show_phone (who raw : str) (rest : list str)
  (b : AddressBook) :
  isdigit raw = true -> len raw = 10 ->
  forallb char_isspace who = false ->
  exists earlier,
    fst (show_phone [who] (snd (add_contact (who :: raw :: rest) b)))
    = Done (PhoneList (earlier ++ [Phone raw]))
    /\ (find_record (VStr who) b = None -> earlier = [])
    /\ (forall record, find_record (VStr who) b = Some record ->
                       earlier = phones record)
    /\ fst (show_all (snd (add_contact (who :: raw :: rest) b)))
       = Done (WholeBook (snd (add_contact (who :: raw :: rest) b))).
Proof.
  intros Hd Hl Hw.
  destruct (proj2 (add_contact_cases (who :: raw :: rest) b) who raw rest
              eq_refl) as [_ Hgood].
  destruct (Hgood Hd Hl) as [Hin Hout].
  unfold show_phone, input_error_show, catch_index, show_phone_body.
  cbn [item nth_error].
  destruct (find_record (VStr who) b) as [record |] eqn:Hf.
  - rewrite (Hin record eq_refl). cbn [snd]. exists (phones record).
    unfold find_record. rewrite dict_get_set, pyval_eqb_refl.
    cbn [fst phones set_phones].
    split; [reflexivity |]. split; [discriminate |].
    split; [intros r E; injection E as <-; reflexivity |].
    unfold show_all.
    destruct (dict_set (VStr who)
                (set_phones record (phones record ++ [Phone raw])) b)
      as [| kv l] eqn:E; [| reflexivity].
    exfalso. apply (f_equal (dict_get (VStr who))) in E.
    rewrite dict_get_set, pyval_eqb_refl in E. discriminate.
  - destruct (Hout eq_refl) as [Hname _]. rewrite (Hname Hw). cbn [snd].
    exists [].
    rewrite <- (dict_set_fresh (VStr who) (mkContact (Name who) [Phone raw] None) b)
      by (apply dict_contains_false_iff; exact Hf).
    unfold find_record. rewrite dict_get_set, pyval_eqb_refl.
    cbn [fst phones app].
    split; [reflexivity |]. split; [reflexivity |].
    split; [discriminate |].
    unfold show_all.
    destruct (dict_set (VStr who) (mkContact (Name who) [Phone raw] None) b)
      as [| kv l] eqn:E; [| reflexivity].
    exfalso. apply (f_equal (dict_get (VStr who))) in E.
    rewrite dict_get_set, pyval_eqb_refl in E. discriminate.
Qed.

Lemma add_contact_then_show_phone_witness :
  isdigit (py "0670000000") = true /\ len (py "0670000000") = 10
  /\ forallb char_isspace (py "Alice") = false
  /\ exists earlier,
       fst (show_phone [py "Alice"]
              (snd (add_contact [py "Alice"; py "0670000000"] book_of_alice)))
       = Done (PhoneList (earlier ++ [Phone (py "0670000000")]))
       /\ (find_record (VStr (py "Alice")) book_of_alice = None ->
           earlier = [])
       /\ (forall record,
             find_record (VStr (py "Alice")) book_of_alice = Some record ->
             earlier = phones record)
       /\ fst (show_all
                 (snd (add_contact [py "Alice"; py "0670000000"]
                         book_of_alice)))
          = Done (WholeBook
                    (snd (add_contact [py "Alice"; py "0670000000"]
                            book_of_alice))).
Proof.
  split; [reflexivity |]. split; [reflexivity |]. split; [reflexivity |].
  apply (add_contact_then_show_phone (py "Alice") (py "0670000000") []
           book_of_alice); reflexivity.
Defined.

Lemma add_contact_outcomes_witness :
  (List.length [py "Bob"] < 2)%nat
  /\ add_contact [py "Bob"] []
     = (Done (Text (py "Give me name and phone please.")), [])
  /\ is_raise (Phone_init (py "12")) = true
  /\ add_contact [py "Bob"; py "12"] []
     = (Done (Text (py "Phone number must consist of 10 digits.")), []).
Proof.
  split; [simpl; lia |]. split.
  - apply (proj1 (add_contact_outcomes [py "Bob"] [])). simpl. lia.
  - split; [reflexivity |].
    apply (proj1 (proj2 (add_contact_outcomes [py "Bob"; py "12"] [])
                    (py "Bob") (py "12") [] eq_refl)).
    reflexivity.
Defined.

Lemma change_contact_outcomes_witness :
  isdigit (py "0670000000") = true /\ len (py "0670000000") = 10
  /\ isdigit (py "0501234567") = true /\ len (py "0501234567") = 10
  /\ find_record (VStr (py "Alice")) book_of_alice = Some alice
  /\ find_phone (py "0670000000") alice = None
  /\ change_contact [py "Alice"; py "0670000000"; py "0501234567"]
       book_of_alice
     = (Done (Text (py "Old phone number not found.")), book_of_alice).
Proof.
  repeat (split; [reflexivity |]).
  apply (proj1 (proj2 (proj2 (proj2 (proj2
           (proj2 (change_contact_outcomes
                     [py "Alice"; py "0670000000"; py "0501234567"]
                     book_of_alice)
              (py "Alice") (py "0670000000") [py "0501234567"] eq_refl)
           eq_refl eq_refl)
           (py "0501234567") [] eq_refl) eq_refl eq_refl)
           alice eq_refl)).
  reflexivity.
Defined.
